(** * workspaces-js: account lifecycle and transaction execution

    A shallow embedding of [src/account/account-manager.ts]: the
    [AccountManager] hierarchy ([SandboxManager], [TestnetManager],
    [TestnetSubaccountManager]) and [ManagedTransaction].

    Asynchronous methods become computations in a state-and-exception
    monad.  A JavaScript exception keeps every side effect made before it
    was raised, so a computation returns its final state on both exits.
    The state is the manager object together with the world it acts on:
    the key store, the chain, the key files, the caller's file name, the
    random sources, and the trace of the calls made to them.

    The collaborators the code reaches through narrow interfaces are
    interfaces here as well: [KeyStore] for the key store, [Host] for the
    chain RPC provider, the signed submission, the account-creation helper,
    the random sources, [path.parse], [path.join] and the file system of
    the key files.  An account handle is its id; the
    store a manager uses ([config.keyStore ?? defaultKeyStore]) is the store
    of the world; the diagnostic [debug(...)] lines are left out. *)

From Stdlib Require Import String Ascii List NArith Bool Lia.
From stdpp Require Import base option list strings gmap.
Import ListNotations.
Local Open Scope string_scope.
Local Open Scope list_scope.

(** ** Values *)

Definition AccountId := string.
Definition AccountShortName := string.

(** A key pair is identified with its serialised secret
    ([keyPair.toString()]); its public half is determined by it. *)
Definition KeyPair := string.

Inductive PublicKey : Type := PubKeyOf (secret : KeyPair).

Definition getPublicKey (k : KeyPair) : PublicKey := PubKeyOf k.

#[global] Instance PublicKey_eq_dec : EqDecision PublicKey.
Proof. solve_decision. Defined.

(** Outcome of a computation: a value, or a thrown [Error] with its message. *)
Inductive Result (A : Type) : Type :=
| Ok (a : A)
| Throw (msg : string).
Arguments Ok {A} a.
Arguments Throw {A} msg.

Definition isOk {A} (r : Result A) : bool :=
  match r with Ok _ => true | Throw _ => false end.

(** ** JavaScript string operations used by the source *)

(** [s.startsWith(p)] *)
Definition startsWith (s p : string) : bool := String.prefix p s.

Fixpoint dropn (n : nat) (s : string) : string :=
  match n, s with
  | O, _ => s
  | S n', String _ s' => dropn n' s'
  | S _, EmptyString => EmptyString
  end.

(** [s.replace(pat, rep)] for a string pattern: only the first occurrence
    is replaced ([rep] holds no [$] pattern at the call sites). *)
Fixpoint replace (pat rep s : string) : string :=
  if String.prefix pat s then rep +:+ dropn (String.length pat) s
  else match s with
       | EmptyString => EmptyString
       | String c s' => String c (replace pat rep s')
       end.

(** [s.includes(p)] *)
Fixpoint includes (s p : string) : bool :=
  String.prefix p s ||
  match s with
  | EmptyString => false
  | String _ s' => includes s' p
  end.

(** [s.split('.')[0]]: the characters before the first dot. *)
Fixpoint split_dot_0 (s : string) : string :=
  match s with
  | EmptyString => EmptyString
  | String c s' => if Ascii.eqb c "." then EmptyString else String c (split_dot_0 s')
  end.

(** [s.indexOf(pat)] *)
Fixpoint indexOf (s pat : string) : option nat :=
  if String.prefix pat s then Some O
  else match s with
       | EmptyString => None
       | String _ s' => S <$> indexOf s' pat
       end.

(** ** The key store (interface [KeyStore] of near-api-js)

    [getKey(network, id)], [setKey(network, id, kp)],
    [removeKey(network, id)], [getAccounts(network)].  The laws are the
    ones the account manager relies on: a write is read back, and writes
    are scoped by (network, account). *)
Class KeyStore : Type := {
  Store : Type;
  ks_getKey : Store -> string -> AccountId -> option KeyPair;
  ks_setKey : Store -> string -> AccountId -> KeyPair -> Store;
  ks_removeKey : Store -> string -> AccountId -> Store;
  ks_getAccounts : Store -> string -> list AccountId;
  ks_get_set_eq : forall s n a k, ks_getKey (ks_setKey s n a k) n a = Some k;
  ks_get_set_ne : forall s n a k n' a',
      (n, a) <> (n', a') -> ks_getKey (ks_setKey s n a k) n' a' = ks_getKey s n' a';
  ks_get_remove_eq : forall s n a, ks_getKey (ks_removeKey s n a) n a = None;
  ks_get_remove_ne : forall s n a n' a',
      (n, a) <> (n', a') -> ks_getKey (ks_removeKey s n a) n' a' = ks_getKey s n' a';
}.

(** ** Transactions *)

Inductive Action : Type :=
| CreateAccount
| Transfer (amount : N)
| DeployContract (code : string)
| FunctionCall (method args : string) (gas deposit : N)
| AddKey (pk : PublicKey)
| DeleteKey (pk : PublicKey)
| DeleteAccount (beneficiaryId : AccountId).

Definition isDeleteAccount (a : Action) : bool :=
  match a with DeleteAccount _ => true | _ => false end.

(** [FinalExecutionStatus | FinalExecutionStatusBasic] of the provider: an
    object carrying [SuccessValue] or [Failure], or a bare string. *)
Inductive ExecutionStatus : Type :=
| SuccessValue (value : string)
| Failure (error : string)
| StatusBasic (tag : string).

Record FinalExecutionOutcome : Type := {
  status : ExecutionStatus;
  logs : list string;
}.

(** [status.SuccessValue !== undefined] *)
Definition hasSuccessValue (s : ExecutionStatus) : bool :=
  match s with SuccessValue _ => true | _ => false end.

Record AccountBalance : Type := {
  total : N;
  available : N;
}.

(** [path.parse(fileName)], the two fields the source reads. *)
Record ParsedPath : Type := {
  ext : string;
  name : string;
}.

(** ** External collaborators other than the key store

    The chain is a state of an abstract type; the RPC provider, the signed
    submission of near-api-js ([Account.signAndSendTransaction]) and the
    testnet helper ([UrlAccountCreator.createAccount]) act on it.  The
    submission signs with the key the signer finds in the key store for the
    sender; it reads the store and never writes it. *)
Class Host : Type := {
  Chain : Type;
  accountExists : Chain -> AccountId -> bool;
  account_balance : Chain -> AccountId -> Result AccountBalance;
  signAndSendTransaction :
    Chain -> option KeyPair -> AccountId -> AccountId -> list Action ->
    Result FinalExecutionOutcome * Chain;
  helperCreateAccount : Chain -> AccountId -> PublicKey -> Result unit * Chain;
  (** [Date.now()] / [Math.random()] as a text, by draw number *)
  randomNonce : nat -> string;
  (** [KeyPairEd25519.fromRandom()], by draw number *)
  fromRandom : nat -> KeyPair;
  (** [path.parse] of Node *)
  path_parse : string -> ParsedPath;
  (** [path.join] of Node *)
  path_join : string -> string -> string;
  (** The file system as the key files meet it, Node's module cache
      included, and an open file *)
  Files : Type;
  FileHandle : Type;
  (** [require(filePath)] and [KeyPair.fromString] of its [secret_key] or
      [private_key]: each of the two may throw *)
  require_keyFile : Files -> string -> Result KeyPair * Files;
  (** [fs.open(filePath, "w")] *)
  fs_open : Files -> string -> Result FileHandle * Files;
  (** [keyFile.writeFile(JSON.stringify({secret_key: keyPair.toString()}))] *)
  keyFile_writeFile : Files -> FileHandle -> KeyPair -> Result unit * Files;
  (** [keyFile.close()] *)
  keyFile_close : Files -> FileHandle -> Result unit * Files;
}.

(** [toYocto(n)]: whole tokens to the chain's 10^-24 unit. *)
Definition toYocto (tokens : N) : N := (tokens * 10 ^ 24)%N.

(** ** Observable calls to the collaborators, in program order *)
Inductive Event : Type :=
| EvGetKey (network : string) (id : AccountId)
| EvSetKey (network : string) (id : AccountId) (k : KeyPair)
| EvRemoveKey (network : string) (id : AccountId)
| EvGetAccounts (network : string)
| EvAccountExists (id : AccountId)
| EvAccountBalance (id : AccountId)
| EvSubmit (senderId receiverId : AccountId) (actions : list Action)
| EvHelperCreate (id : AccountId) (pk : PublicKey)
| EvReadKeyFile (path : string)
| EvOpenKeyFile (path : string)
| EvWriteKeyFile (path : string) (k : KeyPair)
| EvCloseKeyFile (path : string)
| EvConsole (line : string).

(** A submission of a signed transaction, a request to the
    account-creation service, a balance query. *)
Definition isSubmit (e : Event) : bool :=
  match e with EvSubmit _ _ _ => true | _ => false end.

Definition isHelperCreate (e : Event) : bool :=
  match e with EvHelperCreate _ _ => true | _ => false end.

Definition isBalanceCheck (e : Event) : bool :=
  match e with EvAccountBalance _ => true | _ => false end.

(** The delete-account requests among the submitted transactions, as
    (deleted account, beneficiary). *)
Definition deletionsOfActions (receiverId : AccountId) (acts : list Action)
  : list (AccountId * AccountId) :=
  flat_map (fun a => match a with
                     | DeleteAccount b => [(receiverId, b)]
                     | _ => []
                     end) acts.

Definition deletionsOf (e : Event) : list (AccountId * AccountId) :=
  match e with
  | EvSubmit _ r acts => deletionsOfActions r acts
  | _ => []
  end.

Definition deletions (t : list Event) : list (AccountId * AccountId) :=
  flat_map deletionsOf t.

Definition isRemoveKeyOf (network : string) (id : AccountId) (e : Event) : bool :=
  match e with
  | EvRemoveKey n a => bool_decide (n = network) && bool_decide (a = id)
  | _ => false
  end.

(** ** Configuration and manager objects *)

(** [near.config], the fields the account managers read.  The optional
    [keyStore] field is the store of the world below. *)
Record Config : Type := {
  network : string;
  rootAccount : option AccountId;
  initialBalance : option N;
  homeDir : string;
  helperUrl : option string;
}.

Definition with_rootAccount (r : option AccountId) (c : Config) : Config :=
  {| network := network c; rootAccount := r; initialBalance := initialBalance c;
     homeDir := homeDir c; helperUrl := helperUrl c |}.

Inductive Variant : Type := Sandbox | Testnet | TestnetSubaccount.

#[global] Instance Variant_eq_dec : EqDecision Variant.
Proof. solve_decision. Defined.

(** [accountsCreated] is a JavaScript [Map]: keys are kept in insertion
    order, and setting a present key keeps its position. *)
Fixpoint Map_set (k : AccountId) (v : AccountShortName)
         (m : list (AccountId * AccountShortName)) : list (AccountId * AccountShortName) :=
  match m with
  | [] => [(k, v)]
  | (k', v') :: m' => if String.eqb k' k then (k', v) :: m' else (k', v') :: Map_set k v m'
  end.

Fixpoint Map_get (k : AccountId) (m : list (AccountId * AccountShortName))
  : option AccountShortName :=
  match m with
  | [] => None
  | (k', v') :: m' => if String.eqb k' k then Some v' else Map_get k m'
  end.

Definition Map_keys (m : list (AccountId * AccountShortName)) : list AccountId :=
  map fst m.

Record Manager : Type := {
  variant : Variant;
  config : Config;
  accountsCreated : list (AccountId * AccountShortName);
  subAccount : option AccountId;
}.

Definition with_accountsCreated (t : list (AccountId * AccountShortName)) (m : Manager) : Manager :=
  {| variant := variant m; config := config m; accountsCreated := t;
     subAccount := subAccount m |}.

Definition with_config (c : Config) (m : Manager) : Manager :=
  {| variant := variant m; config := c; accountsCreated := accountsCreated m;
     subAccount := subAccount m |}.

Definition with_subAccount (s : option AccountId) (m : Manager) : Manager :=
  {| variant := variant m; config := config m; accountsCreated := accountsCreated m;
     subAccount := s |}.

(** [new SandboxManager(near)], [new TestnetManager(near)], ... *)
Definition newManager (v : Variant) (near : Config) : Manager :=
  {| variant := v; config := near; accountsCreated := []; subAccount := None |}.

(** A missing string read where the source asserts it present
    ([rootAccount!], [subAccount!]) is JavaScript's [undefined]; in the
    string positions it reaches it reads as the text below. *)
Definition undefinedText : string := "undefined".

(** [get rootAccountId()], overridden by [TestnetSubaccountManager]. *)
Definition rootAccountId (m : Manager) : AccountId :=
  match variant m with
  | TestnetSubaccount => default undefinedText (subAccount m)
  | _ => default undefinedText (rootAccount (config m))
  end.

(** [get networkId()] *)
Definition networkId (m : Manager) : string := network (config m).

(** [TestnetSubaccountManager.realRoot.accountId] *)
Definition realRootId (m : Manager) : AccountId :=
  default undefinedText (rootAccount (config m)).

(** [get keyFilePath()] of [SandboxManager] *)
Definition keyFilePath {HO : Host} (m : Manager) : string :=
  path_join (homeDir (config m)) "validator_key.json".

(** [get DEFAULT_INITIAL_BALANCE()], per variant; the subaccount manager
    inherits the testnet one. *)
Definition DEFAULT_INITIAL_BALANCE (m : Manager) : N :=
  match variant m with
  | Sandbox => toYocto 200
  | _ => toYocto 50
  end.

(** [get initialBalance()], overridden by [TestnetSubaccountManager]. *)
Definition managerInitialBalance (m : Manager) : N :=
  match variant m with
  | TestnetSubaccount => toYocto 10
  | _ => default (DEFAULT_INITIAL_BALANCE m) (initialBalance (config m))
  end.

Section Model.
Context {KS : KeyStore} {HO : Host}.

(** ** The world outside the manager object *)
Record World : Type := {
  keyStore : Store;
  chain : Chain;
  keyFiles : Files;
  callerFile : string;
  draws : nat;
  trace : list Event;
}.

Record St : Type := {
  world : World;
  mgr : Manager;
}.

Definition with_keyStore (s : Store) (w : World) : World :=
  {| keyStore := s; chain := chain w; keyFiles := keyFiles w;
     callerFile := callerFile w; draws := draws w; trace := trace w |}.

Definition with_chain (c : Chain) (w : World) : World :=
  {| keyStore := keyStore w; chain := c; keyFiles := keyFiles w;
     callerFile := callerFile w; draws := draws w; trace := trace w |}.

Definition with_keyFiles (f : Files) (w : World) : World :=
  {| keyStore := keyStore w; chain := chain w; keyFiles := f;
     callerFile := callerFile w; draws := draws w; trace := trace w |}.

Definition with_draws (n : nat) (w : World) : World :=
  {| keyStore := keyStore w; chain := chain w; keyFiles := keyFiles w;
     callerFile := callerFile w; draws := n; trace := trace w |}.

Definition logged (e : Event) (w : World) : World :=
  {| keyStore := keyStore w; chain := chain w; keyFiles := keyFiles w;
     callerFile := callerFile w; draws := draws w; trace := trace w ++ [e] |}.

Definition on_world (f : World -> World) (st : St) : St :=
  {| world := f (world st); mgr := mgr st |}.

Definition on_mgr (f : Manager -> Manager) (st : St) : St :=
  {| world := world st; mgr := f (mgr st) |}.

(** ** The monad of asynchronous methods *)
Definition M (A : Type) : Type := St -> Result A * St.

Definition ret {A} (a : A) : M A := fun st => (Ok a, st).

Definition bind {A B} (m : M A) (k : A -> M B) : M B :=
  fun st => match m st with
            | (Ok a, st') => k a st'
            | (Throw e, st') => (Throw e, st')
            end.

Definition throw {A} (msg : string) : M A := fun st => (Throw msg, st).

(** [try { body } catch (e) { handler(e) }] *)
Definition try_catch {A} (body : M A) (handler : string -> M A) : M A :=
  fun st => match body st with
            | (Ok a, st') => (Ok a, st')
            | (Throw e, st') => handler e st'
            end.

#[global] Instance M_ret : MRet M := @ret.
#[global] Instance M_bind : MBind M := fun A B k m => bind m k.

Definition this : M Manager := fun st => (Ok (mgr st), st).

Definition update_this (f : Manager -> Manager) : M unit :=
  fun st => (Ok tt, on_mgr f st).

Definition emit (e : Event) : M unit :=
  fun st => (Ok tt, on_world (logged e) st).

(** One draw from the random sources. *)
Definition draw : M nat :=
  fun st => (Ok (draws (world st)), on_world (with_draws (S (draws (world st)))) st).

(** [Promise.all(tasks)]: every task has been started and runs to its
    end; the joint await rejects with the first error when one of them
    threw.  The tasks are run one after the other in list order: how
    their steps interleave is not modelled. *)
Fixpoint Promise_all {A} (tasks : list (M A)) : M (list A) :=
  match tasks with
  | [] => ret []
  | t :: ts =>
      fun st =>
        match t st with
        | (Ok a, st1) =>
            match Promise_all ts st1 with
            | (Ok l, st2) => (Ok (a :: l), st2)
            | (Throw e, st2) => (Throw e, st2)
            end
        | (Throw e, st1) => (Throw e, snd (Promise_all ts st1))
        end
  end.

(** ** Calls to the collaborators *)

Definition keyStore_getKey (net : string) (id : AccountId) : M (option KeyPair) :=
  fun st => (Ok (ks_getKey (keyStore (world st)) net id),
             on_world (logged (EvGetKey net id)) st).

Definition keyStore_setKey (net : string) (id : AccountId) (k : KeyPair) : M unit :=
  fun st => (Ok tt,
             on_world (fun w => logged (EvSetKey net id k)
                                  (with_keyStore (ks_setKey (keyStore w) net id k) w)) st).

Definition keyStore_removeKey (net : string) (id : AccountId) : M unit :=
  fun st => (Ok tt,
             on_world (fun w => logged (EvRemoveKey net id)
                                  (with_keyStore (ks_removeKey (keyStore w) net id) w)) st).

Definition keyStore_getAccounts (net : string) : M (list AccountId) :=
  fun st => (Ok (ks_getAccounts (keyStore (world st)) net),
             on_world (logged (EvGetAccounts net)) st).

Definition provider_accountExists (id : AccountId) : M bool :=
  fun st => (Ok (accountExists (chain (world st)) id),
             on_world (logged (EvAccountExists id)) st).

Definition provider_account_balance (id : AccountId) : M AccountBalance :=
  fun st => (account_balance (chain (world st)) id,
             on_world (logged (EvAccountBalance id)) st).

(** [new nearAPI.Account(connection, senderId).signAndSendTransaction(...)]:
    the signer of the connection reads the sender's key of the manager's
    network from the key store. *)
Definition account_signAndSendTransaction (net : string) (senderId receiverId : AccountId)
           (actions : list Action) : M FinalExecutionOutcome :=
  fun st =>
    let w := world st in
    let '(r, c) := signAndSendTransaction (chain w) (ks_getKey (keyStore w) net senderId)
                                          senderId receiverId actions in
    (r, on_world (fun w => logged (EvSubmit senderId receiverId actions) (with_chain c w)) st).

Definition accountCreator_createAccount (id : AccountId) (pk : PublicKey) : M unit :=
  fun st =>
    let '(r, c) := helperCreateAccount (chain (world st)) id pk in
    (r, on_world (fun w => logged (EvHelperCreate id pk) (with_chain c w)) st).

Definition console_log (line : string) : M unit := emit (EvConsole line).

(** The key of a key file: [require(filePath)] and [KeyPair.fromString]
    of its [secret_key] or, without one, of its [private_key]. *)
Definition fs_requireKeyFile (filePath : string) : M KeyPair :=
  fun st =>
    let '(r, f) := require_keyFile (keyFiles (world st)) filePath in
    (r, on_world (fun w => logged (EvReadKeyFile filePath) (with_keyFiles f w)) st).

Definition fs_openKeyFile (filePath : string) : M FileHandle :=
  fun st =>
    let '(r, f) := fs_open (keyFiles (world st)) filePath in
    (r, on_world (fun w => logged (EvOpenKeyFile filePath) (with_keyFiles f w)) st).

(** [filePath] is the path the handle was opened for. *)
Definition fs_writeKeyFile (filePath : string) (keyFile : FileHandle) (k : KeyPair) : M unit :=
  fun st =>
    let '(r, f) := keyFile_writeFile (keyFiles (world st)) keyFile k in
    (r, on_world (fun w => logged (EvWriteKeyFile filePath k) (with_keyFiles f w)) st).

Definition fs_closeKeyFile (filePath : string) (keyFile : FileHandle) : M unit :=
  fun st =>
    let '(r, f) := keyFile_close (keyFiles (world st)) keyFile in
    (r, on_world (fun w => logged (EvCloseKeyFile filePath) (with_keyFiles f w)) st).

(** [KeyPairEd25519.fromRandom()] *)
Definition KeyPairEd25519_fromRandom : M KeyPair :=
  n ← draw; mret (fromRandom n).

(** ** Transactions bound to a manager *)

(** Modelled from the spec: the base builder [Transaction] of
    [runtime/transaction.ts] is not among the sources.  It holds the sender
    id, the receiver id and the ordered list of actions; each chained call
    appends one action; sender and receiver are fixed at construction.
    [delete] is the private flag [ManagedTransaction] adds to it. *)
Record Transaction : Type := {
  senderId : AccountId;
  receiverId : AccountId;
  actions : list Action;
  delete : bool;
}.

Definition Transaction_push (a : Action) (tx : Transaction) : Transaction :=
  {| senderId := senderId tx; receiverId := receiverId tx;
     actions := actions tx ++ [a]; delete := delete tx |}.

Definition Transaction_createAccount (tx : Transaction) : Transaction :=
  Transaction_push CreateAccount tx.

Definition Transaction_deleteAccount (beneficiaryId : AccountId) (tx : Transaction) : Transaction :=
  Transaction_push (DeleteAccount beneficiaryId) tx.

Definition Transaction_transfer (amount : N) (tx : Transaction) : Transaction :=
  Transaction_push (Transfer amount) tx.

Definition Transaction_deployContract (code : string) (tx : Transaction) : Transaction :=
  Transaction_push (DeployContract code) tx.

Definition Transaction_functionCall (method args : string) (gas deposit : N)
           (tx : Transaction) : Transaction :=
  Transaction_push (FunctionCall method args gas deposit) tx.

Definition Transaction_addKey (pk : PublicKey) (tx : Transaction) : Transaction :=
  Transaction_push (AddKey pk) tx.

Definition Transaction_deleteKey (pk : PublicKey) (tx : Transaction) : Transaction :=
  Transaction_push (DeleteKey pk) tx.

(** [new ManagedTransaction(manager, sender, receiver)]; the manager is the
    one of the state, [private delete = false]. *)
Definition createTransaction (sender receiver : AccountId) : Transaction :=
  {| senderId := sender; receiverId := receiver; actions := []; delete := false |}.

(** [ManagedTransaction.deleteAccount(beneficiaryId)] *)
Definition ManagedTransaction_deleteAccount (beneficiaryId : AccountId) (tx : Transaction)
  : Transaction :=
  Transaction_deleteAccount beneficiaryId
    {| senderId := senderId tx; receiverId := receiverId tx;
       actions := actions tx; delete := true |}.

(** ** [AccountManager] *)

Definition getKey (accountId : AccountId) : M (option KeyPair) :=
  m ← this; keyStore_getKey (networkId m) accountId.

(** [setKey(accountId, keyPair?)].  The value returned is the one read back,
    [(await this.getKey(accountId))!]; by the store's law it is the key
    just written. *)
Definition setKey (accountId : AccountId) (keyPair : option KeyPair) : M KeyPair :=
  key ← match keyPair with
        | Some k => mret k
        | None => KeyPairEd25519_fromRandom
        end;
  m ← this;
  keyStore_setKey (networkId m) accountId key;;
  r ← getKey accountId;
  mret (default key r).

Definition removeKey (accountId : AccountId) : M unit :=
  m ← this; keyStore_removeKey (networkId m) accountId.

Definition deleteKey (account_id : AccountId) : M unit :=
  m ← this; keyStore_removeKey (networkId m) account_id.

Definition getRootKey : M KeyPair :=
  m ← this;
  keyPair ← getKey (rootAccountId m);
  match keyPair with
  | None => setKey (rootAccountId m) None
  | Some k => mret k
  end.

Definition balance (account : AccountId) : M AccountBalance :=
  provider_account_balance account.

Definition exists_ (accountId : AccountId) : M bool :=
  provider_accountExists accountId.

Definition executeTransaction (tx : Transaction) (keyPair : option KeyPair)
  : M FinalExecutionOutcome :=
  m ← this;
  let accountId := senderId tx in
  oldKey ← match keyPair with
           | Some kp =>
               old ← getKey accountId;
               setKey accountId (Some kp);;
               mret old
           | None => mret None
           end;
  outcome ← account_signAndSendTransaction (networkId m) accountId (receiverId tx) (actions tx);
  match oldKey with
  | Some old => setKey accountId (Some old);; mret tt
  | None => mret tt
  end;;
  mret outcome.

Definition addAccountCreated (account sender : AccountId) : M unit :=
  let short := replace ("." +:+ sender) "" account in
  update_this (fun m => with_accountsCreated (Map_set account short (accountsCreated m)) m).

(** [AccountManager.cleanup()]: the empty body of the base class. *)
Definition AccountManager_cleanup : M unit := mret tt.

(** [AccountManager.init()]: the base class returns [this]. *)
Definition AccountManager_init : M unit := mret tt.

(** ** [ManagedTransaction] *)

Definition ManagedTransaction_createAccount (tx : Transaction) : M Transaction :=
  addAccountCreated (receiverId tx) (senderId tx);;
  mret (Transaction_createAccount tx).

Definition signAndSend (tx : Transaction) (keyPair : option KeyPair)
  : M FinalExecutionOutcome :=
  executionResult ← executeTransaction tx keyPair;
  (if hasSuccessValue (status executionResult) && delete tx
   then deleteKey (receiverId tx)
   else mret tt);;
  mret executionResult.

(** ** The account facade *)

(** Modelled from the spec: [account/account.ts] is not among the sources.
    [delete(beneficiaryId)] builds and sends a delete-account transaction of
    the account on itself through the manager. *)
Definition Account_delete (accountId beneficiaryId : AccountId) : M FinalExecutionOutcome :=
  signAndSend (ManagedTransaction_deleteAccount beneficiaryId
                 (createTransaction accountId accountId)) None.

(** Modelled from the spec: [makeSubAccount(shortName)] of the absent
    [account/account.ts] is a pure string concatenation. *)
Definition Account_makeSubAccount (accountId shortName : AccountId) : AccountId :=
  shortName +:+ "." +:+ accountId.

(** Modelled from the spec: [createAccount(id, opts)] of the absent
    [account/account.ts] builds and sends a create-account transaction (with
    the initial balance) through the manager. *)
Definition Account_createAccount (parentId accountId : AccountId) (initial : N) : M unit :=
  tx ← ManagedTransaction_createAccount (createTransaction parentId accountId);
  signAndSend (Transaction_transfer initial tx) None;;
  mret tt.

Definition AccountManager_deleteAccount (accountId beneficiaryId : AccountId) : M unit :=
  Account_delete accountId beneficiaryId;; mret tt.

(** ** Random names and the key file *)

(** Modelled from the spec: [randomAccountId(prefix, suffix)] of the absent
    [utils.ts] synthesises a fresh random account id between the prefix and
    the suffix; the defaults are those of the copy in [runtime/runtime.ts]
    ([dev-], then a time stamp, then [-] and a random number). *)
Definition randomAccountId (prefix suffix : option string) : M AccountId :=
  sfx ← match suffix with
        | Some s => mret s
        | None => k ← draw; mret ("-" +:+ randomNonce k)
        end;
  n ← draw;
  mret (default "dev-" prefix +:+ randomNonce n +:+ sfx).

(** [getKeyFromFile(filePath, create = true)] as in [runtime/runtime.ts]:
    the key of the file; when reading it throws, the error is passed on
    unless [create], and else the file is opened for writing and a fresh
    key written to it.  An error of [fs.open], [writeFile] or [close]
    leaves the function. *)
Definition getKeyFromFile (filePath : string) (create : bool) : M KeyPair :=
  try_catch (fs_requireKeyFile filePath)
            (fun e =>
               if negb create then throw e
               else
                 keyFile ← fs_openKeyFile filePath;
                 keyPair ← KeyPairEd25519_fromRandom;
                 fs_writeKeyFile filePath keyFile keyPair;;
                 fs_closeKeyFile filePath keyFile;;
                 mret keyPair).

(** [findCallerFile()]: the caller's source file, a fact of the run. *)
Definition findCallerFile : M string :=
  fun st => (Ok (callerFile (world st)), st).

Definition findAccountsWithPrefix (prefix : string) (network : string) : M (list AccountId) :=
  accounts ← keyStore_getAccounts network;
  let paths := filter (fun f => Is_true (startsWith f prefix)) accounts in
  if (0 <? length paths)%nat then mret paths
  else id ← randomAccountId (Some prefix) (Some ""); mret [id].

(** ** [TestnetManager] *)

(** A JavaScript condition on an optional string: absent and empty are
    both false. *)
Definition truthy (s : option string) : bool :=
  match s with
  | Some t => negb (String.eqb t "")
  | None => false
  end.

Definition TestnetManager_createAccount (accountId : AccountId) (pubKey : PublicKey)
  : M AccountId :=
  accountCreator_createAccount accountId pubKey;;
  mret accountId.

Definition addFunds : M unit :=
  temporaryId ← randomAccountId None None;
  console_log temporaryId;;
  keyPair ← getRootKey;
  m ← this;
  keyStore_setKey (networkId m) temporaryId keyPair;;
  account ← TestnetManager_createAccount temporaryId (getPublicKey keyPair);
  Account_delete account (rootAccountId m);;
  mret tt.

Definition initRootAccount : M unit :=
  m ← this;
  if truthy (rootAccount (config m)) then mret tt
  else
    fileName ← findCallerFile;
    let p := path_parse fileName in
    if bool_decide (ext p ∈ [".ts"; ".js"]) then
      let name := if includes (name p) "." then split_dot_0 (name p) else name p in
      accounts ← findAccountsWithPrefix name (networkId m);
      match accounts with
      | accountId :: others =>
          Promise_all (map (fun acc => AccountManager_deleteAccount acc accountId) others);;
          update_this (fun m => with_config (with_rootAccount (Some accountId) (config m)) m)
      | [] =>
          update_this (fun m => with_config (with_rootAccount None (config m)) m)
      end
    else throw ("Bad filename/account name passed: " +:+ fileName).

Definition createAndFundAccount : M unit :=
  initRootAccount;;
  m ← this;
  let accountId := rootAccountId m in
  present ← provider_accountExists accountId;
  (if negb present then
     keyPair ← getRootKey;
     keyStore_setKey (networkId m) accountId keyPair;;
     TestnetManager_createAccount accountId (getPublicKey keyPair);;
     mret tt
   else mret tt);;
  b ← balance (rootAccountId m);
  if (available b <? toYocto 1000)%N then addFunds else mret tt.

Definition TestnetManager_init : M unit := createAndFundAccount.

(** ** [TestnetSubaccountManager] *)

Definition TestnetSubaccountManager_init : M unit :=
  m ← this;
  let root := realRootId m in
  n ← randomAccountId (Some "") (Some "");
  let sub := Account_makeSubAccount root n in
  update_this (with_subAccount (Some sub));;
  Account_createAccount root sub (toYocto 50).

Definition TestnetSubaccountManager_cleanup : M unit :=
  m ← this;
  Promise_all (map (fun id => Account_delete id (realRootId m))
                   (Map_keys (accountsCreated m)));;
  mret tt.

(** ** [SandboxManager] *)

Definition SandboxManager_init : M unit :=
  m ← this;
  k ← getKey (rootAccountId m);
  match k with
  | Some _ => mret tt
  | None =>
      fileKey ← getKeyFromFile (keyFilePath m) true;
      setKey (rootAccountId m) (Some fileKey);;
      mret tt
  end.

(** ** Dynamic dispatch and the factory *)

(** [manager.init()] *)
Definition init : M unit :=
  m ← this;
  match variant m with
  | Sandbox => SandboxManager_init
  | Testnet => TestnetManager_init
  | TestnetSubaccount => TestnetSubaccountManager_init
  end.

(** [manager.cleanup()]: only [TestnetSubaccountManager] overrides it. *)
Definition cleanup : M unit :=
  m ← this;
  match variant m with
  | TestnetSubaccount => TestnetSubaccountManager_cleanup
  | _ => AccountManager_cleanup
  end.

(** Run a method of a manager object in a world; the object it leaves is
    returned with the value. *)
Definition on_object {A} (o : Manager) (c : M A) (w : World) : Result (A * Manager) * World :=
  match c {| world := w; mgr := o |} with
  | (Ok a, st) => (Ok (a, mgr st), world st)
  | (Throw e, st) => (Throw e, world st)
  end.

(** The double quote character. *)
Definition quote : string := String (ascii_of_nat 34) EmptyString.

(** The message of the error [create] throws. *)
Definition badNetworkMessage (network : string) : string :=
  "Bad network id: " +:+ network +:+ " expected " +:+ quote +:+ "testnet"
  +:+ quote +:+ " or " +:+ quote +:+ "sandbox" +:+ quote.

(** [AccountManager.create(near)] *)
Definition create (near : Config) (w : World) : Result Manager * World :=
  if String.eqb (network near) "sandbox" then
    match on_object (newManager Sandbox near) init w with
    | (Ok (_, o), w') => (Ok o, w')
    | (Throw e, w') => (Throw e, w')
    end
  else if String.eqb (network near) "testnet" then
    match on_object (newManager Testnet near) init w with
    | (Ok (_, o), w') => (Ok o, w')
    | (Throw e, w') => (Throw e, w')
    end
  else
    (Throw (badNetworkMessage (network near)), w).

(** A method of another manager object, called from a method of this one. *)
Definition in_object {A} (o : Manager) (c : M A) : M (A * Manager) :=
  fun st =>
    match on_object o c (world st) with
    | (r, w') => (r, {| world := w'; mgr := mgr st |})
    end.

(** [TestnetManager.createFrom(near)]: a subaccount manager under this
    manager's root, initialised. *)
Definition TestnetManager_createFrom (near : Config) : M Manager :=
  m ← this;
  r ← in_object (newManager TestnetSubaccount
                   (with_rootAccount (Some (rootAccountId m)) near))
                TestnetSubaccountManager_init;
  mret (snd r).

(** [SandboxManager.createFrom(near)] *)
Definition SandboxManager_createFrom (near : Config) : M Manager :=
  mret (newManager Sandbox near).

End Model.

(** ** An in-memory key store

    Entries are kept in insertion order, as the in-memory store of
    near-api-js keeps them; [getAccounts] returns the ids of a network in
    that order. *)
Definition same_slot (n : string) (a : AccountId) (e : string * AccountId * KeyPair) : bool :=
  String.eqb (fst (fst e)) n && String.eqb (snd (fst e)) a.

Fixpoint mem_getKey (s : list (string * AccountId * KeyPair)) (n : string) (a : AccountId)
  : option KeyPair :=
  match s with
  | [] => None
  | e :: s' => if same_slot n a e then Some (snd e) else mem_getKey s' n a
  end.

Fixpoint mem_setKey (s : list (string * AccountId * KeyPair)) (n : string) (a : AccountId)
         (k : KeyPair) : list (string * AccountId * KeyPair) :=
  match s with
  | [] => [(n, a, k)]
  | e :: s' => if same_slot n a e then (n, a, k) :: s' else e :: mem_setKey s' n a k
  end.

Fixpoint mem_removeKey (s : list (string * AccountId * KeyPair)) (n : string) (a : AccountId)
  : list (string * AccountId * KeyPair) :=
  match s with
  | [] => []
  | e :: s' => if same_slot n a e then mem_removeKey s' n a else e :: mem_removeKey s' n a
  end.

Fixpoint mem_getAccounts (s : list (string * AccountId * KeyPair)) (n : string)
  : list AccountId :=
  match s with
  | [] => []
  | e :: s' => if String.eqb (fst (fst e)) n then snd (fst e) :: mem_getAccounts s' n
               else mem_getAccounts s' n
  end.

#[global, refine] Instance MemStore : KeyStore := {|
  Store := list (string * AccountId * KeyPair);
  ks_getKey := mem_getKey;
  ks_setKey := mem_setKey;
  ks_removeKey := mem_removeKey;
  ks_getAccounts := mem_getAccounts;
|}.
Proof.
  all: assert (same_slot_true : forall n a e, same_slot n a e = true <-> fst e = (n, a)).
  1, 3, 5, 7:
    intros n a [[n0 a0] k0]; unfold same_slot; simpl;
    rewrite andb_true_iff, !String.eqb_eq; split;
    [intros [-> ->]; reflexivity | intros [= -> ->]; auto].
  all: assert (same_slot_other : forall n a n' a' e,
                  (n, a) <> (n', a') -> same_slot n a e = true -> same_slot n' a' e = false).
  1, 3, 5, 7:
    intros n a n' a' e Hne Hs; apply same_slot_true in Hs;
    destruct (same_slot n' a' e) eqn:E; [|reflexivity];
    apply same_slot_true in E; congruence.
  - intros s n a k. induction s as [|e s IH]; simpl.
    + replace (same_slot n a (n, a, k)) with true; [reflexivity|].
      symmetry. apply same_slot_true. reflexivity.
    + destruct (same_slot n a e) eqn:E; simpl.
      * replace (same_slot n a (n, a, k)) with true; [reflexivity|].
        symmetry. apply same_slot_true. reflexivity.
      * rewrite E. exact IH.
  - intros s n a k n' a' Hne. induction s as [|e s IH]; simpl.
    + rewrite (same_slot_other n a n' a' (n, a, k)); auto.
      apply same_slot_true. reflexivity.
    + destruct (same_slot n a e) eqn:E; simpl.
      * rewrite (same_slot_other n a n' a' (n, a, k)); auto.
        -- rewrite (same_slot_other n a n' a' e); auto.
        -- apply same_slot_true. reflexivity.
      * rewrite IH. reflexivity.
  - intros s n a. induction s as [|e s IH]; simpl; [reflexivity|].
    destruct (same_slot n a e) eqn:E; simpl; [exact IH|].
    rewrite E. exact IH.
  - intros s n a n' a' Hne. induction s as [|e s IH]; simpl; [reflexivity|].
    destruct (same_slot n a e) eqn:E; simpl.
    + rewrite (same_slot_other n a n' a' e); auto.
    + rewrite IH. reflexivity.
Defined.

(** ** A simulated chain

    Modelled from the spec: the chain, its RPC provider and the testnet
    account-creation service are external collaborators.  The creation
    service registers a new account under the given public key and grants
    it an initial balance; a submission must be signed with the sender's
    registered key; deleting an account returns its balance to the
    beneficiary.  Fees are left out. *)
Record SimAccount : Type := {
  sim_available : N;
  sim_key : PublicKey;
}.

Definition sim_credit (amount : N) (a : SimAccount) : SimAccount :=
  {| sim_available := sim_available a + amount; sim_key := sim_key a |}.

Definition sim_apply (senderId receiverId : AccountId) (c : option (gmap AccountId SimAccount))
           (a : Action) : option (gmap AccountId SimAccount) :=
  c ← c;
  match a with
  | CreateAccount =>
      match c !! receiverId with
      | Some _ => None
      | None => Some (<[receiverId := {| sim_available := 0; sim_key := PubKeyOf "" |}]> c)
      end
  | Transfer amount =>
      from ← c !! senderId;
      _ ← c !! receiverId;
      if (amount <=? sim_available from)%N then
        Some (alter (sim_credit amount) receiverId
                (<[senderId := {| sim_available := sim_available from - amount;
                                  sim_key := sim_key from |}]> c))
      else None
  | AddKey pk =>
      to ← c !! receiverId;
      Some (<[receiverId := {| sim_available := sim_available to; sim_key := pk |}]> c)
  | DeleteAccount beneficiaryId =>
      gone ← c !! receiverId;
      Some (alter (sim_credit (sim_available gone)) beneficiaryId (base.delete receiverId c))
  | DeployContract _ | FunctionCall _ _ _ _ | DeleteKey _ => Some c
  end.

Definition sim_signAndSendTransaction (c : gmap AccountId SimAccount) (key : option KeyPair)
           (senderId receiverId : AccountId) (acts : list Action)
  : Result FinalExecutionOutcome * gmap AccountId SimAccount :=
  match c !! senderId, key with
  | None, _ => (Throw ("Account " +:+ senderId +:+ " does not exist"), c)
  | Some _, None => (Throw ("No key for " +:+ senderId), c)
  | Some a, Some k =>
      if decide (getPublicKey k = sim_key a) then
        match foldl (sim_apply senderId receiverId) (Some c) acts with
        | Some c' => (Ok {| status := SuccessValue ""; logs := [] |}, c')
        | None => (Ok {| status := Failure "ActionError"; logs := [] |}, c)
        end
      else (Throw ("Access key of " +:+ senderId +:+ " not found"), c)
  end.

Definition sim_helperCreateAccount (grant : N) (c : gmap AccountId SimAccount)
           (id : AccountId) (pk : PublicKey) : Result unit * gmap AccountId SimAccount :=
  match c !! id with
  | Some _ => (Throw ("Account " +:+ id +:+ " already exists"), c)
  | None => (Ok tt, <[id := {| sim_available := grant; sim_key := pk |}]> c)
  end.

Definition sim_account_balance (c : gmap AccountId SimAccount) (id : AccountId)
  : Result AccountBalance :=
  match c !! id with
  | Some a => Ok {| total := sim_available a; available := sim_available a |}
  | None => Throw ("Account " +:+ id +:+ " does not exist")
  end.

(** A file name without directories: the extension is the last dotted
    segment, the name what comes before it. *)
Fixpoint sim_last_dot (s : string) : option (string * string) :=
  match s with
  | EmptyString => None
  | String c s' =>
      match sim_last_dot s' with
      | Some (n, e) => Some (String c n, e)
      | None => if Ascii.eqb c "." then Some (EmptyString, s) else None
      end
  end.

Definition sim_path_parse (s : string) : ParsedPath :=
  match sim_last_dot s with
  | Some (n, e) => {| ext := e; name := n |}
  | None => {| ext := ""; name := s |}
  end.

Fixpoint sim_digits (n : nat) : string :=
  match n with
  | O => ""
  | S n' => String "1" (sim_digits n')
  end.

(** [path.join] for a directory and a file name without [.] or [..]
    segments and without repeated slashes. *)
Fixpoint sim_ends_with_slash (s : string) : bool :=
  match s with
  | EmptyString => false
  | String c EmptyString => Ascii.eqb c "/"
  | String _ s' => sim_ends_with_slash s'
  end.

Definition sim_path_join (a b : string) : string :=
  if String.eqb a "" then b
  else if sim_ends_with_slash a then a +:+ b
  else a +:+ "/" +:+ b.

(** ** A simulated file system for the key files

    A key file is a path that holds a key.  The directories [/tmp/sandbox]
    and [/work], the working directory, exist with everything below them,
    and no other directory does: elsewhere [fs.open] fails.  [require]
    finds a file by its absolute path; a relative path it resolves as a
    module, away from the working directory, where no key file is. *)
Definition sim_absolute (p : string) : bool := String.prefix "/" p.

Definition sim_directories : list string := ["/tmp/sandbox/"; "/work/"].

Definition sim_resolve (p : string) : string :=
  if sim_absolute p then p else "/work/" +:+ p.

Definition sim_require_keyFile (f : gmap string KeyPair) (p : string)
  : Result KeyPair * gmap string KeyPair :=
  match (if sim_absolute p then f !! p else None) with
  | Some k => (Ok k, f)
  | None => (Throw ("Cannot find module '" +:+ p +:+ "'"), f)
  end.

(** Opening for writing empties the file. *)
Definition sim_fs_open (f : gmap string KeyPair) (p : string)
  : Result string * gmap string KeyPair :=
  if existsb (fun d => String.prefix d (sim_resolve p)) sim_directories
  then (Ok (sim_resolve p), base.delete (sim_resolve p) f)
  else (Throw ("ENOENT: no such file or directory, open '" +:+ p +:+ "'"), f).

Definition sim_keyFile_writeFile (f : gmap string KeyPair) (h : string) (k : KeyPair)
  : Result unit * gmap string KeyPair :=
  (Ok tt, <[h := k]> f).

Definition sim_keyFile_close (f : gmap string KeyPair) (h : string)
  : Result unit * gmap string KeyPair :=
  (Ok tt, f).

(** The simulated host, for a creation service that grants [grant]. *)
Definition SimHost (grant : N) : Host := {|
  Chain := gmap AccountId SimAccount;
  accountExists := fun c id => bool_decide (is_Some (c !! id));
  account_balance := sim_account_balance;
  signAndSendTransaction := sim_signAndSendTransaction;
  helperCreateAccount := sim_helperCreateAccount grant;
  randomNonce := fun n => "0" +:+ sim_digits n;
  fromRandom := fun n => "ed25519:" +:+ sim_digits n;
  path_parse := sim_path_parse;
  path_join := sim_path_join;
  Files := gmap string KeyPair;
  FileHandle := string;
  require_keyFile := sim_require_keyFile;
  fs_open := sim_fs_open;
  keyFile_writeFile := sim_keyFile_writeFile;
  keyFile_close := sim_keyFile_close;
|}.

Arguments sim_signAndSendTransaction : simpl never.
Arguments sim_helperCreateAccount : simpl never.
Arguments sim_account_balance : simpl never.

(** * Vocabulary of the properties *)

Section Vocabulary.
Context {KS : KeyStore} {HO : Host}.

(** The events a computation added to the trace. *)
Definition news (st st' : St) : list Event :=
  drop (length (trace (world st))) (trace (world st')).

(** The key the store of a state holds for an account of the manager's
    network. *)
Definition storedKey (st : St) (accountId : AccountId)
  : option KeyPair :=
  ks_getKey (keyStore (world st)) (networkId (mgr st)) accountId.

(** The state in which the submission runs when a temporary key was given. *)
Definition swapped (tx : Transaction) (kp : KeyPair) (st : St) : St :=
  snd (setKey (senderId tx) (Some kp) (snd (getKey (senderId tx) st))).

(** Transactions as the chained calls of a managed builder make them. *)
Inductive ManagedTransaction_built : Transaction -> Prop :=
| built_new sender receiver :
    ManagedTransaction_built (createTransaction sender receiver)
| built_createAccount tx :
    ManagedTransaction_built tx -> ManagedTransaction_built (Transaction_createAccount tx)
| built_deleteAccount b tx :
    ManagedTransaction_built tx -> ManagedTransaction_built (ManagedTransaction_deleteAccount b tx)
| built_transfer n tx :
    ManagedTransaction_built tx -> ManagedTransaction_built (Transaction_transfer n tx)
| built_deployContract code tx :
    ManagedTransaction_built tx -> ManagedTransaction_built (Transaction_deployContract code tx)
| built_functionCall f args gas deposit tx :
    ManagedTransaction_built tx ->
    ManagedTransaction_built (Transaction_functionCall f args gas deposit tx)
| built_addKey pk tx :
    ManagedTransaction_built tx -> ManagedTransaction_built (Transaction_addKey pk tx)
| built_deleteKey pk tx :
    ManagedTransaction_built tx -> ManagedTransaction_built (Transaction_deleteKey pk tx).

(** [status.SuccessValue !== undefined] on the result of a call that may
    have thrown. *)
Definition succeeded (r : Result FinalExecutionOutcome) : bool :=
  match r with
  | Ok o => hasSuccessValue (status o)
  | Throw _ => false
  end.

(** A request to the store to remove a key. *)
Definition removesKey (e : Event) : bool :=
  match e with EvRemoveKey _ _ => true | _ => false end.

(** A computation that leaves the manager object alone and submits exactly
    the delete-account requests [ds]. *)
Definition submitsDeletions {A} (c : M A) (ds : list (AccountId * AccountId)) : Prop :=
  forall st,
    mgr (snd (c st)) = mgr st
    /\ exists d, trace (world (snd (c st))) = trace (world st) ++ d /\ deletions d = ds.

(** The prefix [initRootAccount] derives from the caller's file name. *)
Definition callerPrefix (fileName : string) : string :=
  let p := path_parse fileName in
  if includes (name p) "." then split_dot_0 (name p) else name p.

(** A relation between the states before and after a computation that
    holds across steps and that no change of the world breaks. *)
Class Frame (R : St -> St -> Prop) : Prop := {
  frame_refl : forall st, R st st;
  frame_trans : forall st1 st2 st3, R st1 st2 -> R st2 st3 -> R st1 st3;
  frame_world : forall st f, R st (on_world f st);
}.

(** Every run of the computation relates the state it starts in to the one
    it ends in, on both exits. *)
Definition respects (R : St -> St -> Prop) {A} (c : M A) : Prop :=
  forall st, R st (snd (c st)).

(** The manager object is the same. *)
Definition sameManager (st st' : St) : Prop := mgr st' = mgr st.

(** The manager keeps its variant and network, and every id of its
    tracking table. *)
Definition evolves (st st' : St) : Prop :=
  variant (mgr st') = variant (mgr st)
  /\ network (config (mgr st')) = network (config (mgr st))
  /\ Map_keys (accountsCreated (mgr st)) ⊆ Map_keys (accountsCreated (mgr st')).

(** The manager a finished [init()] leaves, or its error. *)
Definition initialised (v : Variant) (near : Config) (w : World) : Result Manager * World :=
  let st := init {| world := w; mgr := newManager v near |} in
  (match fst st with
   | Ok _ => Ok (mgr (snd st))
   | Throw e => Throw e
   end, world (snd st)).

(** The calls a client can make on a manager and on the transactions and
    account handles bound to it. *)
Inductive Op : Type :=
| OpGetKey (accountId : AccountId)
| OpSetKey (accountId : AccountId) (keyPair : option KeyPair)
| OpRemoveKey (accountId : AccountId)
| OpDeleteKey (accountId : AccountId)
| OpDeleteAccount (accountId beneficiaryId : AccountId)
| OpGetRootKey
| OpBalance (accountId : AccountId)
| OpExists (accountId : AccountId)
| OpExecuteTransaction (tx : Transaction) (keyPair : option KeyPair)
| OpAddAccountCreated (account sender : AccountId)
| OpInit
| OpCleanup
| OpCreateFrom (near : Config)
| OpTestnetCreateAccount (accountId : AccountId) (pubKey : PublicKey)
| OpAddFunds
| OpCreateAndFundAccount
| OpInitRootAccount
| OpTransactionCreateAccount (tx : Transaction)
| OpSignAndSend (tx : Transaction) (keyPair : option KeyPair)
| OpAccountDelete (accountId beneficiaryId : AccountId)
| OpAccountCreateAccount (parentId accountId : AccountId) (initial : N).

(** A call whose value the caller drops. *)
Definition void {A} (c : M A) : M unit := c ;; mret tt.

(** The method behind a call; [createFrom] is dispatched on the variant
    (the subaccount manager inherits the testnet one). *)
Definition call (op : Op) : M unit :=
  match op with
  | OpGetKey a => void (getKey a)
  | OpSetKey a k => void (setKey a k)
  | OpRemoveKey a => removeKey a
  | OpDeleteKey a => deleteKey a
  | OpDeleteAccount a b => AccountManager_deleteAccount a b
  | OpGetRootKey => void getRootKey
  | OpBalance a => void (balance a)
  | OpExists a => void (exists_ a)
  | OpExecuteTransaction tx k => void (executeTransaction tx k)
  | OpAddAccountCreated a s => addAccountCreated a s
  | OpInit => init
  | OpCleanup => cleanup
  | OpCreateFrom near =>
      m ← this;
      match variant m with
      | Sandbox => void (SandboxManager_createFrom near)
      | _ => void (TestnetManager_createFrom near)
      end
  | OpTestnetCreateAccount a pk => void (TestnetManager_createAccount a pk)
  | OpAddFunds => addFunds
  | OpCreateAndFundAccount => createAndFundAccount
  | OpInitRootAccount => initRootAccount
  | OpTransactionCreateAccount tx => void (ManagedTransaction_createAccount tx)
  | OpSignAndSend tx k => void (signAndSend tx k)
  | OpAccountDelete a b => void (Account_delete a b)
  | OpAccountCreateAccount p a n => Account_createAccount p a n
  end.

(** The state after a sequence of calls, each made whether or not the one
    before it threw. *)
Fixpoint after (ops : list Op) (st : St) : St :=
  match ops with
  | [] => st
  | op :: ops' => after ops' (snd (call op st))
  end.

(** A computation that leaves the manager object and the chain alone. *)
Definition quiet {A} (c : M A) : Prop :=
  forall st, mgr (snd (c st)) = mgr st /\ chain (world (snd (c st))) = chain (world st).

(** The 1000-token threshold of [createAndFundAccount]. *)
Definition topUpThreshold : N := toYocto 1000.

(** [createAndFundAccount] up to its balance check: the root account is
    resolved and, when the provider does not know it, created. *)
Definition provisionRoot : M unit :=
  initRootAccount;;
  m ← this;
  let accountId := rootAccountId m in
  present ← provider_accountExists accountId;
  if negb present then
    keyPair ← getRootKey;
    keyStore_setKey (networkId m) accountId keyPair;;
    TestnetManager_createAccount accountId (getPublicKey keyPair);;
    mret tt
  else mret tt.

(** A computation that only adds to the trace, and only calls that
    satisfy [P]. *)
Definition callsOnly {A} (P : Event -> bool) (c : M A) : Prop :=
  forall st, exists d,
      trace (world (snd (c st))) = trace (world st) ++ d /\ forallb P d = true.

(** A call that is neither a request to the account-creation service, nor
    a submission, nor a balance query. *)
Definition offChain (e : Event) : bool :=
  negb (isHelperCreate e || isSubmit e || isBalanceCheck e).

End Vocabulary.

(** ** Scenarios on the in-memory store and the simulated chain *)

Definition testnetConfig (root : option AccountId) : Config :=
  {| network := "testnet"; rootAccount := root; initialBalance := None;
     homeDir := "/tmp/sandbox"; helperUrl := Some "https://helper.testnet.near.org" |}.

Definition scenario (grant : N) (root : option AccountId)
           (store : list (string * AccountId * KeyPair))
           (accounts : list (AccountId * SimAccount)) : @St MemStore (SimHost grant) :=
  {| world := {| keyStore := store : @Store MemStore;
                 chain := list_to_map accounts : @Chain (SimHost grant);
                 keyFiles := (∅ : gmap string KeyPair) : @Files (SimHost grant);
                 callerFile := "create.spec.ts"; draws := 0; trace := [] |};
     mgr := newManager Testnet (testnetConfig root) |}.

Definition registered (balance : N) (k : KeyPair) : SimAccount :=
  {| sim_available := balance; sim_key := getPublicKey k |}.

(** A call of a method on [alice]. *)
Definition aliceCall : Transaction :=
  Transaction_functionCall "ping" "{}" 30 0 (createTransaction "alice" "alice").

(** [alice] has no stored key; the temporary key is the one registered. *)
Definition aliceWithoutKey : @St MemStore (SimHost (toYocto 200)) :=
  scenario (toYocto 200) (Some "root.testnet") [] [("alice", registered 5 "tmp")].

(** [alice] has a stored key; the chain knows that key only. *)
Definition aliceOldKeyRegistered : @St MemStore (SimHost (toYocto 200)) :=
  scenario (toYocto 200) (Some "root.testnet") [("testnet", "alice", "old")]
           [("alice", registered 5 "old")].

(** [alice] has a stored key; the chain knows the temporary key. *)
Definition aliceTmpKeyRegistered : @St MemStore (SimHost (toYocto 200)) :=
  scenario (toYocto 200) (Some "root.testnet") [("testnet", "alice", "old")]
           [("alice", registered 5 "tmp")].

(** [alice] deletes herself, the root is the beneficiary. *)
Definition aliceDeletion : Transaction :=
  ManagedTransaction_deleteAccount "root.testnet" (createTransaction "alice" "alice").

(** Two stale accounts of the caller [create.spec.ts] and one of another
    file are in the store; no root is configured. *)
Definition staleAccounts : @St MemStore (SimHost (toYocto 200)) :=
  scenario (toYocto 200) None
           [("testnet", "create0", "k0"); ("testnet", "other7", "k7");
            ("testnet", "create1", "k1")]
           [("create0", registered 7 "k0"); ("create1", registered 3 "k1")].

(** Two keys of the caller [create.spec.ts] are in the store; the account
    of the second is no longer on the chain. *)
Definition staleGone : @St MemStore (SimHost (toYocto 200)) :=
  scenario (toYocto 200) None
           [("testnet", "create0", "k0"); ("testnet", "create1", "k1")]
           [("create0", registered 7 "k0")].

(** A subaccount manager under [root.testnet] that tracks two accounts. *)
Definition subaccountManager : @St MemStore (SimHost (toYocto 200)) :=
  on_mgr (fun m => {| variant := TestnetSubaccount; config := config m;
                      accountsCreated := [("a.sub.root.testnet", "a"); ("b.sub.root.testnet", "b")];
                      subAccount := Some "sub.root.testnet" |})
         (scenario (toYocto 200) (Some "root.testnet")
                   [("testnet", "a.sub.root.testnet", "ka")]
                   [("a.sub.root.testnet", registered 1 "ka"); ("root.testnet", registered 9 "kr")]).

(** ** Vocabulary of the further properties *)

(** A call that writes the key store, the key files or the chain. *)
Definition isWrite (e : Event) : bool :=
  match e with
  | EvSetKey _ _ _ | EvRemoveKey _ _ | EvSubmit _ _ _ | EvHelperCreate _ _
  | EvOpenKeyFile _ | EvWriteKeyFile _ _ => true
  | _ => false
  end.

(** What the overriding [cleanup()] may do for a tracked id: submit its
    deletion in favour of the real root, and remove its key. *)
Definition deletesTracked (net : string) (root : AccountId) (ids : list AccountId)
           (e : Event) : Prop :=
  exists id, id ∈ ids /\ (e = EvSubmit id id [DeleteAccount root] \/ e = EvRemoveKey net id).

(** The file system gives a key file back: reading a path that yielded a
    key yields it again, and after the file was opened for writing, a key
    written and the file closed, reading the path yields that key. *)
Definition readsBack {HO : Host} (filePath : string) : Prop :=
  (forall f k f', require_keyFile f filePath = (Ok k, f') ->
                  fst (require_keyFile f' filePath) = Ok k)
  /\ (forall f h f1 k f2 f3,
         fs_open f filePath = (Ok h, f1) ->
         keyFile_writeFile f1 h k = (Ok tt, f2) ->
         keyFile_close f2 h = (Ok tt, f3) ->
         fst (require_keyFile f3 filePath) = Ok k).

(** A testnet root that exists with 1500 tokens. *)
Definition fundedRoot : @St MemStore (SimHost (toYocto 200)) :=
  scenario (toYocto 200) (Some "root.testnet") [("testnet", "root.testnet", "kr")]
           [("root.testnet", registered (toYocto 1500) "kr")].

(** A testnet root that is configured and not yet on the chain. *)
Definition missingRoot : @St MemStore (SimHost (toYocto 200)) :=
  scenario (toYocto 200) (Some "root.testnet") [] [("alice", registered 5 "ka")].

(** A caller that is not a script. *)
Definition calledFromJson : @St MemStore (SimHost (toYocto 200)) :=
  on_world (fun w => {| keyStore := keyStore w; chain := chain w; keyFiles := keyFiles w;
                        callerFile := "package.json"; draws := draws w; trace := trace w |})
           staleAccounts.

(** A sandbox manager whose validator key file holds a key. *)
Definition sandboxConfig : Config :=
  {| network := "sandbox"; rootAccount := Some "test.near"; initialBalance := None;
     homeDir := "/tmp/sandbox"; helperUrl := None |}.

Definition sandboxWorld (files : list (string * KeyPair)) : @World MemStore (SimHost (toYocto 200)) :=
  {| keyStore := [] : @Store MemStore;
     chain := ∅ : @Chain (SimHost (toYocto 200));
     keyFiles := (list_to_map files : gmap string KeyPair) : @Files (SimHost (toYocto 200));
     callerFile := "create.spec.ts"; draws := 0; trace := [] |}.

(** * Execution results (the compiled [execution-result.js])

    The wrappers read a provider result: a final status, the outcome of
    the transaction and the outcomes of its receipts.  A status is a bare
    string or an object of which the code reads the fields [SuccessValue]
    and [Failure], each absent ([undefined]) or present. *)

Record ExecutionError : Type := {
  error_message : string;
  error_type : string;
}.

Record StatusFields : Type := {
  field_SuccessValue : option string;
  field_Failure : option ExecutionError;
}.

Inductive OutcomeStatus : Type :=
| StatusString (tag : string)
| StatusObject (fields : StatusFields).

(** [outcome.status] and [outcome.logs] *)
Record ExecutionOutcome : Type := {
  outcome_status : OutcomeStatus;
  outcome_logs : list string;
}.

(** An outcome with its id; the id is not read. *)
Record ExecutionOutcomeWithId : Type := {
  outcome : ExecutionOutcome;
}.

(** The provider result an [ExecutionResult] wraps. *)
Record ProviderResult : Type := {
  result_status : OutcomeStatus;
  transaction_outcome : ExecutionOutcomeWithId;
  receipts_outcome : list ExecutionOutcomeWithId;
}.

(** A pattern is a string or a [RegExp]; of a regular expression the code
    uses [test] only (one without the [g] and [y] flags, whose [test] is a
    function of the string). *)
Inductive Pattern : Type :=
| PatternString (p : string)
| PatternRegExp (test : string -> bool).

(** [includes(pattern)] *)
Definition includesPattern (pattern : Pattern) : string -> bool :=
  match pattern with
  | PatternString p => fun s => includes s p
  | PatternRegExp test => fun s => test s
  end.

(** ** [PromiseOutcome] *)

Definition PromiseOutcome_succeeded (o : ExecutionOutcome) : bool :=
  match outcome_status o with
  | StatusString _ => false
  | StatusObject f => bool_decide (is_Some (field_SuccessValue f))
  end.

Definition PromiseOutcome_isFailure (o : ExecutionOutcome) : bool :=
  match outcome_status o with
  | StatusString _ => false
  | StatusObject f => if bool_decide (is_Some (field_Failure f)) then true else false
  end.

(** [this.executionStatus.SuccessValue]: a string has no such field. *)
Definition PromiseOutcome_SuccessValue (o : ExecutionOutcome) : option string :=
  if PromiseOutcome_succeeded o then
    match outcome_status o with
    | StatusObject f => field_SuccessValue f
    | StatusString _ => None
    end
  else None.

Definition PromiseOutcome_executionError (o : ExecutionOutcome) : option ExecutionError :=
  if PromiseOutcome_isFailure o then
    match outcome_status o with
    | StatusObject f => field_Failure f
    | StatusString _ => None
    end
  else None.

(** [this.executionError?.error_message] *)
Definition PromiseOutcome_errorMessage (o : ExecutionOutcome) : option string :=
  error_message <$> PromiseOutcome_executionError o.

Definition PromiseOutcome_errorType (o : ExecutionOutcome) : option string :=
  error_type <$> PromiseOutcome_executionError o.

Definition PromiseOutcome_logs (o : ExecutionOutcome) : list string := outcome_logs o.

(** ** [ExecutionResult] *)

Definition outcomesWithId (r : ProviderResult) : list ExecutionOutcomeWithId :=
  transaction_outcome r :: receipts_outcome r.

(** [flatMap] of a function that returns no array is [map]. *)
Definition receipts_outcomes (r : ProviderResult) : list ExecutionOutcome :=
  map outcome (receipts_outcome r).

Definition outcomes (r : ProviderResult) : list ExecutionOutcome :=
  map outcome (outcomesWithId r).

Definition ExecutionResult_logs (r : ProviderResult) : list string :=
  flat_map outcome_logs (outcomes r).

Definition ExecutionResult_succeeded (r : ProviderResult) : bool :=
  match result_status r with
  | StatusString _ => false
  | StatusObject f => bool_decide (is_Some (field_SuccessValue f))
  end.

(** [null] when the result did not succeed. *)
Definition ExecutionResult_SuccessValue (r : ProviderResult) : option string :=
  if ExecutionResult_succeeded r then
    match result_status r with
    | StatusObject f => field_SuccessValue f
    | StatusString _ => None
    end
  else None.

Definition logsContain (r : ProviderResult) (pattern : Pattern) : bool :=
  existsb (includesPattern pattern) (ExecutionResult_logs r).

Definition findLogs (r : ProviderResult) (pattern : Pattern) : list string :=
  List.filter (includesPattern pattern) (ExecutionResult_logs r).

(** [o.executionError ?? []] and [o.SuccessValue ?? []] under [flatMap]:
    an absent value adds nothing, a present one is one element. *)
Definition promiseErrors (r : ProviderResult) : list ExecutionError :=
  flat_map (fun o => match PromiseOutcome_executionError o with
                     | Some e => [e]
                     | None => []
                     end) (receipts_outcomes r).

Definition promiseSuccessValues (r : ProviderResult) : list string :=
  flat_map (fun o => match PromiseOutcome_SuccessValue o with
                     | Some v => [v]
                     | None => []
                     end) (receipts_outcomes r).

Definition promiseValuesContain (r : ProviderResult) (pattern : Pattern) : bool :=
  existsb (includesPattern pattern) (promiseSuccessValues r).

Definition findPromiseValues (r : ProviderResult) (pattern : Pattern) : list string :=
  List.filter (includesPattern pattern) (promiseSuccessValues r).

From Stdlib Require Import DecimalString.

(** * The legacy runtime ([runtime/runtime.ts])

    The runtime object, its hooks and [run].  Everything the file calls
    outside itself (near-api-js, the sandbox server, Node's [fs], [path],
    [os], the clock, the test program's runner functions) is a call to an
    arbitrary platform. *)

Module Legacy.

(** Objects the runtime only passes on, and the runner functions
    ([RunnerFn]) of the test program. *)
Class Handles : Type := {
  Near : Type;
  Server : Type;
  Signer : Type;
  FileHandle : Type;
  RunnerFn : Type;
}.

Section Runtime.
Context {HA : Handles}.

(** [new nearAPI.keyStores.UnencryptedFileSystemKeyStore(keyDir)] *)
Inductive KeyStoreObject : Type :=
| UnencryptedFileSystemKeyStore (keyDir : string).

(** [Config], the fields the runtime reads ([rm], [refDir] and
    [explorerUrl] are not read by it). *)
Record Config : Type := {
  homeDir : string;
  port : N;
  init : bool;
  network : string;
  masterAccount : option string;
  rpcAddr : string;
  helperUrl : option string;
  initialBalance : option string;
  walletUrl : option string;
  initFn : option RunnerFn;
}.

Definition with_masterAccount (a : option string) (c : Config) : Config :=
  {| homeDir := homeDir c; port := port c; init := init c; network := network c;
     masterAccount := a; rpcAddr := rpcAddr c; helperUrl := helperUrl c;
     initialBalance := initialBalance c; walletUrl := walletUrl c; initFn := initFn c |}.

Inductive Kind : Type := TestnetRuntime | SandboxRuntime.

(** [new Account(najAccount)]: the connection and the id the handle is
    made for. *)
Record Account : Type := {
  account_near : Near;
  accountId : option string;
}.

(** The runtime object.  [keyStore], [near], [root] and [server] are
    unset until [run] assigns them. *)
Record Runtime : Type := {
  kind : Kind;
  config : Config;
  keyStore : option KeyStoreObject;
  near : option Near;
  root : option Account;
  server : option Server;
}.

Definition with_config (c : Config) (rt : Runtime) : Runtime :=
  {| kind := kind rt; config := c; keyStore := keyStore rt; near := near rt;
     root := root rt; server := server rt |}.

Definition with_keyStore (ks : option KeyStoreObject) (rt : Runtime) : Runtime :=
  {| kind := kind rt; config := config rt; keyStore := ks; near := near rt;
     root := root rt; server := server rt |}.

Definition with_near (n : option Near) (rt : Runtime) : Runtime :=
  {| kind := kind rt; config := config rt; keyStore := keyStore rt; near := n;
     root := root rt; server := server rt |}.

Definition with_root (a : option Account) (rt : Runtime) : Runtime :=
  {| kind := kind rt; config := config rt; keyStore := keyStore rt; near := near rt;
     root := a; server := server rt |}.

Definition with_server (s : option Server) (rt : Runtime) : Runtime :=
  {| kind := kind rt; config := config rt; keyStore := keyStore rt; near := near rt;
     root := root rt; server := s |}.

(** The calls that leave the file, by the type of what they return. *)
Inductive Call : Type -> Type :=
(** [Math.floor(Math.random() * (9999999 - 1000000) + 1000000)] *)
| Math_random_id : Call N
| Date_now : Call N
(** [require(filePath)] and [KeyPair.fromString] of its [secret_key] or
    [private_key] *)
| require_keyFile (filePath : string) : Call KeyPair
| fs_open (filePath flags : string) : Call FileHandle
| KeyPairEd25519_fromRandom : Call KeyPair
(** [keyFile.writeFile(JSON.stringify({secret_key: keyPair.toString()}))] *)
| keyFile_writeFile (h : FileHandle) (secret_key : KeyPair) : Call unit
| keyFile_close (h : FileHandle) : Call unit
(** [fs.mkdir(folder, {recursive: true})] *)
| fs_mkdir (folder : string) : Call unit
| keyStore_setKey (ks : KeyStoreObject) (networkId : string) (id : option string)
                  (k : KeyPair) : Call unit
| keyStore_getKey (ks : KeyStoreObject) (networkId : string) (id : option string)
  : Call (option KeyPair)
(** [new UrlAccountCreator({}, helperUrl).createAccount(id, pk)] *)
| UrlAccountCreator_createAccount (helper : option string) (id : option string)
                                  (pk : PublicKey) : Call unit
| nearAPI_connect (deps_keyStore : option KeyStoreObject) (keyPath networkId nodeUrl : string)
                  (wallet master balance : option string) : Call Near
| SandboxServer_nextPort : Call N
| InMemorySigner_fromKeyPair (networkId id : string) (k : KeyPair) : Call Signer
| signer_getPublicKey (s : Signer) : Call PublicKey
(** [near.connection.signer.createKey(id, networkId)] *)
| connection_signer_createKey (n : Near) (id networkId : string) : Call PublicKey
(** [near.accountCreator.createAccount(id, pk)] *)
| near_accountCreator_createAccount (n : Near) (id : string) (pk : PublicKey) : Call unit
| SandboxServer_init (c : Config) : Call Server
| server_start (s : Server) : Call unit
| server_close (s : Server) : Call unit.

(** The platform: what each call does to the world outside the runtime
    object and what it returns or throws.  [console.error] returns; a
    runner function is called with the runtime object and may change it. *)
Class Platform : Type := {
  Outside : Type;
  perform : forall {A : Type}, Call A -> Outside -> Result A * Outside;
  console_error : string -> Outside -> Outside;
  runFn : RunnerFn -> Runtime -> Outside -> Result unit * (Runtime * Outside);
  os_homedir : string;
  path_join : string -> string -> string;
  path_dirname : string -> string;
  getHomeDir : N -> string;
}.

Context {PL : Platform}.

Record St : Type := {
  this : Runtime;
  outside : Outside;
}.

(** Asynchronous code that may throw, run to completion. *)
Definition M (A : Type) : Type := St -> Result A * St.

Definition ret {A} (a : A) : M A := fun st => (Ok a, st).

Definition bind {A B} (m : M A) (k : A -> M B) : M B :=
  fun st => match m st with
            | (Ok a, st') => k a st'
            | (Throw e, st') => (Throw e, st')
            end.

Definition throw {A} (msg : string) : M A := fun st => (Throw msg, st).

#[export] Instance M_ret : MRet M := @ret.
#[export] Instance M_bind : MBind M := fun A B k m => bind m k.

(** [try { body } catch (e) { handler(e) }] *)
Definition try_catch {A} (body : M A) (handler : string -> M A) : M A :=
  fun st => match body st with
            | (Ok a, st') => (Ok a, st')
            | (Throw e, st') => handler e st'
            end.

(** [try { body } finally { finalizer }]: the finalizer always runs, and
    when it throws, its error is the one that leaves the statement. *)
Definition try_finally {A} (body : M A) (finalizer : M unit) : M A :=
  fun st => match body st with
            | (r, st') =>
                match finalizer st' with
                | (Ok _, st'') => (r, st'')
                | (Throw e, st'') => (Throw e, st'')
                end
            end.

Definition self : M Runtime := fun st => (Ok (this st), st).

Definition update (f : Runtime -> Runtime) : M unit :=
  fun st => (Ok tt, {| this := f (this st); outside := outside st |}).

Definition call {A} (c : Call A) : M A :=
  fun st => match perform c (outside st) with
            | (r, o) => (r, {| this := this st; outside := o |})
            end.

Definition log_error (e : string) : M unit :=
  fun st => (Ok tt, {| this := this st; outside := console_error e (outside st) |}).

(** [fn(this)] *)
Definition invoke (fn : RunnerFn) : M unit :=
  fun st => match runFn fn (this st) (outside st) with
            | (r, (rt, o)) => (r, {| this := rt; outside := o |})
            end.

(** Reading a property of [undefined] throws a [TypeError] (the text is
    V8's). *)
Definition TypeError_undefined (property : string) : string :=
  "Cannot read properties of undefined (reading '" +:+ property +:+ "')".

(** A number in a template literal. *)
Definition show (n : N) : string := NilZero.string_of_uint (N.to_uint n).

(** ** Module functions *)

Definition randomAccountId : M string :=
  randomNumber ← call Math_random_id;
  now ← call Date_now;
  mret ("dev-" +:+ show now +:+ "-" +:+ show randomNumber).

Definition getKeyFromFile (filePath : string) (create : bool) : M KeyPair :=
  try_catch (call (require_keyFile filePath))
            (fun e =>
               if negb create then throw e
               else
                 keyFile ← call (fs_open filePath "w");
                 keyPair ← call KeyPairEd25519_fromRandom;
                 call (keyFile_writeFile keyFile keyPair);;
                 call (keyFile_close keyFile);;
                 mret keyPair).

(** ** Getters *)

(** [this.masterAccount] inside a template literal *)
Definition masterAccountText (rt : Runtime) : string :=
  default "undefined" (masterAccount (config rt)).

Definition keyFilePath (rt : Runtime) : string :=
  match kind rt with
  | TestnetRuntime =>
      path_join (os_homedir +:+ "/.near-credentials/testnet") (masterAccountText rt +:+ ".json")
  | SandboxRuntime => path_join (homeDir (config rt)) "validator_key.json"
  end.

(** [get rpcAddr()], overridden by [SandboxRuntime] *)
Definition rpcAddrOf (rt : Runtime) : string :=
  match kind rt with
  | TestnetRuntime => rpcAddr (config rt)
  | SandboxRuntime => "http://localhost:" +:+ show (port (config rt))
  end.

Definition isSandbox (rt : Runtime) : bool := String.eqb (network (config rt)) "sandbox".

Definition isTestnet (rt : Runtime) : bool := String.eqb (network (config rt)) "testnet".

(** [toYocto("10")] *)
Definition DEFAULT_INITIAL_DEPOSIT : string := show (toYocto 10).

(** [get defaultConfig()] of [TestnetRuntime] *)
Definition TestnetRuntime_defaultConfig : Config :=
  {| homeDir := "ignored"; port := 3030; init := true; network := "testnet";
     masterAccount := None; rpcAddr := "https://rpc.testnet.near.org";
     helperUrl := Some "https://helper.testnet.near.org";
     initialBalance := Some DEFAULT_INITIAL_DEPOSIT;
     walletUrl := Some "https://wallet.testnet.near.org"; initFn := None |}.

(** [get defaultConfig()] of [SandboxRuntime], for the port that
    [SandboxServer.nextPort()] returned. *)
Definition SandboxRuntime_defaultConfig (p : N) : Config :=
  {| homeDir := getHomeDir p; port := p; init := true; network := "sandbox";
     masterAccount := Some "test.near"; rpcAddr := "http://localhost:" +:+ show p;
     helperUrl := None; initialBalance := Some DEFAULT_INITIAL_DEPOSIT;
     walletUrl := None; initFn := None |}.

(** [new TestnetRuntime(config)], [new SandboxRuntime(config)] *)
Definition newRuntime (k : Kind) (c : Config) : Runtime :=
  {| kind := k; config := c; keyStore := None; near := None; root := None; server := None |}.

(** ** Methods *)

Definition getMasterKey : M KeyPair :=
  rt ← self;
  getKeyFromFile (keyFilePath rt) true.

Definition getKeyStore : M KeyStoreObject :=
  rt ← self;
  match kind rt with
  | TestnetRuntime => mret (UnencryptedFileSystemKeyStore (os_homedir +:+ "/.near-credentials"))
  | SandboxRuntime => mret (UnencryptedFileSystemKeyStore (homeDir (config rt)))
  end.

Definition addMasterAccountKey : M unit :=
  rt ← self;
  match keyStore rt with
  | None => throw (TypeError_undefined "setKey")
  | Some ks =>
      key ← getMasterKey;
      call (keyStore_setKey ks (network (config rt)) (masterAccount (config rt)) key)
  end.

(** [ensureKeyFileFolder()]: an error of [mkdir] is dropped. *)
Definition ensureKeyFileFolder : M unit :=
  rt ← self;
  let keyFolder := path_dirname (keyFilePath rt) in
  try_catch (call (fs_mkdir keyFolder)) (fun _ => mret tt).

Definition customMasterAccount : string :=
  "custom masterAccount not yet supported on testnet".

(** The last statement is the [debug] call, whose argument awaits
    [keyStore.getKey]. *)
Definition TestnetRuntime_beforeConnect : M unit :=
  ensureKeyFileFolder;;
  rt ← self;
  let helper := helperUrl (config rt) in
  if truthy (masterAccount (config rt)) then throw customMasterAccount
  else
    id ← randomAccountId;
    update (fun rt => with_config (with_masterAccount (Some id) (config rt)) rt);;
    addMasterAccountKey;;
    rt ← self;
    key ← getMasterKey;
    call (UrlAccountCreator_createAccount helper (masterAccount (config rt)) (getPublicKey key));;
    match keyStore rt with
    | None => throw (TypeError_undefined "getKey")
    | Some ks =>
        call (keyStore_getKey ks (network (config rt)) (masterAccount (config rt)));;
        mret tt
    end.

Definition SandboxRuntime_beforeConnect : M unit :=
  rt ← self;
  s ← call (SandboxServer_init (config rt));
  update (with_server (Some s));;
  rt ← self;
  (if init (config rt) then addMasterAccountKey else mret tt);;
  rt ← self;
  match server rt with
  | None => throw (TypeError_undefined "start")
  | Some s => call (server_start s)
  end.

Definition beforeConnect : M unit :=
  rt ← self;
  match kind rt with
  | TestnetRuntime => TestnetRuntime_beforeConnect
  | SandboxRuntime => SandboxRuntime_beforeConnect
  end.

Definition connect : M unit :=
  rt ← self;
  n ← call (nearAPI_connect (keyStore rt) (keyFilePath rt) (network (config rt)) (rpcAddrOf rt)
                            (walletUrl (config rt)) (masterAccount (config rt))
                            (initialBalance (config rt)));
  update (with_near (Some n));;
  update (fun rt => with_root (Some {| account_near := n;
                                       accountId := masterAccount (config rt) |}) rt).

(** [afterConnect()], overridden by [TestnetRuntime] *)
Definition afterConnect : M unit :=
  rt ← self;
  match kind rt with
  | TestnetRuntime =>
      match initFn (config rt) with
      | Some f => invoke f
      | None => mret tt
      end
  | SandboxRuntime => mret tt
  end.

(** [afterRun()]: the argument of [debug] reads [this.server.port]; the
    call of [close] is not awaited. *)
Definition afterRun : M unit :=
  rt ← self;
  match kind rt with
  | TestnetRuntime => mret tt
  | SandboxRuntime =>
      match server rt with
      | None => throw (TypeError_undefined "port")
      | Some s => call (server_close s)
      end
  end.

Definition run (fn : RunnerFn) : M unit :=
  try_finally
    (try_catch
       (ks ← getKeyStore;
        update (with_keyStore (Some ks));;
        beforeConnect;;
        connect;;
        afterConnect;;
        invoke fn)
       (fun e => log_error e;; throw e))
    afterRun.

(** The steps of [run] before the runner function is called. *)
Definition setUp : M unit :=
  ks ← getKeyStore;
  update (with_keyStore (Some ks));;
  beforeConnect;;
  connect;;
  afterConnect.

Definition makeSubAccount (name : string) : M string :=
  rt ← self;
  mret (name +:+ "." +:+ masterAccountText rt).

Definition addKey (name : string) (keyPair : option KeyPair) : M PublicKey :=
  rt ← self;
  match keyPair with
  | Some k =>
      key ← call (InMemorySigner_fromKeyPair (network (config rt)) name k);
      call (signer_getPublicKey key)
  | None =>
      match near rt with
      | None => throw (TypeError_undefined "connection")
      | Some n => call (connection_signer_createKey n name (network (config rt)))
      end
  end.

Definition Runtime_getAccount (name : string) : M Account :=
  rt ← self;
  match near rt with
  | None => throw (TypeError_undefined "account")
  | Some n => mret {| account_near := n; accountId := Some name |}
  end.

(** [getAccount(name)], overridden by [TestnetRuntime] *)
Definition getAccount (name : string) : M Account :=
  rt ← self;
  match kind rt with
  | TestnetRuntime => sub ← makeSubAccount name; Runtime_getAccount sub
  | SandboxRuntime => Runtime_getAccount name
  end.

Definition Runtime_createAccount (name : string) (keyPair : option KeyPair) : M Account :=
  pubKey ← addKey name keyPair;
  rt ← self;
  match near rt with
  | None => throw (TypeError_undefined "accountCreator")
  | Some n => call (near_accountCreator_createAccount n name pubKey)
  end;;
  getAccount name.

(** [createAccount(name, keyPair)], overridden by [TestnetRuntime] *)
Definition createAccount (name : string) (keyPair : option KeyPair) : M Account :=
  rt ← self;
  match kind rt with
  | TestnetRuntime => sub ← makeSubAccount name; Runtime_createAccount sub keyPair
  | SandboxRuntime => Runtime_createAccount name keyPair
  end.

(** ** Vocabulary of the properties *)

(** A computation that leaves the runtime object as it is. *)
Definition stable {A} (m : M A) : Prop := forall st, this (snd (m st)) = this st.

(** The runner functions leave the class of the runtime object and its
    [config.masterAccount] as they are. *)
Definition runnersKeepMaster : Prop :=
  forall (f : RunnerFn) (rt : Runtime) (o : Outside),
    kind (fst (snd (runFn f rt o))) = kind rt
    /\ masterAccount (config (fst (snd (runFn f rt o)))) = masterAccount (config rt).

(** The id of the account [createAccount(name)] asks the creator for, and
    the id of the handle it returns. *)
Definition createdId (rt : Runtime) (name : string) : string :=
  match kind rt with
  | TestnetRuntime => name +:+ "." +:+ masterAccountText rt
  | SandboxRuntime => name
  end.

Definition returnedId (rt : Runtime) (name : string) : string :=
  match kind rt with
  | TestnetRuntime => (name +:+ "." +:+ masterAccountText rt) +:+ "." +:+ masterAccountText rt
  | SandboxRuntime => name
  end.

End Runtime.

(** ** A platform for concrete runs

    Key files and the files of the file-system key store live in one map
    ([<keyDir>/<network>/<id>.json]); the journal lists what was called. *)

Definition SimHandles : Handles :=
  {| Near := string; Server := N; Signer := KeyPair; FileHandle := string; RunnerFn := bool |}.

Record SimOutside : Type := {
  sim_files : gmap string KeyPair;
  sim_nextPort : N;
  sim_journal : list string;
}.

Definition sim_noted (line : string) (o : SimOutside) : SimOutside :=
  {| sim_files := sim_files o; sim_nextPort := sim_nextPort o;
     sim_journal := sim_journal o ++ [line] |}.

Definition sim_written (path : string) (k : KeyPair) (o : SimOutside) : SimOutside :=
  {| sim_files := <[path := k]> (sim_files o); sim_nextPort := sim_nextPort o;
     sim_journal := sim_journal o ++ ["write " +:+ path] |}.

Definition sim_keyPath (ks : @KeyStoreObject) (networkId : string) (id : option string)
  : string :=
  match ks with
  | UnencryptedFileSystemKeyStore keyDir =>
      keyDir +:+ "/" +:+ networkId +:+ "/" +:+ default "undefined" id +:+ ".json"
  end.

Definition sim_perform {A : Type} (c : @Call SimHandles A) (o : SimOutside)
  : Result A * SimOutside :=
  match c in Call T return Result T * SimOutside with
  | Math_random_id => (Ok 1234567%N, o)
  | Date_now => (Ok 1600000000000%N, o)
  | require_keyFile filePath =>
      match sim_files o !! filePath with
      | Some k => (Ok k, o)
      | None => (Throw ("Cannot find module '" +:+ filePath +:+ "'"), o)
      end
  | fs_open filePath _ => (Ok filePath, o)
  | KeyPairEd25519_fromRandom => (Ok "ed25519:fresh", o)
  | keyFile_writeFile h k => (Ok tt, sim_written h k o)
  | keyFile_close _ => (Ok tt, o)
  | fs_mkdir folder => (Ok tt, sim_noted ("mkdir " +:+ folder) o)
  | keyStore_setKey ks networkId id k => (Ok tt, sim_written (sim_keyPath ks networkId id) k o)
  | keyStore_getKey ks networkId id => (Ok (sim_files o !! sim_keyPath ks networkId id), o)
  | UrlAccountCreator_createAccount _ id _ =>
      (Ok tt, sim_noted ("helper creates " +:+ default "undefined" id) o)
  | nearAPI_connect _ _ _ nodeUrl _ _ _ => (Ok nodeUrl, sim_noted ("connect " +:+ nodeUrl) o)
  | SandboxServer_nextPort =>
      (Ok (sim_nextPort o),
       {| sim_files := sim_files o; sim_nextPort := sim_nextPort o + 1;
          sim_journal := sim_journal o |})
  | InMemorySigner_fromKeyPair _ _ k => (Ok k, o)
  | signer_getPublicKey s => (Ok (getPublicKey s), o)
  | connection_signer_createKey _ id _ =>
      (Ok (getPublicKey "ed25519:created"), sim_noted ("createKey " +:+ id) o)
  | near_accountCreator_createAccount _ id _ => (Ok tt, sim_noted ("creates " +:+ id) o)
  | SandboxServer_init c =>
      if (port c =? 0)%N then (Throw "sandbox: port 0 is not available", o)
      else (Ok (port c), sim_noted "SandboxServer.init" o)
  | server_start _ => (Ok tt, sim_noted "server.start" o)
  | server_close _ => (Ok tt, sim_noted "server.close" o)
  end.

(** The directory of a path: what comes before its last [/]. *)
Fixpoint sim_dirname (s : string) : string :=
  match s with
  | EmptyString => EmptyString
  | String c s' => if includes s' "/" then String c (sim_dirname s') else EmptyString
  end.

(** The runner function [true] returns, [false] throws; neither changes
    the runtime object. *)
Definition SimPlatform : @Platform SimHandles :=
  {| Outside := SimOutside;
     perform := @sim_perform;
     console_error := fun e => sim_noted ("console.error " +:+ e);
     runFn := fun (f : bool) rt o =>
                (if f then Ok tt else Throw "assertion failed", (rt, sim_noted "runner" o));
     os_homedir := "/home/user";
     path_join := fun a b => a +:+ "/" +:+ b;
     path_dirname := sim_dirname;
     getHomeDir := fun p => "/tmp/sandbox/" +:+ show p |}.

Definition sim_start : SimOutside :=
  {| sim_files := ∅; sim_nextPort := 3030; sim_journal := [] |}.

(** A fresh testnet runtime, without and with a master account. *)
Definition sim_testnet (master : option string) : @St SimHandles SimPlatform :=
  {| this := newRuntime TestnetRuntime (with_masterAccount master TestnetRuntime_defaultConfig);
     outside := sim_start : @Outside SimHandles SimPlatform |}.

(** A testnet runtime that is connected under [me.testnet]. *)
Definition sim_connected : @St SimHandles SimPlatform :=
  {| this := with_near (Some ("https://rpc.testnet.near.org" : @Near SimHandles))
                       (newRuntime TestnetRuntime
                                   (with_masterAccount (Some "me.testnet")
                                                       TestnetRuntime_defaultConfig));
     outside := sim_start : @Outside SimHandles SimPlatform |}.

(** A fresh sandbox runtime on the given port. *)
Definition sim_sandbox (p : N) : @St SimHandles SimPlatform :=
  {| this := newRuntime SandboxRuntime (@SandboxRuntime_defaultConfig SimHandles SimPlatform p);
     outside := sim_start : @Outside SimHandles SimPlatform |}.

End Legacy.

(** * Properties *)

Section Properties.
Context {KS : KeyStore} {HO : Host}.

Ltac unfold_monad :=
  unfold mbind, M_bind, bind, mret, M_ret, ret, throw, this, update_this, emit, draw in *.

Ltac unfold_calls :=
  unfold keyStore_getKey, keyStore_setKey, keyStore_removeKey, keyStore_getAccounts,
    provider_accountExists, provider_account_balance, account_signAndSendTransaction,
    accountCreator_createAccount, console_log, fs_requireKeyFile, fs_openKeyFile,
    fs_writeKeyFile, fs_closeKeyFile, KeyPairEd25519_fromRandom in *.

Ltac news_simpl :=
  unfold news; simpl; rewrite <- ?app_assoc; rewrite ?drop_app_length; simpl.

(** ** [executeTransaction] *)

(** Without a temporary key the call is the submission alone. *)
Lemma executeTransaction_plain (tx : Transaction) (st : St) :
  executeTransaction tx None st =
  account_signAndSendTransaction (networkId (mgr st)) (senderId tx) (receiverId tx)
                                 (actions tx) st.
Proof.
  unfold executeTransaction. unfold_monad. simpl.
  destruct (account_signAndSendTransaction _ _ _ _ st) as [[o|e] st']; reflexivity.
Qed.

Lemma executeTransaction_swap (tx : Transaction) (kp : KeyPair) (st : St) :
  executeTransaction tx (Some kp) st =
  match account_signAndSendTransaction (networkId (mgr st)) (senderId tx) (receiverId tx)
                                       (actions tx) (swapped tx kp st) with
  | (Ok outcome, st1) =>
      match storedKey st (senderId tx) with
      | Some old => (Ok outcome, snd (setKey (senderId tx) (Some old) st1))
      | None => (Ok outcome, st1)
      end
  | (Throw e, st1) => (Throw e, st1)
  end.
Proof.
  unfold executeTransaction, swapped, storedKey, setKey, getKey. unfold_calls. unfold_monad.
  simpl.
  destruct (signAndSendTransaction _ _ _ _ _) as [[o|e] c]; simpl; [|reflexivity].
  destruct (ks_getKey (keyStore (world st)) _ _); reflexivity.
Qed.

Lemma submission_keeps_store (net : string) (s r : AccountId) (acts : list Action) (st : St) :
  keyStore (world (snd (account_signAndSendTransaction net s r acts st))) = keyStore (world st)
  /\ mgr (snd (account_signAndSendTransaction net s r acts st)) = mgr st.
Proof.
  unfold account_signAndSendTransaction.
  destruct (signAndSendTransaction _ _ _ _ _) as [res c]. simpl. auto.
Qed.

(** The returning path: when the submission returns an outcome and the
    sender had a stored key before the call, [executeTransaction] with a
    temporary key leaves the key stored for the sender equal to the one
    stored before the call (l.145-147). *)
Lemma executeTransaction_restores_stored_key
        (tx : Transaction) (kp old : KeyPair) (st st' : St) (outcome : FinalExecutionOutcome) :
  storedKey st (senderId tx) = Some old ->
  executeTransaction tx (Some kp) st = (Ok outcome, st') ->
  storedKey st' (senderId tx) = storedKey st (senderId tx).
Proof.
  intros Hold Hrun. rewrite executeTransaction_swap in Hrun.
  destruct (account_signAndSendTransaction _ _ _ _ _) as [[o|e] st1] eqn:Hsub; [|discriminate].
  pose proof (submission_keeps_store (networkId (mgr st)) (senderId tx) (receiverId tx)
                (actions tx) (swapped tx kp st)) as [_ Hm].
  rewrite Hsub in Hm. simpl in Hm.
  rewrite Hold in Hrun. injection Hrun as _ <-.
  unfold storedKey in *. simpl. rewrite Hm, Hold.
  apply ks_get_set_eq.
Qed.

(** C1, the throwing path: when the sender had a stored key before the call
    and the call throws, the error is the one of the submission, made under
    the temporary key, and the temporary key is the one stored for the
    sender when the error reaches the caller: the restore that follows the
    awaited submission is not reached, and the key stored before the call
    is lost unless it was the temporary key itself. *)
Theorem executeTransaction_throw_keeps_temporary_key
        (tx : Transaction) (kp old : KeyPair) (st st' : St) (e : string) :
  storedKey st (senderId tx) = Some old ->
  executeTransaction tx (Some kp) st = (Throw e, st') ->
  account_signAndSendTransaction (networkId (mgr st)) (senderId tx) (receiverId tx)
                                 (actions tx) (swapped tx kp st) = (Throw e, st')
  /\ storedKey st' (senderId tx) = Some kp
  /\ (kp <> old -> storedKey st' (senderId tx) <> storedKey st (senderId tx)).
Proof.
  intros Hold Hrun. rewrite executeTransaction_swap in Hrun.
  destruct (account_signAndSendTransaction _ _ _ _ _) as [[o|e'] st1] eqn:Hsub.
  - destruct (storedKey st (senderId tx)); discriminate Hrun.
  - injection Hrun as -> ->.
    pose proof (submission_keeps_store (networkId (mgr st)) (senderId tx) (receiverId tx)
                  (actions tx) (swapped tx kp st)) as [Hk Hm].
    rewrite Hsub in Hk, Hm. simpl in Hk, Hm.
    assert (Hkp : storedKey st' (senderId tx) = Some kp).
    { unfold storedKey. rewrite Hk, Hm. unfold swapped. simpl. apply ks_get_set_eq. }
    split; [reflexivity|]. split; [exact Hkp|].
    intros Hne. rewrite Hkp, Hold. congruence.
Qed.

(** C9: with a temporary key and no stored key for the sender, the
    temporary key is the sender's stored key when the call is over, on
    both exits; the call wrote the store once, with that key, and removed
    nothing. *)
Theorem executeTransaction_temporary_key_stays
        (tx : Transaction) (kp : KeyPair) (st : St) :
  storedKey st (senderId tx) = None ->
  let st' := snd (executeTransaction tx (Some kp) st) in
  storedKey st' (senderId tx) = Some kp
  /\ news st st' =
     [EvGetKey (networkId (mgr st)) (senderId tx);
      EvSetKey (networkId (mgr st)) (senderId tx) kp;
      EvGetKey (networkId (mgr st)) (senderId tx);
      EvSubmit (senderId tx) (receiverId tx) (actions tx)].
Proof.
  intros Hnone. unfold storedKey in *.
  unfold executeTransaction, setKey, getKey. unfold_calls. unfold_monad. simpl.
  rewrite Hnone. simpl.
  destruct (signAndSendTransaction _ _ _ _ _) as [[o|e] c]; simpl;
    (split; [apply ks_get_set_eq | news_simpl; reflexivity]).
Qed.

(** ** [signAndSend] *)

(** The flag is set exactly when a delete-account action was added. *)
Lemma built_delete_flag (tx : Transaction) :
  ManagedTransaction_built tx -> delete tx = existsb isDeleteAccount (actions tx).
Proof.
  induction 1; simpl; try reflexivity;
    rewrite existsb_app; simpl; rewrite ?orb_false_r, ?orb_true_r; auto.
Qed.

Lemma isRemoveKeyOf_removesKey (n : string) (a : AccountId) (d : list Event) :
  existsb removesKey d = false -> existsb (isRemoveKeyOf n a) d = false.
Proof.
  induction d as [|e d IH]; simpl; [reflexivity|].
  intros H. apply orb_false_iff in H as [He Hd].
  rewrite (IH Hd), orb_false_r. destruct e; simpl in *; congruence.
Qed.

(** What [executeTransaction] does to the store, the trace and the manager,
    whatever the key and the exit. *)
Lemma executeTransaction_effects (tx : Transaction) (kp : option KeyPair) (st : St) :
  let st' := snd (executeTransaction tx kp st) in
  mgr st' = mgr st
  /\ (exists d, trace (world st') = trace (world st) ++ d /\ existsb removesKey d = false)
  /\ (forall a, is_Some (storedKey st a) -> is_Some (storedKey st' a))
  /\ (forall a, a <> senderId tx -> storedKey st' a = storedKey st a)
  /\ (kp = None -> keyStore (world st') = keyStore (world st)).
Proof.
  destruct kp as [k|].
  - unfold executeTransaction, setKey, getKey, storedKey. unfold_calls. unfold_monad. simpl.
    destruct (signAndSendTransaction _ _ _ _ _) as [[o|e] c]; simpl.
    + destruct (ks_getKey (keyStore (world st)) _ _) as [old|] eqn:Hold; simpl.
      * split; [reflexivity|]. split.
        { eexists. rewrite <- !app_assoc. split; [reflexivity|reflexivity]. }
        split; [|split; [|discriminate]].
        -- intros a Ha. destruct (decide (a = senderId tx)) as [->|Hne].
           ++ rewrite ks_get_set_eq. eauto.
           ++ rewrite !ks_get_set_ne by congruence. exact Ha.
        -- intros a Hne. rewrite !ks_get_set_ne by congruence. reflexivity.
      * split; [reflexivity|]. split.
        { eexists. rewrite <- !app_assoc. split; [reflexivity|reflexivity]. }
        split; [|split; [|discriminate]].
        -- intros a Ha. destruct (decide (a = senderId tx)) as [->|Hne].
           ++ rewrite ks_get_set_eq. eauto.
           ++ rewrite !ks_get_set_ne by congruence. exact Ha.
        -- intros a Hne. rewrite !ks_get_set_ne by congruence. reflexivity.
    + split; [reflexivity|]. split.
      { eexists. rewrite <- !app_assoc. split; [reflexivity|reflexivity]. }
      split; [|split; [|discriminate]].
      * intros a Ha. destruct (decide (a = senderId tx)) as [->|Hne].
        -- rewrite ks_get_set_eq. eauto.
        -- rewrite !ks_get_set_ne by congruence. exact Ha.
      * intros a Hne. rewrite !ks_get_set_ne by congruence. reflexivity.
  - rewrite executeTransaction_plain. unfold storedKey. unfold_calls.
    destruct (signAndSendTransaction _ _ _ _ _) as [r c]; simpl.
    split; [reflexivity|]. split; [eexists; split; reflexivity|]. auto.
Qed.

Lemma signAndSend_run (tx : Transaction) (kp : option KeyPair) (st : St) :
  signAndSend tx kp st =
  match executeTransaction tx kp st with
  | (Ok o, st1) =>
      if hasSuccessValue (status o) && delete tx
      then (Ok o, snd (deleteKey (receiverId tx) st1))
      else (Ok o, st1)
  | (Throw e, st1) => (Throw e, st1)
  end.
Proof.
  unfold signAndSend, deleteKey. unfold_calls. unfold_monad.
  destruct (executeTransaction tx kp st) as [[o|e] st1]; [|reflexivity].
  destruct (hasSuccessValue (status o) && delete tx); reflexivity.
Qed.


(** ** The tracking table *)

Lemma Map_get_set_eq (k : AccountId) (v : AccountShortName)
      (m : list (AccountId * AccountShortName)) :
  Map_get k (Map_set k v m) = Some v.
Proof.
  induction m as [|[k' v'] m IH]; simpl.
  - rewrite String.eqb_refl. reflexivity.
  - destruct (String.eqb k' k) eqn:E; simpl; rewrite E; auto.
Qed.

Lemma Map_keys_set (k : AccountId) (v : AccountShortName)
      (m : list (AccountId * AccountShortName)) :
  Map_keys m ⊆ Map_keys (Map_set k v m).
Proof.
  unfold Map_keys. induction m as [|[k' v'] m IH]; simpl.
  - apply list_subseteq_nil.
  - destruct (String.eqb k' k); simpl; [reflexivity|].
    intros x Hx. apply elem_of_cons in Hx as [->|Hx]; [left|right; apply IH, Hx].
Qed.

Lemma append_cons (c : ascii) (p r : string) : String c p +:+ r = String c (p +:+ r).
Proof. reflexivity. Qed.

Lemma append_nil (r : string) : "" +:+ r = r.
Proof. reflexivity. Qed.

Lemma append_nil_r (p : string) : p +:+ "" = p.
Proof. induction p as [|c p IH]; [reflexivity|]. rewrite append_cons, IH. reflexivity. Qed.

Lemma prefix_nil (r : string) : String.prefix "" r = true.
Proof. destruct r; reflexivity. Qed.

Lemma prefix_app (p r : string) : String.prefix p (p +:+ r) = true.
Proof.
  induction p as [|c p IH]; [apply prefix_nil|].
  rewrite append_cons. simpl.
  destruct (ascii_dec c c); [exact IH|congruence].
Qed.

Lemma prefix_refl (p : string) : String.prefix p p = true.
Proof. rewrite <- (append_nil_r p) at 2. apply prefix_app. Qed.

Lemma dropn_app (p r : string) : dropn (String.length p) (p +:+ r) = r.
Proof.
  induction p as [|c p IH]; [reflexivity|].
  rewrite append_cons. simpl. exact IH.
Qed.

Lemma dropn_all (p : string) : dropn (String.length p) p = "".
Proof. rewrite <- (append_nil_r p) at 2. apply dropn_app. Qed.

Lemma replace_first_suffix (short pat : string) :
  indexOf (short +:+ pat) pat = Some (String.length short) ->
  replace pat "" (short +:+ pat) = short.
Proof.
  induction short as [|c short IH]; intros Hi.
  - rewrite append_nil.
    destruct pat as [|p0 pat]; [reflexivity|].
    unfold replace. rewrite prefix_refl, dropn_all. reflexivity.
  - rewrite append_cons in *. cbn [indexOf] in Hi. cbn [replace].
    destruct (String.prefix pat (String c (short +:+ pat))); [discriminate|].
    destruct (indexOf (short +:+ pat) pat) as [n|] eqn:E; [|discriminate].
    cbv [fmap option_fmap option_map] in Hi. injection Hi as ->. rewrite IH; reflexivity.
Qed.

Lemma prefix_cons (c d : ascii) (p s : string) :
  String.prefix (String c p) (String d s) =
  if ascii_dec c d then String.prefix p s else false.
Proof. reflexivity. Qed.

Lemma indexOf_dot_free (short sender : string) :
  includes short "." = false ->
  indexOf (short +:+ "." +:+ sender) ("." +:+ sender) = Some (String.length short).
Proof.
  induction short as [|c short IH]; intros Hinc.
  - rewrite append_nil, append_cons, append_nil.
    cbn [indexOf]. rewrite prefix_refl. reflexivity.
  - change (includes (String c short) ".")
      with (String.prefix "." (String c short) || includes short ".") in Hinc.
    apply orb_false_iff in Hinc as [Hc Hrest].
    specialize (IH Hrest).
    rewrite prefix_cons in Hc.
    rewrite !append_cons, append_nil in *.
    cbn [indexOf]. rewrite prefix_cons.
    destruct (ascii_dec "." c) as [Heq|Hne];
      [rewrite prefix_nil in Hc; discriminate Hc|].
    rewrite IH. reflexivity.
Qed.

Lemma addAccountCreated_run (account sender : AccountId) (st : St) :
  addAccountCreated account sender st =
  (Ok tt, on_mgr (fun m => with_accountsCreated
                             (Map_set account (replace ("." +:+ sender) "" account)
                                      (accountsCreated m)) m) st).
Proof. reflexivity. Qed.

(** C6 (as amended): for an account id [short.sender] in which
    [.sender] first occurs as that final suffix, and so whenever [short]
    holds no dot, the tracking table maps the id to [short] after
    [addAccountCreated]. *)
Theorem addAccountCreated_short_name (short sender : string) (st : St) :
  let accountId := short +:+ "." +:+ sender in
  let st' := snd (addAccountCreated accountId sender st) in
  (indexOf accountId ("." +:+ sender) = Some (String.length short) ->
   Map_get accountId (accountsCreated (mgr st')) = Some short)
  /\ (includes short "." = false ->
      Map_get accountId (accountsCreated (mgr st')) = Some short).
Proof.
  cbv zeta. rewrite addAccountCreated_run. simpl snd. simpl mgr.
  assert (H : indexOf (short +:+ "." +:+ sender) ("." +:+ sender) = Some (String.length short) ->
          Map_get (short +:+ "." +:+ sender)
            (accountsCreated
               (with_accountsCreated
                  (Map_set (short +:+ "." +:+ sender)
                     (replace ("." +:+ sender) "" (short +:+ "." +:+ sender))
                     (accountsCreated (mgr st))) (mgr st))) = Some short).
  { intros Hi. simpl accountsCreated. rewrite Map_get_set_eq.
    f_equal. apply (replace_first_suffix short ("." +:+ sender)). exact Hi. }
  split; [exact H|].
  intros Hd. apply H, indexOf_dot_free, Hd.
Qed.

(** C5: [createAccount] on a managed transaction puts the receiver id in
    the manager's tracking table at once, with nothing sent and the world
    untouched; whether [signAndSend] then runs, and however it ends, the
    table is the same. *)
Theorem ManagedTransaction_createAccount_registers (tx : Transaction) (st : St) :
  let st1 := snd (ManagedTransaction_createAccount tx st) in
  fst (ManagedTransaction_createAccount tx st) = Ok (Transaction_createAccount tx)
  /\ Map_get (receiverId tx) (accountsCreated (mgr st1))
     = Some (replace ("." +:+ senderId tx) "" (receiverId tx))
  /\ world st1 = world st
  /\ forall kp,
      accountsCreated (mgr (snd (signAndSend (Transaction_createAccount tx) kp st1)))
      = accountsCreated (mgr st1).
Proof.
  cbv zeta. unfold ManagedTransaction_createAccount. unfold_monad.
  rewrite addAccountCreated_run. simpl.
  split; [reflexivity|]. split; [apply Map_get_set_eq|]. split; [reflexivity|].
  intros kp. rewrite signAndSend_run.
  match goal with
  | |- context [executeTransaction ?t kp ?s] =>
      destruct (executeTransaction_effects t kp s) as (Hm & _);
      destruct (executeTransaction t kp s) as [[o|e] st2]
  end; simpl in Hm.
  - destruct (hasSuccessValue (status o) && _); simpl; rewrite ?Hm; reflexivity.
  - simpl. rewrite Hm. reflexivity.
Qed.

(** ** Deleting accounts *)

Lemma deletions_app (d1 d2 : list Event) :
  deletions (d1 ++ d2) = deletions d1 ++ deletions d2.
Proof. unfold deletions. apply flat_map_app. Qed.

Lemma Account_delete_submits (accountId beneficiaryId : AccountId) :
  submitsDeletions (Account_delete accountId beneficiaryId) [(accountId, beneficiaryId)].
Proof.
  intros st. unfold Account_delete. rewrite signAndSend_run, executeTransaction_plain.
  unfold deleteKey. unfold_calls. unfold_monad. simpl.
  destruct (signAndSendTransaction _ _ _ _ _) as [[o|e] c]; simpl.
  - destruct (hasSuccessValue (status o)); simpl.
    + split; [reflexivity|]. eexists. rewrite <- app_assoc. split; reflexivity.
    + split; [reflexivity|]. eexists. split; reflexivity.
  - split; [reflexivity|]. eexists. split; reflexivity.
Qed.

Lemma AccountManager_deleteAccount_submits (accountId beneficiaryId : AccountId) :
  submitsDeletions (AccountManager_deleteAccount accountId beneficiaryId)
                   [(accountId, beneficiaryId)].
Proof.
  intros st. unfold AccountManager_deleteAccount. unfold_monad.
  pose proof (Account_delete_submits accountId beneficiaryId st) as H.
  destruct (Account_delete accountId beneficiaryId st) as [[o|e] st1]; exact H.
Qed.

Lemma Promise_all_submits {A} (task : AccountId -> M A)
      (request : AccountId -> AccountId * AccountId) (ids : list AccountId) :
  (forall id, submitsDeletions (task id) [request id]) ->
  submitsDeletions (Promise_all (map task ids)) (map request ids).
Proof.
  intros Htask. induction ids as [|id ids IH]; intros st; simpl.
  - split; [reflexivity|]. exists []. rewrite app_nil_r. split; reflexivity.
  - destruct (Htask id st) as (Hm1 & d1 & Ht1 & Hd1).
    destruct (task id st) as [[a|e] st1]; simpl in Hm1, Ht1.
    + destruct (IH st1) as (Hm2 & d2 & Ht2 & Hd2).
      destruct (Promise_all (map task ids) st1) as [[l|e] st2]; simpl in *;
        (split; [congruence|]); exists (d1 ++ d2);
        rewrite Ht2, Ht1, <- app_assoc, deletions_app, Hd1, Hd2; split; reflexivity.
    + destruct (IH st1) as (Hm2 & d2 & Ht2 & Hd2). simpl.
      split; [congruence|]. exists (d1 ++ d2).
      rewrite Ht2, Ht1, <- app_assoc, deletions_app, Hd1, Hd2. split; reflexivity.
Qed.

(** The overriding [cleanup()]: one delete-account request per tracked id,
    and the manager object as it was. *)
Lemma TestnetSubaccountManager_cleanup_effects (st : St) :
  let st' := snd (TestnetSubaccountManager_cleanup st) in
  mgr st' = mgr st
  /\ deletions (news st st') =
     map (fun id => (id, realRootId (mgr st))) (Map_keys (accountsCreated (mgr st))).
Proof.
  cbv zeta. unfold TestnetSubaccountManager_cleanup. unfold_monad.
  pose proof (Promise_all_submits (fun id => Account_delete id (realRootId (mgr st)))
                (fun id => (id, realRootId (mgr st)))
                (Map_keys (accountsCreated (mgr st)))
                (fun id => Account_delete_submits id (realRootId (mgr st)))) as H.
  destruct (H st) as (Hm & d & Ht & Hd).
  unfold news.
  destruct (Promise_all _ st) as [[l|e] st1]; simpl in *;
    rewrite Ht, drop_app_length; auto.
Qed.

(** C7: [cleanup()] of the base class, which [SandboxManager] and
    [TestnetManager] inherit, returns with the state (manager and world,
    trace included) as it was, so nothing is deleted; the one of
    [TestnetSubaccountManager] submits one delete-account request for every
    id of its tracking table, in the table's order, each with the real root
    as beneficiary. *)
Theorem cleanup_deletes_only_for_subaccount_manager (st : St) :
  match variant (mgr st) with
  | TestnetSubaccount =>
      deletions (news st (snd (cleanup st))) =
      map (fun id => (id, realRootId (mgr st))) (Map_keys (accountsCreated (mgr st)))
  | Sandbox | Testnet => cleanup st = (Ok tt, st)
  end.
Proof.
  destruct (variant (mgr st)) eqn:Hv.
  - unfold cleanup. unfold_monad. rewrite Hv. reflexivity.
  - unfold cleanup. unfold_monad. rewrite Hv. reflexivity.
  - assert (Hc : cleanup st = TestnetSubaccountManager_cleanup st).
    { unfold cleanup. unfold_monad. rewrite Hv. reflexivity. }
    rewrite Hc. apply TestnetSubaccountManager_cleanup_effects.
Qed.

(** ** Root-account discovery *)

Lemma findAccountsWithPrefix_run (prefix net : string) (st : St) :
  findAccountsWithPrefix prefix net st =
  let st1 := on_world (logged (EvGetAccounts net)) st in
  match filter (fun f => Is_true (startsWith f prefix))
               (ks_getAccounts (keyStore (world st)) net) with
  | [] => (Ok [prefix +:+ randomNonce (draws (world st)) +:+ ""],
           on_world (with_draws (S (draws (world st)))) st1)
  | p :: ps => (Ok (p :: ps), st1)
  end.
Proof.
  unfold findAccountsWithPrefix, randomAccountId. unfold_calls. unfold_monad. simpl.
  destruct (filter _ _); reflexivity.
Qed.

(** C4 (as amended): with no root configured and a script as caller, when stored ids
    of the network start with the derived prefix the others than the first
    are each submitted for deletion with the first as beneficiary, and the
    first is the root once discovery returns (it returns exactly when the
    joint await of those deletions does not reject, so always when nothing
    else matched; a throwing deletion is passed on and leaves the manager
    as it was); when no stored id matches, discovery returns with a
    fresh random id that starts with the prefix as root and nothing is
    submitted for deletion. *)
Theorem initRootAccount_discovery (st : St) :
  truthy (rootAccount (config (mgr st))) = false ->
  ext (path_parse (callerFile (world st))) ∈ [".ts"; ".js"] ->
  let prefix := callerPrefix (callerFile (world st)) in
  let r := fst (initRootAccount st) in
  let st' := snd (initRootAccount st) in
  match filter (fun f => Is_true (startsWith f prefix))
               (ks_getAccounts (keyStore (world st)) (networkId (mgr st))) with
  | first :: others =>
      deletions (news st st') = map (fun acc => (acc, first)) others
      /\ (r = Ok tt -> rootAccount (config (mgr st')) = Some first)
      /\ (r = Ok tt <->
          isOk (fst (Promise_all
                       (map (fun acc => AccountManager_deleteAccount acc first) others)
                       (on_world (logged (EvGetAccounts (networkId (mgr st)))) st))) = true)
      /\ (others = [] -> r = Ok tt)
      /\ (r <> Ok tt -> mgr st' = mgr st)
  | [] =>
      r = Ok tt
      /\ deletions (news st st') = []
      /\ (exists fresh, rootAccount (config (mgr st')) = Some fresh
                        /\ startsWith fresh prefix = true)
  end.
Proof.
  intros Hroot Hext. cbv zeta.
  unfold initRootAccount, findCallerFile, callerPrefix. unfold_monad.
  rewrite Hroot. rewrite (bool_decide_eq_true_2 _ Hext).
  rewrite findAccountsWithPrefix_run. cbv zeta.
  set (prefix := if includes (name (path_parse (callerFile (world st)))) "."
                 then split_dot_0 (name (path_parse (callerFile (world st))))
                 else name (path_parse (callerFile (world st)))).
  destruct (filter _ _) as [|first others].
  - simpl. split; [reflexivity|]. split; [news_simpl; reflexivity|].
    eexists. split; [reflexivity|]. unfold startsWith. apply prefix_app.
  - set (st1 := on_world (logged (EvGetAccounts (networkId (mgr st)))) st).
    pose proof (Promise_all_submits (fun acc => AccountManager_deleteAccount acc first)
                  (fun acc => (acc, first)) others
                  (fun acc => AccountManager_deleteAccount_submits acc first) st1)
      as (Hm & d & Ht & Hd).
    destruct (Promise_all _ st1) as [[l|e] st2] eqn:Hall; simpl in Hm, Ht |- *.
    + split.
      { unfold news. simpl. rewrite Ht. simpl. rewrite <- app_assoc, drop_app_length.
        simpl. exact Hd. }
      split; [reflexivity|]. split; [split; reflexivity|].
      split; [reflexivity|]. congruence.
    + split.
      { unfold news. rewrite Ht. simpl. rewrite <- app_assoc, drop_app_length.
        simpl. exact Hd. }
      split; [discriminate|]. split; [split; discriminate|].
      split; [|intros _; exact Hm].
      intros ->. simpl in Hall. discriminate.
Qed.

(** ** What the methods leave alone *)

#[global] Instance sameManager_frame : Frame sameManager.
Proof.
  split; unfold sameManager.
  - reflexivity.
  - intros st1 st2 st3 H1 H2. congruence.
  - reflexivity.
Qed.

#[global] Instance evolves_frame : Frame evolves.
Proof.
  split; unfold evolves.
  - intros st. repeat split; reflexivity.
  - intros st1 st2 st3 (Hv1 & Hn1 & Hk1) (Hv2 & Hn2 & Hk2).
    repeat split; try congruence. etransitivity; eassumption.
  - intros st f. repeat split; reflexivity.
Qed.

Section Framing.
Context (R : St -> St -> Prop) `{!Frame R}.

Lemma respects_ret {A} (a : A) : respects R (mret a : M A).
Proof. intros st. apply frame_refl. Qed.

Lemma respects_throw {A} (msg : string) : respects R (throw msg : M A).
Proof. intros st. apply frame_refl. Qed.

Lemma respects_bind {A B} (m : M A) (k : A -> M B) :
  respects R m -> (forall a, respects R (k a)) -> respects R (m ≫= k).
Proof.
  intros Hm Hk st. unfold_monad. specialize (Hm st).
  destruct (m st) as [[a|e] st1]; simpl in *; [|exact Hm].
  eapply frame_trans; [exact Hm|apply Hk].
Qed.

Lemma respects_this : respects R this.
Proof. intros st. apply frame_refl. Qed.

Lemma respects_draw : respects R draw.
Proof. intros st. apply frame_world. Qed.

Lemma respects_emit (e : Event) : respects R (emit e).
Proof. intros st. apply frame_world. Qed.

Lemma respects_findCallerFile : respects R findCallerFile.
Proof. intros st. apply frame_refl. Qed.

Lemma respects_keyStore_getKey (n : string) (a : AccountId) : respects R (keyStore_getKey n a).
Proof. intros st. apply frame_world. Qed.

Lemma respects_keyStore_setKey (n : string) (a : AccountId) (k : KeyPair) :
  respects R (keyStore_setKey n a k).
Proof. intros st. apply frame_world. Qed.

Lemma respects_keyStore_removeKey (n : string) (a : AccountId) :
  respects R (keyStore_removeKey n a).
Proof. intros st. apply frame_world. Qed.

Lemma respects_keyStore_getAccounts (n : string) : respects R (keyStore_getAccounts n).
Proof. intros st. apply frame_world. Qed.

Lemma respects_provider_accountExists (a : AccountId) : respects R (provider_accountExists a).
Proof. intros st. apply frame_world. Qed.

Lemma respects_provider_account_balance (a : AccountId) :
  respects R (provider_account_balance a).
Proof. intros st. apply frame_world. Qed.

Lemma respects_account_signAndSendTransaction (n : string) (s r : AccountId)
      (acts : list Action) :
  respects R (account_signAndSendTransaction n s r acts).
Proof.
  intros st. unfold account_signAndSendTransaction.
  destruct (signAndSendTransaction _ _ _ _ _) as [res c]. apply frame_world.
Qed.

Lemma respects_accountCreator_createAccount (a : AccountId) (pk : PublicKey) :
  respects R (accountCreator_createAccount a pk).
Proof.
  intros st. unfold accountCreator_createAccount.
  destruct (helperCreateAccount _ _ _) as [res c]. apply frame_world.
Qed.

Lemma respects_try_catch {A} (body : M A) (handler : string -> M A) :
  respects R body -> (forall e, respects R (handler e)) -> respects R (try_catch body handler).
Proof.
  intros Hb Hh st. unfold try_catch. specialize (Hb st).
  destruct (body st) as [[a|e] st1]; simpl in *; [exact Hb|].
  eapply frame_trans; [exact Hb|apply Hh].
Qed.

Lemma respects_fs_requireKeyFile (path : string) : respects R (fs_requireKeyFile path).
Proof.
  intros st. unfold fs_requireKeyFile.
  destruct (require_keyFile _ _) as [res f]. apply frame_world.
Qed.

Lemma respects_fs_openKeyFile (path : string) : respects R (fs_openKeyFile path).
Proof.
  intros st. unfold fs_openKeyFile.
  destruct (fs_open _ _) as [res f]. apply frame_world.
Qed.

Lemma respects_fs_writeKeyFile (path : string) (h : FileHandle) (k : KeyPair) :
  respects R (fs_writeKeyFile path h k).
Proof.
  intros st. unfold fs_writeKeyFile.
  destruct (keyFile_writeFile _ _ _) as [res f]. apply frame_world.
Qed.

Lemma respects_fs_closeKeyFile (path : string) (h : FileHandle) :
  respects R (fs_closeKeyFile path h).
Proof.
  intros st. unfold fs_closeKeyFile.
  destruct (keyFile_close _ _) as [res f]. apply frame_world.
Qed.

Lemma respects_Promise_all {A} (tasks : list (M A)) :
  Forall (respects R) tasks -> respects R (Promise_all tasks).
Proof.
  induction 1 as [|t ts Ht Hts IH]; intros st; simpl.
  - apply frame_refl.
  - specialize (Ht st). destruct (t st) as [[a|e] st1]; simpl in Ht.
    + specialize (IH st1). destruct (Promise_all ts st1) as [[l|e] st2]; simpl in *;
        eapply frame_trans; eassumption.
    + simpl. eapply frame_trans; [exact Ht|apply IH].
Qed.

Lemma respects_in_object {A} (o : Manager) (c : M A) : respects R (in_object o c).
Proof.
  intros st. unfold in_object, on_object.
  destruct (c _) as [[a|e] st1]; simpl;
    apply (frame_world st (fun _ => world st1)).
Qed.

End Framing.

Create HintDb respects.
#[local] Hint Resolve respects_ret respects_throw respects_this respects_draw respects_emit
  respects_findCallerFile respects_keyStore_getKey respects_keyStore_setKey
  respects_keyStore_removeKey respects_keyStore_getAccounts respects_provider_accountExists
  respects_provider_account_balance respects_account_signAndSendTransaction
  respects_accountCreator_createAccount respects_fs_requireKeyFile respects_fs_openKeyFile
  respects_fs_writeKeyFile respects_fs_closeKeyFile respects_in_object : respects.

Ltac respects_step :=
  first
    [ solve [ eauto with respects typeclass_instances ]
    | progress cbv zeta
    | match goal with
      | |- respects _ (match ?x with _ => _ end) => destruct x
      | |- respects _ (if ?b then _ else _) => destruct b
      end
    | apply respects_try_catch; [ exact _ | | intros ? ]
    | apply respects_bind; [ exact _ | | intros ? ] ].

Ltac respects_tac := cbv zeta; repeat respects_step.

Section Framed.
Context (R : St -> St -> Prop) `{!Frame R}.

Lemma respects_getKey (a : AccountId) : respects R (getKey a).
Proof. unfold getKey. respects_tac. Qed.
Hint Resolve respects_getKey : respects.

Lemma respects_fromRandom : respects R KeyPairEd25519_fromRandom.
Proof. unfold KeyPairEd25519_fromRandom. respects_tac. Qed.
Hint Resolve respects_fromRandom : respects.

Lemma respects_setKey (a : AccountId) (k : option KeyPair) : respects R (setKey a k).
Proof. unfold setKey. respects_tac. Qed.
Hint Resolve respects_setKey : respects.

Lemma respects_removeKey (a : AccountId) : respects R (removeKey a).
Proof. unfold removeKey. respects_tac. Qed.

Lemma respects_deleteKey (a : AccountId) : respects R (deleteKey a).
Proof. unfold deleteKey. respects_tac. Qed.
Hint Resolve respects_removeKey respects_deleteKey : respects.

Lemma respects_getRootKey : respects R getRootKey.
Proof. unfold getRootKey. respects_tac. Qed.
Hint Resolve respects_getRootKey : respects.

Lemma respects_balance (a : AccountId) : respects R (balance a).
Proof. unfold balance. respects_tac. Qed.

Lemma respects_exists (a : AccountId) : respects R (exists_ a).
Proof. unfold exists_. respects_tac. Qed.
Hint Resolve respects_balance respects_exists : respects.

Lemma respects_executeTransaction (tx : Transaction) (k : option KeyPair) :
  respects R (executeTransaction tx k).
Proof. unfold executeTransaction. respects_tac. Qed.
Hint Resolve respects_executeTransaction : respects.

Lemma respects_signAndSend (tx : Transaction) (k : option KeyPair) :
  respects R (signAndSend tx k).
Proof. unfold signAndSend. respects_tac. Qed.
Hint Resolve respects_signAndSend : respects.

Lemma respects_Account_delete (a b : AccountId) : respects R (Account_delete a b).
Proof. unfold Account_delete. respects_tac. Qed.
Hint Resolve respects_Account_delete : respects.

Lemma respects_deleteAccount (a b : AccountId) : respects R (AccountManager_deleteAccount a b).
Proof. unfold AccountManager_deleteAccount. respects_tac. Qed.
Hint Resolve respects_deleteAccount : respects.

Lemma respects_randomAccountId (p s : option string) : respects R (randomAccountId p s).
Proof. unfold randomAccountId. respects_tac. Qed.
Hint Resolve respects_randomAccountId : respects.

Lemma respects_getKeyFromFile (path : string) (create : bool) :
  respects R (getKeyFromFile path create).
Proof. unfold getKeyFromFile. respects_tac. Qed.
Hint Resolve respects_getKeyFromFile : respects.

Lemma respects_findAccountsWithPrefix (p n : string) : respects R (findAccountsWithPrefix p n).
Proof. unfold findAccountsWithPrefix. respects_tac. Qed.
Hint Resolve respects_findAccountsWithPrefix : respects.

Lemma respects_TestnetManager_createAccount (a : AccountId) (pk : PublicKey) :
  respects R (TestnetManager_createAccount a pk).
Proof. unfold TestnetManager_createAccount. respects_tac. Qed.
Hint Resolve respects_TestnetManager_createAccount : respects.

Lemma respects_addFunds : respects R addFunds.
Proof. unfold addFunds, console_log. respects_tac. Qed.
Hint Resolve respects_addFunds : respects.

Lemma respects_SandboxManager_init : respects R SandboxManager_init.
Proof. unfold SandboxManager_init. respects_tac. Qed.

Lemma respects_cleanup : respects R cleanup.
Proof.
  unfold cleanup, TestnetSubaccountManager_cleanup, AccountManager_cleanup. respects_tac.
  apply respects_Promise_all; [exact _|]. apply Forall_map, Forall_true. intros id. simpl.
  apply respects_Account_delete.
Qed.

Lemma respects_createFrom (near : Config) : respects R (TestnetManager_createFrom near).
Proof. unfold TestnetManager_createFrom. respects_tac. Qed.

End Framed.

#[local] Hint Resolve respects_getKey respects_fromRandom respects_setKey respects_removeKey
  respects_deleteKey respects_getRootKey respects_balance respects_exists
  respects_executeTransaction respects_signAndSend respects_Account_delete
  respects_deleteAccount respects_randomAccountId respects_getKeyFromFile
  respects_findAccountsWithPrefix respects_TestnetManager_createAccount respects_addFunds
  respects_SandboxManager_init respects_cleanup respects_createFrom : respects.

(** ** The methods that write the manager object *)

Lemma evolves_update_this (f : Manager -> Manager) :
  (forall m, variant (f m) = variant m
             /\ network (config (f m)) = network (config m)
             /\ Map_keys (accountsCreated m) ⊆ Map_keys (accountsCreated (f m))) ->
  respects evolves (update_this f).
Proof. intros Hf st. unfold evolves. simpl. apply Hf. Qed.

Lemma evolves_addAccountCreated (account sender : AccountId) :
  respects evolves (addAccountCreated account sender).
Proof.
  unfold addAccountCreated. apply evolves_update_this. intros m. simpl.
  repeat split. apply Map_keys_set.
Qed.
#[local] Hint Resolve evolves_addAccountCreated : respects.

Lemma evolves_ManagedTransaction_createAccount (tx : Transaction) :
  respects evolves (ManagedTransaction_createAccount tx).
Proof. unfold ManagedTransaction_createAccount. respects_tac. Qed.
#[local] Hint Resolve evolves_ManagedTransaction_createAccount : respects.

Lemma evolves_Account_createAccount (parent a : AccountId) (n : N) :
  respects evolves (Account_createAccount parent a n).
Proof. unfold Account_createAccount. respects_tac. Qed.
#[local] Hint Resolve evolves_Account_createAccount : respects.

Lemma evolves_initRootAccount : respects evolves initRootAccount.
Proof.
  unfold initRootAccount. respects_tac.
  - apply evolves_update_this. intros m. simpl. repeat split; reflexivity.
  - apply respects_Promise_all; [exact _|]. apply Forall_map, Forall_true. intros acc. simpl.
    apply respects_deleteAccount. exact _.
  - apply evolves_update_this. intros m. simpl. repeat split; reflexivity.
Qed.
#[local] Hint Resolve evolves_initRootAccount : respects.

Lemma evolves_createAndFundAccount : respects evolves createAndFundAccount.
Proof. unfold createAndFundAccount. respects_tac. Qed.
#[local] Hint Resolve evolves_createAndFundAccount : respects.

Lemma evolves_TestnetSubaccountManager_init : respects evolves TestnetSubaccountManager_init.
Proof.
  unfold TestnetSubaccountManager_init. respects_tac.
  apply evolves_update_this. intros m. simpl. repeat split; reflexivity.
Qed.
#[local] Hint Resolve evolves_TestnetSubaccountManager_init : respects.

Lemma evolves_init : respects evolves init.
Proof. unfold init, TestnetManager_init. respects_tac. Qed.
#[local] Hint Resolve evolves_init : respects.

(** ** The factory *)

(** C8: for a network name other than [sandbox] and [testnet],
    [AccountManager.create] throws the error that names the value, and the
    world, its trace of collaborator calls included, is as before; for
    [sandbox] and for [testnet] it returns the manager object its [init()]
    has left, of the variant of that network, and runs that variant's
    [init()]. *)
Theorem create_selects_variant (near : Config) (w : World) :
  if String.eqb (network near) "sandbox" then
    create near w = initialised Sandbox near w
    /\ init {| world := w; mgr := newManager Sandbox near |}
       = SandboxManager_init {| world := w; mgr := newManager Sandbox near |}
    /\ (forall m w', create near w = (Ok m, w') -> variant m = Sandbox)
  else if String.eqb (network near) "testnet" then
    create near w = initialised Testnet near w
    /\ init {| world := w; mgr := newManager Testnet near |}
       = TestnetManager_init {| world := w; mgr := newManager Testnet near |}
    /\ (forall m w', create near w = (Ok m, w') -> variant m = Testnet)
  else
    create near w = (Throw (badNetworkMessage (network near)), w).
Proof.
  unfold create, initialised, on_object.
  destruct (String.eqb (network near) "sandbox");
    [|destruct (String.eqb (network near) "testnet"); [|reflexivity]].
  - pose proof (evolves_init {| world := w; mgr := newManager Sandbox near |}) as (Hv & _).
    split; [|split; [reflexivity|]].
    + destruct (init _) as [[[] |e] st1]; reflexivity.
    + intros m w'. destruct (init _) as [[[] |e] st1]; simpl in *; [|discriminate].
      intros [= <- _]. exact Hv.
  - pose proof (evolves_init {| world := w; mgr := newManager Testnet near |}) as (Hv & _).
    split; [|split; [reflexivity|]].
    + destruct (init _) as [[[] |e] st1]; reflexivity.
    + intros m w'. destruct (init _) as [[[] |e] st1]; simpl in *; [|discriminate].
      intros [= <- _]. exact Hv.
Qed.

(** ** The tracking table only grows *)

Lemma evolves_call (op : Op) : respects evolves (call op).
Proof.
  destruct op; unfold call, void, SandboxManager_createFrom; respects_tac.
Qed.

(** C10: no call on a manager of any variant takes an id out of its
    tracking table: after any sequence of calls every id tracked before is
    still tracked; [cleanup()] of the subaccount manager submits the
    deletion of every tracked account and leaves the table as it was. *)
Theorem accountsCreated_only_grows (ops : list Op) (st : St) :
  Map_keys (accountsCreated (mgr st)) ⊆ Map_keys (accountsCreated (mgr (after ops st)))
  /\ accountsCreated (mgr (snd (cleanup st))) = accountsCreated (mgr st)
  /\ (variant (mgr st) = TestnetSubaccount ->
      deletions (news st (snd (cleanup st))) =
      map (fun id => (id, realRootId (mgr st))) (Map_keys (accountsCreated (mgr st)))).
Proof.
  split; [|split].
  - revert st. induction ops as [|op ops IH]; intros st; simpl; [reflexivity|].
    etransitivity; [|apply IH]. apply (evolves_call op st).
  - rewrite (respects_cleanup sameManager st). reflexivity.
  - intros Hv.
    assert (Hc : cleanup st = TestnetSubaccountManager_cleanup st).
    { unfold cleanup. unfold_monad. rewrite Hv. reflexivity. }
    rewrite Hc. apply TestnetSubaccountManager_cleanup_effects.
Qed.

(** ** Steps that touch neither the manager nor the chain *)

Lemma bind_Ok {A B} (m : M A) (k : A -> M B) (st st' : St) (b : B) :
  (m ≫= k) st = (Ok b, st') ->
  exists a st1, m st = (Ok a, st1) /\ k a st1 = (Ok b, st').
Proof.
  unfold_monad. destruct (m st) as [[a|e] st1]; [|discriminate].
  intros H. exists a, st1. auto.
Qed.

Lemma quiet_ret {A} (a : A) : quiet (mret a : M A).
Proof. intros st. split; reflexivity. Qed.

Lemma quiet_bind {A B} (m : M A) (k : A -> M B) :
  quiet m -> (forall a, quiet (k a)) -> quiet (m ≫= k).
Proof.
  intros Hm Hk st. unfold_monad. destruct (Hm st) as [Hm1 Hm2].
  destruct (m st) as [[a|e] st1]; simpl in *; [|auto].
  destruct (Hk a st1) as [Hk1 Hk2]. split; congruence.
Qed.

Lemma quiet_getKey (a : AccountId) : quiet (getKey a).
Proof. intros st. split; reflexivity. Qed.

Lemma quiet_setKey (a : AccountId) (k : option KeyPair) : quiet (setKey a k).
Proof. intros st. destruct k; split; reflexivity. Qed.

Lemma quiet_deleteKey (a : AccountId) : quiet (deleteKey a).
Proof. intros st. split; reflexivity. Qed.

Lemma quiet_keyStore_setKey (n : string) (a : AccountId) (k : KeyPair) :
  quiet (keyStore_setKey n a k).
Proof. intros st. split; reflexivity. Qed.

Lemma quiet_getRootKey : quiet getRootKey.
Proof.
  unfold getRootKey. apply quiet_bind; [intros st; split; reflexivity|]. intros m.
  apply quiet_bind; [apply quiet_getKey|]. intros [k|]; [apply quiet_ret|apply quiet_setKey].
Qed.

Lemma quiet_randomAccountId (p s : option string) : quiet (randomAccountId p s).
Proof. intros st. destruct s; split; reflexivity. Qed.

Lemma quiet_console_log (line : string) : quiet (console_log line).
Proof. intros st. split; reflexivity. Qed.

Lemma quiet_Ok {A} (c : M A) (st st' : St) (r : Result A) :
  quiet c -> c st = (r, st') ->
  mgr st' = mgr st /\ chain (world st') = chain (world st).
Proof. intros Hq Hc. specialize (Hq st). rewrite Hc in Hq. exact Hq. Qed.

(** ** The root key *)

Lemma getRootKey_stored (st : St) (k : KeyPair) :
  storedKey st (rootAccountId (mgr st)) = Some k ->
  getRootKey st =
  (Ok k, on_world (logged (EvGetKey (networkId (mgr st)) (rootAccountId (mgr st)))) st).
Proof.
  intros Hk. unfold storedKey in Hk. unfold getRootKey, getKey. unfold_calls. unfold_monad.
  simpl. rewrite Hk. reflexivity.
Qed.

Lemma getRootKey_effects (st : St) :
  exists k st1,
    getRootKey st = (Ok k, st1)
    /\ mgr st1 = mgr st
    /\ chain (world st1) = chain (world st)
    /\ storedKey st1 (rootAccountId (mgr st)) = Some k
    /\ (forall x, x <> rootAccountId (mgr st) -> storedKey st1 x = storedKey st x)
    /\ (forall k0, storedKey st (rootAccountId (mgr st)) = Some k0 -> k = k0)
    /\ exists d, trace (world st1) = trace (world st) ++ d /\ forallb offChain d = true.
Proof.
  destruct (storedKey st (rootAccountId (mgr st))) as [k0|] eqn:Hk.
  - exists k0. eexists. rewrite (getRootKey_stored st k0 Hk).
    split; [reflexivity|]. split; [reflexivity|]. split; [reflexivity|].
    split; [exact Hk|]. split; [reflexivity|]. split; [intros k1 [= <-]; reflexivity|].
    eexists. split; reflexivity.
  - unfold storedKey in *. unfold getRootKey, setKey, getKey. unfold_calls. unfold_monad.
    simpl. rewrite Hk. simpl. rewrite !ks_get_set_eq. simpl.
    eexists. eexists. split; [reflexivity|]. simpl.
    split; [reflexivity|]. split; [reflexivity|]. split; [apply ks_get_set_eq|].
    split; [intros x Hx; apply ks_get_set_ne; congruence|]. split; [discriminate|].
    eexists. rewrite <- !app_assoc. split; reflexivity.
Qed.

Lemma randomAccountId_effects (p s : option string) (st : St) :
  let st1 := snd (randomAccountId p s st) in
  mgr st1 = mgr st /\ chain (world st1) = chain (world st)
  /\ keyStore (world st1) = keyStore (world st)
  /\ trace (world st1) = trace (world st).
Proof. destruct s; repeat split; reflexivity. Qed.

(** ** What the methods call *)

Lemma news_app (st st' : St) (d : list Event) :
  trace (world st') = trace (world st) ++ d -> news st st' = d.
Proof. intros H. unfold news. rewrite H. apply drop_app_length. Qed.

Lemma filter_none (Q : Event -> bool) (d : list Event) :
  forallb (fun e => negb (Q e)) d = true -> List.filter Q d = [].
Proof.
  induction d as [|e d IH]; simpl; [reflexivity|].
  intros H. apply andb_true_iff in H as [He Hd].
  apply negb_true_iff in He. rewrite He. exact (IH Hd).
Qed.

Section Calls.
Context (P : Event -> bool).

Lemma callsOnly_still {A} (c : M A) :
  (forall st, trace (world (snd (c st))) = trace (world st)) -> callsOnly P c.
Proof. intros H st. exists []. rewrite app_nil_r. auto. Qed.

Lemma callsOnly_one {A} (c : M A) (e : Event) :
  P e = true ->
  (forall st, trace (world (snd (c st))) = trace (world st) ++ [e]) -> callsOnly P c.
Proof. intros He H st. exists [e]. split; [apply H|]. simpl. rewrite He. reflexivity. Qed.

Lemma callsOnly_ret {A} (a : A) : callsOnly P (mret a : M A).
Proof. apply callsOnly_still. reflexivity. Qed.

Lemma callsOnly_throw {A} (msg : string) : callsOnly P (throw msg : M A).
Proof. apply callsOnly_still. reflexivity. Qed.

Lemma callsOnly_this : callsOnly P this.
Proof. apply callsOnly_still. reflexivity. Qed.

Lemma callsOnly_update_this (f : Manager -> Manager) : callsOnly P (update_this f).
Proof. apply callsOnly_still. reflexivity. Qed.

Lemma callsOnly_draw : callsOnly P draw.
Proof. apply callsOnly_still. reflexivity. Qed.

Lemma callsOnly_findCallerFile : callsOnly P findCallerFile.
Proof. apply callsOnly_still. reflexivity. Qed.

Lemma callsOnly_bind {A B} (m : M A) (k : A -> M B) :
  callsOnly P m -> (forall a, callsOnly P (k a)) -> callsOnly P (m ≫= k).
Proof.
  intros Hm Hk st. unfold_monad. destruct (Hm st) as (d1 & H1 & HP1).
  destruct (m st) as [[a|e] st1]; simpl in *; [|eauto].
  destruct (Hk a st1) as (d2 & H2 & HP2). exists (d1 ++ d2).
  rewrite H2, H1, <- app_assoc, forallb_app, HP1, HP2. auto.
Qed.

Lemma callsOnly_Promise_all {A} (tasks : list (M A)) :
  Forall (callsOnly P) tasks -> callsOnly P (Promise_all tasks).
Proof.
  induction 1 as [|t ts Ht Hts IH]; intros st; simpl.
  - exists []. rewrite app_nil_r. auto.
  - destruct (Ht st) as (d1 & H1 & HP1).
    destruct (t st) as [[a|e] st1]; simpl in H1.
    + destruct (IH st1) as (d2 & H2 & HP2).
      destruct (Promise_all ts st1) as [[l|e] st2]; simpl in *;
        exists (d1 ++ d2); rewrite H2, H1, <- app_assoc, forallb_app, HP1, HP2; auto.
    + simpl. destruct (IH st1) as (d2 & H2 & HP2).
      exists (d1 ++ d2). rewrite H2, H1, <- app_assoc, forallb_app, HP1, HP2. auto.
Qed.

Lemma callsOnly_keyStore_getKey (n : string) (a : AccountId) :
  P (EvGetKey n a) = true -> callsOnly P (keyStore_getKey n a).
Proof. intros He. apply (callsOnly_one _ _ He). reflexivity. Qed.

Lemma callsOnly_keyStore_setKey (n : string) (a : AccountId) (k : KeyPair) :
  P (EvSetKey n a k) = true -> callsOnly P (keyStore_setKey n a k).
Proof. intros He. apply (callsOnly_one _ _ He). reflexivity. Qed.

Lemma callsOnly_keyStore_removeKey (n : string) (a : AccountId) :
  P (EvRemoveKey n a) = true -> callsOnly P (keyStore_removeKey n a).
Proof. intros He. apply (callsOnly_one _ _ He). reflexivity. Qed.

Lemma callsOnly_keyStore_getAccounts (n : string) :
  P (EvGetAccounts n) = true -> callsOnly P (keyStore_getAccounts n).
Proof. intros He. apply (callsOnly_one _ _ He). reflexivity. Qed.

Lemma callsOnly_provider_accountExists (a : AccountId) :
  P (EvAccountExists a) = true -> callsOnly P (provider_accountExists a).
Proof. intros He. apply (callsOnly_one _ _ He). reflexivity. Qed.

Lemma callsOnly_account_signAndSendTransaction (n : string) (s r : AccountId)
      (acts : list Action) :
  P (EvSubmit s r acts) = true -> callsOnly P (account_signAndSendTransaction n s r acts).
Proof.
  intros He. apply (callsOnly_one _ _ He). intros st.
  unfold account_signAndSendTransaction.
  destruct (signAndSendTransaction _ _ _ _ _) as [res c]. reflexivity.
Qed.

Lemma callsOnly_accountCreator_createAccount (a : AccountId) (pk : PublicKey) :
  P (EvHelperCreate a pk) = true -> callsOnly P (accountCreator_createAccount a pk).
Proof.
  intros He. apply (callsOnly_one _ _ He). intros st.
  unfold accountCreator_createAccount.
  destruct (helperCreateAccount _ _ _) as [res c]. reflexivity.
Qed.

End Calls.

(** The provisioning of the root account asks for no balance. *)
Lemma provisionRoot_no_balance_check :
  callsOnly (fun e => negb (isBalanceCheck e)) provisionRoot.
Proof.
  assert (Hget : forall a, callsOnly (fun e => negb (isBalanceCheck e)) (getKey a)).
  { intros a. unfold getKey. apply callsOnly_bind; [apply callsOnly_this|intros m].
    apply callsOnly_keyStore_getKey. reflexivity. }
  assert (Hset : forall a k, callsOnly (fun e => negb (isBalanceCheck e)) (setKey a k)).
  { intros a k. unfold setKey, KeyPairEd25519_fromRandom.
    apply callsOnly_bind.
    { destruct k; [apply callsOnly_ret|].
      apply callsOnly_bind; [apply callsOnly_draw|intros ?; apply callsOnly_ret]. }
    intros key. apply callsOnly_bind; [apply callsOnly_this|intros m].
    apply callsOnly_bind; [apply callsOnly_keyStore_setKey; reflexivity|intros _].
    apply callsOnly_bind; [apply Hget|intros ?; apply callsOnly_ret]. }
  assert (Hroot : callsOnly (fun e => negb (isBalanceCheck e)) getRootKey).
  { unfold getRootKey. apply callsOnly_bind; [apply callsOnly_this|intros m].
    apply callsOnly_bind; [apply Hget|intros [k|]]; [apply callsOnly_ret|apply Hset]. }
  assert (Hdel : forall a b,
             callsOnly (fun e => negb (isBalanceCheck e)) (AccountManager_deleteAccount a b)).
  { intros a b. unfold AccountManager_deleteAccount, Account_delete, signAndSend,
      executeTransaction, deleteKey.
    repeat first
      [ apply Hget | apply Hset | apply callsOnly_ret | apply callsOnly_this
      | apply callsOnly_account_signAndSendTransaction; reflexivity
      | apply callsOnly_keyStore_removeKey; reflexivity
      | match goal with
        | |- callsOnly _ (if ?c then _ else _) => destruct c
        | |- callsOnly _ (match ?x with _ => _ end) => destruct x
        end
      | progress cbv zeta
      | apply callsOnly_bind; [|intros ?] ]. }
  assert (Hfind : forall p n,
             callsOnly (fun e => negb (isBalanceCheck e)) (findAccountsWithPrefix p n)).
  { intros p n. unfold findAccountsWithPrefix, randomAccountId.
    apply callsOnly_bind; [apply callsOnly_keyStore_getAccounts; reflexivity|intros accounts].
    cbv zeta. destruct (0 <? _)%nat; [apply callsOnly_ret|].
    repeat first [ apply callsOnly_ret | apply callsOnly_draw
                 | apply callsOnly_bind; [|intros ?] ]. }
  assert (Hinit : callsOnly (fun e => negb (isBalanceCheck e)) initRootAccount).
  { unfold initRootAccount. apply callsOnly_bind; [apply callsOnly_this|intros m].
    destruct (truthy _); [apply callsOnly_ret|].
    apply callsOnly_bind; [apply callsOnly_findCallerFile|intros fileName]. cbv zeta.
    destruct (bool_decide _); [|apply callsOnly_throw].
    apply callsOnly_bind; [apply Hfind|intros [|accountId others]];
      [apply callsOnly_update_this|].
    apply callsOnly_bind; [|intros _; apply callsOnly_update_this].
    apply callsOnly_Promise_all. apply Forall_map, Forall_true. intros acc. apply Hdel. }
  unfold provisionRoot, TestnetManager_createAccount.
  apply callsOnly_bind; [exact Hinit|intros _].
  apply callsOnly_bind; [apply callsOnly_this|intros m]. cbv zeta.
  apply callsOnly_bind; [apply callsOnly_provider_accountExists; reflexivity|intros present].
  destruct (negb present); [|apply callsOnly_ret].
  apply callsOnly_bind; [exact Hroot|intros keyPair].
  apply callsOnly_bind; [apply callsOnly_keyStore_setKey; reflexivity|intros _].
  apply callsOnly_bind; [|intros _; apply callsOnly_ret].
  apply callsOnly_bind; [|intros _; apply callsOnly_ret].
  apply callsOnly_accountCreator_createAccount. reflexivity.
Qed.

End Properties.

(** * Funding the root account on the simulated chain *)

Section Funding.
Context {KS : KeyStore} (grant : N).

Lemma sim_helperCreateAccount_Ok (c c' : gmap AccountId SimAccount) (id : AccountId)
      (pk : PublicKey) :
  sim_helperCreateAccount grant c id pk = (Ok tt, c') ->
  c !! id = None /\ c' = <[id := {| sim_available := grant; sim_key := pk |}]> c.
Proof.
  unfold sim_helperCreateAccount. destruct (c !! id); [discriminate|].
  intros [= <-]. auto.
Qed.

Lemma sim_delete_run (c : gmap AccountId SimAccount) (k : KeyPair) (id b : AccountId)
      (a : SimAccount) :
  c !! id = Some a -> sim_key a = getPublicKey k ->
  sim_signAndSendTransaction c (Some k) id id [DeleteAccount b] =
  (Ok {| status := SuccessValue ""; logs := [] |},
   alter (sim_credit (sim_available a)) b (base.delete id c)).
Proof.
  intros Hc Hk. unfold sim_signAndSendTransaction. rewrite Hc.
  destruct (decide (getPublicKey k = sim_key a)); [|congruence].
  simpl. rewrite Hc. reflexivity.
Qed.

Lemma sim_account_balance_Ok (c : gmap AccountId SimAccount) (id : AccountId)
      (b : AccountBalance) :
  sim_account_balance c id = Ok b ->
  exists a, c !! id = Some a /\ available b = sim_available a.
Proof.
  unfold sim_account_balance. destruct (c !! id) as [a|]; [|discriminate].
  intros [= <-]. exists a. auto.
Qed.

(** One top-up, step by step. *)
Lemma addFunds_sim_exact (st st' : @St KS (SimHost grant)) (a : SimAccount) :
  addFunds st = (Ok tt, st') ->
  chain (world st) !! rootAccountId (mgr st) = Some a ->
  mgr st' = mgr st
  /\ (chain (world st') : gmap AccountId SimAccount)
     = alter (sim_credit grant) (rootAccountId (mgr st)) (chain (world st))
  /\ exists temp k t,
      temp <> rootAccountId (mgr st)
      /\ (chain (world st) : gmap AccountId SimAccount) !! temp = None
      /\ trace (world st') =
         t ++ [EvSetKey (networkId (mgr st)) temp k;
               EvHelperCreate temp (getPublicKey k);
               EvSubmit temp temp [DeleteAccount (rootAccountId (mgr st))];
               EvRemoveKey (networkId (mgr st)) temp]
      /\ storedKey st' (rootAccountId (mgr st)) = Some k
      /\ (forall k0, storedKey st (rootAccountId (mgr st)) = Some k0 -> k = k0)
      /\ storedKey st' temp = None
      /\ (forall x, x <> temp -> x <> rootAccountId (mgr st) ->
                    storedKey st' x = storedKey st x)
      /\ exists pre, t = trace (world st) ++ pre /\ forallb offChain pre = true.
Proof.
  intros Hrun Hroot. unfold addFunds in Hrun.
  apply bind_Ok in Hrun as (temp & s1 & H1 & Hrun).
  pose proof (randomAccountId_effects None None st) as (Hm1 & Hc1 & Hs1 & Ht1).
  rewrite H1 in Hm1, Hc1, Hs1, Ht1. simpl in Hm1, Hc1, Hs1, Ht1.
  apply bind_Ok in Hrun as (u2 & s2 & H2 & Hrun).
  injection H2 as _ <-.
  apply bind_Ok in Hrun as (keyPair & s3 & H3 & Hrun).
  match type of H3 with
  | getRootKey ?s = _ =>
      destruct (getRootKey_effects s)
        as (k & s3' & Hg & Hm3 & Hc3 & Hk3 & Hother3 & Hsame3 & d & Hd & HPd)
  end.
  rewrite Hg in H3. injection H3 as -> ->.
  simpl in Hm3, Hc3, Hk3, Hother3, Hsame3, Hd.
  apply bind_Ok in Hrun as (m & s3' & H3' & Hrun).
  injection H3' as <- <-.
  apply bind_Ok in Hrun as (u4 & s4 & H4 & Hrun).
  injection H4 as _ <-.
  apply bind_Ok in Hrun as (account & s5 & H5 & Hrun).
  unfold TestnetManager_createAccount in H5.
  apply bind_Ok in H5 as (u5 & s5' & H5 & H5').
  injection H5' as <- <-.
  unfold accountCreator_createAccount in H5. simpl in H5.
  destruct (sim_helperCreateAccount _ _ _ _) as [[[]|e] c5] eqn:Hcreate; [|discriminate].
  injection H5 as H5. subst s5'.
  apply sim_helperCreateAccount_Ok in Hcreate as [Hfresh ->].
  apply bind_Ok in Hrun as (o & s6 & H6 & Hrun).
  injection Hrun as <-.
  unfold Account_delete in H6. rewrite signAndSend_run, executeTransaction_plain in H6.
  unfold account_signAndSendTransaction in H6. simpl in H6.
  rewrite ks_get_set_eq in H6.
  rewrite (sim_delete_run _ keyPair temp (rootAccountId (mgr s3))
             {| sim_available := grant; sim_key := getPublicKey keyPair |}) in H6;
    [|apply lookup_insert_eq|reflexivity].
  simpl in H6. injection H6 as _ <-. simpl.
  clear H1 Hg.
  assert (Hfresh0 : (chain (world st) : gmap AccountId SimAccount) !! temp = None).
  { rewrite <- Hc1, <- Hc3. exact Hfresh. }
  assert (Hne : temp <> rootAccountId (mgr st)).
  { intros ->. assert (Some a = None) as Habs; [|discriminate Habs].
    etransitivity; [symmetry; exact Hroot|exact Hfresh0]. }
  unfold storedKey in Hk3, Hother3, Hsame3. simpl in Hother3, Hsame3.
  rewrite Hm3 in Hk3, Hother3.
  rewrite Hm1 in Hk3, Hother3, Hsame3. rewrite Hs1 in Hother3, Hsame3.
  split; [congruence|]. split.
  { rewrite delete_insert_id by exact Hfresh. rewrite Hm3, Hm1. rewrite Hc3, Hc1. reflexivity. }
  exists temp, keyPair, (trace (world s3)).
  split; [exact Hne|]. split; [exact Hfresh0|].
  split; [rewrite <- !app_assoc; simpl; rewrite Hm3, Hm1; reflexivity|].
  unfold storedKey. cbn [world mgr on_world keyStore logged with_keyStore with_chain]. rewrite Hm3, Hm1.
  split; [rewrite ks_get_remove_ne, ks_get_set_ne by congruence; exact Hk3|].
  split; [exact Hsame3|]. split; [apply ks_get_remove_eq|].
  split.
  { intros x Hx Hxr. rewrite ks_get_remove_ne, ks_get_set_ne by congruence.
    apply Hother3. exact Hxr. }
  exists (EvConsole temp :: d). split; [|exact HPd].
  rewrite Hd, Ht1, <- app_assoc. reflexivity.
Qed.

Lemma createAndFundAccount_steps (st st' : @St KS (SimHost grant)) :
  createAndFundAccount st = (Ok tt, st') ->
  exists sc b,
    provisionRoot st = (Ok tt, sc)
    /\ account_balance (chain (world sc)) (rootAccountId (mgr sc)) = Ok b
    /\ (if (available b <? topUpThreshold)%N
        then addFunds (on_world (logged (EvAccountBalance (rootAccountId (mgr sc)))) sc)
             = (Ok tt, st')
        else st' = on_world (logged (EvAccountBalance (rootAccountId (mgr sc)))) sc).
Proof.
  intros Hrun. unfold createAndFundAccount in Hrun.
  apply bind_Ok in Hrun as ([] & st1 & H1 & Hrun).
  apply bind_Ok in Hrun as (m & st1' & Hthis & Hrun).
  injection Hthis as <- <-. cbv zeta in Hrun.
  apply bind_Ok in Hrun as (present & st2 & H2 & Hrun).
  apply bind_Ok in Hrun as ([] & st3 & H3 & Hrun).
  apply bind_Ok in Hrun as (b & st4 & H4 & Hrun).
  assert (Hm : mgr st3 = mgr st1).
  { assert (Hm2 : mgr st2 = mgr st1) by (injection H2 as _ <-; reflexivity).
    rewrite <- Hm2.
    match type of H3 with
    | ?block ?st2 = _ =>
        assert (Hblock : respects sameManager block);
        [|specialize (Hblock st2); rewrite H3 in Hblock; exact Hblock]
    end.
    destruct present; simpl; [apply respects_ret; exact _|].
    apply respects_bind; [exact _|apply respects_getRootKey; exact _|intros k].
    apply respects_bind; [exact _|apply respects_keyStore_setKey; exact _|intros _].
    apply respects_bind;
      [exact _|apply respects_TestnetManager_createAccount; exact _|intros _].
    apply respects_ret; exact _. }
  exists st3, b. split.
  { unfold provisionRoot.
    change (initRootAccount ≫= ?f) with (bind initRootAccount f).
    unfold bind at 1. rewrite H1.
    change ((this ≫= ?f) st1) with (f (mgr st1) st1). cbv beta.
    match goal with
    | |- (?c ≫= ?f) st1 = _ => change ((c ≫= f) st1) with (bind c f st1)
    end.
    unfold bind at 1. rewrite H2.
    destruct present; cbn [negb] in H3 |- *; exact H3. }
  rewrite Hm.
  unfold balance, provider_account_balance in H4. injection H4 as Hb <-.
  split; [exact Hb|].
  fold topUpThreshold in Hrun.
  destruct (available b <? topUpThreshold)%N; [exact Hrun|].
  injection Hrun as <-. reflexivity.
Qed.

(** C2 (as amended), on the simulated chain, for every key store and
    every grant.  When [TestnetManager.init()] has returned, the root
    account exists on the chain and its balance was read once, in the
    state the provisioning of the root account left.  When the balance read
    was at least the 1000-token threshold, nothing was done after the
    query.  When it was below, the calls that reach the chain after the
    provisioning are the query, the creation of one temporary account that
    did not exist, and its deletion in favour of the root, in this order;
    the root's balance is then the balance read plus one grant, every other
    account being as it was at the query.
    So the balance is at least the threshold whenever the creation service
    grants that much. *)
Theorem TestnetManager_init_funds_root (st st' : @St KS (SimHost grant)) :
  TestnetManager_init st = (Ok tt, st') ->
  let root := rootAccountId (mgr st') in
  exists sc before,
    provisionRoot st = (Ok tt, sc)
    /\ mgr sc = mgr st'
    /\ account_balance (chain (world sc)) root = Ok {| total := before; available := before |}
    /\ List.filter isBalanceCheck (news st st') = [EvAccountBalance root]
    /\ accountExists (chain (world st')) root = true
    /\ (((topUpThreshold <= before)%N
         /\ st' = on_world (logged (EvAccountBalance root)) sc)
        \/ ((before < topUpThreshold)%N
            /\ account_balance (chain (world st')) root
               = Ok {| total := before + grant; available := before + grant |}
            /\ (forall x, x <> root ->
                          (chain (world st') : gmap AccountId SimAccount) !! x
                          = chain (world sc) !! x)
            /\ exists temp k,
                temp <> root
                /\ (chain (world sc) : gmap AccountId SimAccount) !! temp = None
                /\ List.filter (fun e => negb (offChain e)) (news sc st')
                   = [EvAccountBalance root;
                      EvHelperCreate temp (getPublicKey k);
                      EvSubmit temp temp [DeleteAccount root]]))
    /\ ((topUpThreshold <= grant)%N ->
        exists b, account_balance (chain (world st')) root = Ok b
                  /\ (topUpThreshold <= available b)%N).
Proof.
  intros Hrun. unfold TestnetManager_init in Hrun.
  apply createAndFundAccount_steps in Hrun as (sc & b & Hprov & Hb & Hrest).
  destruct (provisionRoot_no_balance_check st) as (dp & Hdp & HPdp).
  rewrite Hprov in Hdp. simpl in Hdp.
  simpl in Hb. unfold sim_account_balance in Hb.
  destruct ((chain (world sc) : gmap AccountId SimAccount) !! rootAccountId (mgr sc))
    as [a|] eqn:Ha; [|discriminate Hb].
  injection Hb as <-. cbn [available] in Hrest.
  cbv zeta. exists sc, (sim_available a).
  destruct (sim_available a <? topUpThreshold)%N eqn:Hlow.
  - apply N.ltb_lt in Hlow.
    apply (addFunds_sim_exact _ _ a) in Hrest
        as (Hm & Hc & temp & k & t & Hne & Hfresh & Ht & _ & _ & _ & _ & pre & Hpre & HPpre);
      [|exact Ha].
    cbn [mgr world on_world chain trace logged] in Hm, Hc, Hne, Hfresh, Ht, Hpre.
    rewrite Hm.
    assert (Hroot' : (chain (world st') : gmap AccountId SimAccount) !! rootAccountId (mgr sc)
                     = Some (sim_credit grant a)).
    { rewrite Hc.
      etransitivity;
        [exact (lookup_alter_eq (M := gmap AccountId) (sim_credit grant)
                                (chain (world sc)) (rootAccountId (mgr sc)))|].
      rewrite Ha. reflexivity. }
    assert (Hbal : account_balance (chain (world st')) (rootAccountId (mgr sc))
                   = Ok {| total := sim_available a + grant;
                           available := sim_available a + grant |}).
    { simpl. unfold sim_account_balance. rewrite Hroot'. reflexivity. }
    split; [exact Hprov|]. split; [reflexivity|].
    split; [simpl; unfold sim_account_balance; rewrite Ha; reflexivity|].
    split.
    { rewrite (news_app st st' (dp ++ EvAccountBalance (rootAccountId (mgr sc)) :: pre ++
                                   [EvSetKey (networkId (mgr sc)) temp k;
                                    EvHelperCreate temp (getPublicKey k);
                                    EvSubmit temp temp [DeleteAccount (rootAccountId (mgr sc))];
                                    EvRemoveKey (networkId (mgr sc)) temp])).
      - rewrite List.filter_app. rewrite (filter_none isBalanceCheck dp HPdp).
        cbn [List.filter isBalanceCheck app]. rewrite List.filter_app.
        rewrite (filter_none isBalanceCheck pre); [reflexivity|].
        clear -HPpre. induction pre as [|e pre IH]; [reflexivity|].
        simpl in *. apply andb_true_iff in HPpre as [He Hp]. rewrite (IH Hp).
        unfold offChain in He. destruct e; simpl in *; try reflexivity; discriminate He.
      - rewrite Ht, Hpre, Hdp, <- !app_assoc. reflexivity. }
    split; [simpl; apply bool_decide_eq_true_2; rewrite Hroot'; eauto|].
    split.
    { right. split; [exact Hlow|]. split; [exact Hbal|]. split.
      - intros x Hx. rewrite Hc.
        exact (lookup_alter_ne (M := gmap AccountId) (sim_credit grant)
                               (chain (world sc)) (rootAccountId (mgr sc)) x
                               (fun H => Hx (eq_sym H))).
      - exists temp, k. split; [exact Hne|]. split; [exact Hfresh|].
        rewrite (news_app sc st' (EvAccountBalance (rootAccountId (mgr sc)) :: pre ++
                                    [EvSetKey (networkId (mgr sc)) temp k;
                                     EvHelperCreate temp (getPublicKey k);
                                     EvSubmit temp temp [DeleteAccount (rootAccountId (mgr sc))];
                                     EvRemoveKey (networkId (mgr sc)) temp])).
        + cbn [List.filter offChain isHelperCreate isSubmit isBalanceCheck orb negb].
          rewrite List.filter_app.
          rewrite (filter_none (fun e => negb (offChain e)) pre); [reflexivity|].
          clear -HPpre. induction pre as [|e pre IH]; [reflexivity|].
          simpl in *. apply andb_true_iff in HPpre as [He Hp].
          rewrite negb_involutive, He. exact (IH Hp).
        + rewrite Ht, Hpre, <- !app_assoc. reflexivity. }
    intros Hg. eexists. split; [exact Hbal|]. simpl. lia.
  - apply N.ltb_ge in Hlow. subst st'. cbn [mgr on_world].
    split; [exact Hprov|]. split; [reflexivity|].
    split; [simpl; unfold sim_account_balance; rewrite Ha; reflexivity|].
    split.
    { rewrite (news_app st _ (dp ++ [EvAccountBalance (rootAccountId (mgr sc))])).
      - rewrite List.filter_app, (filter_none isBalanceCheck dp HPdp). reflexivity.
      - cbn [world on_world trace logged]. rewrite Hdp, <- app_assoc. reflexivity. }
    split; [simpl; apply bool_decide_eq_true_2; rewrite Ha; eauto|].
    split; [left; split; [exact Hlow|reflexivity]|].
    intros _. eexists. split; [simpl; unfold sim_account_balance; rewrite Ha; reflexivity|].
    simpl. exact Hlow.
Qed.

End Funding.

(** * The scenarios evaluated *)

Section Scenarios.

(** C1, at the failing input: [alice] has the key [old] stored and
    registered, the call is made with the temporary key [tmp], which the
    chain does not know, and the submission throws; [tmp] is stored for
    [alice] when the error reaches the caller. *)
Lemma executeTransaction_throw_keeps_temporary_key_witness :
  storedKey aliceOldKeyRegistered "alice" = Some "old"
  /\ isOk (fst (executeTransaction aliceCall (Some "tmp") aliceOldKeyRegistered)) = false
  /\ storedKey (snd (executeTransaction aliceCall (Some "tmp") aliceOldKeyRegistered)) "alice"
     = Some "tmp"
  /\ storedKey (snd (executeTransaction aliceCall (Some "tmp") aliceOldKeyRegistered)) "alice"
     <> storedKey aliceOldKeyRegistered "alice".
Proof.
  assert (Hrun : executeTransaction aliceCall (Some "tmp") aliceOldKeyRegistered
                 = (Throw "Access key of alice not found",
                    snd (executeTransaction aliceCall (Some "tmp") aliceOldKeyRegistered))).
  { vm_compute. reflexivity. }
  destruct (executeTransaction_throw_keeps_temporary_key
              aliceCall "tmp" "old" aliceOldKeyRegistered _ _ eq_refl Hrun)
    as (_ & Hkp & Hne).
  split; [reflexivity|]. split; [rewrite Hrun; reflexivity|]. split; [exact Hkp|].
  apply Hne. discriminate.
Defined.

(** The restore, on a returning call with a previous key. *)
Lemma executeTransaction_restores_stored_key_witness :
  storedKey (snd (executeTransaction aliceCall (Some "tmp") aliceTmpKeyRegistered)) "alice"
  = storedKey aliceTmpKeyRegistered "alice".
Proof.
  apply (executeTransaction_restores_stored_key aliceCall "tmp" "old" aliceTmpKeyRegistered
           (snd (executeTransaction aliceCall (Some "tmp") aliceTmpKeyRegistered))
           {| status := SuccessValue ""; logs := [] |}).
  - reflexivity.
  - vm_compute. reflexivity.
Defined.

(** The temporary key stays when [alice] had none. *)
Lemma executeTransaction_temporary_key_stays_witness :
  storedKey (snd (executeTransaction aliceCall (Some "tmp") aliceWithoutKey)) "alice"
  = Some "tmp"
  /\ news aliceWithoutKey (snd (executeTransaction aliceCall (Some "tmp") aliceWithoutKey))
     = [EvGetKey "testnet" "alice"; EvSetKey "testnet" "alice" "tmp";
        EvGetKey "testnet" "alice";
        EvSubmit "alice" "alice" [FunctionCall "ping" "{}" 30 0]].
Proof.
  apply (executeTransaction_temporary_key_stays aliceCall "tmp" aliceWithoutKey).
  reflexivity.
Defined.


(** C6, counterexample: the short name holds [.near] before the final
    suffix, and the first occurrence is the one removed. *)
Lemma addAccountCreated_removes_first_occurrence :
  "x.nearby.near" = "x.nearby" +:+ "." +:+ "near"
  /\ Map_get "x.nearby.near"
       (accountsCreated (mgr (snd (addAccountCreated "x.nearby.near" "near" aliceWithoutKey))))
     = Some "xby.near"
  /\ "xby.near" <> "x.nearby".
Proof. vm_compute. repeat split. discriminate. Qed.

(** A short name without a dot. *)
Lemma addAccountCreated_short_name_witness :
  Map_get "alice.test.near"
    (accountsCreated (mgr (snd (addAccountCreated "alice.test.near" "test.near" aliceWithoutKey))))
  = Some "alice".
Proof.
  destruct (addAccountCreated_short_name "alice" "test.near" aliceWithoutKey) as [Hfirst Hdot].
  apply Hdot. reflexivity.
Defined.

(** Discovery among the stale accounts: [create0] is the root and
    [create1] is deleted in its favour. *)
Lemma initRootAccount_discovery_witness :
  deletions (news staleAccounts (snd (initRootAccount staleAccounts))) = [("create1", "create0")]
  /\ rootAccount (config (mgr (snd (initRootAccount staleAccounts)))) = Some "create0".
Proof.
  assert (Hext : ext (@path_parse (SimHost (toYocto 200)) (callerFile (world staleAccounts)))
                 ∈ [".ts"; ".js"]).
  { apply (bool_decide_unpack _). vm_compute. exact I. }
  pose proof (initRootAccount_discovery staleAccounts eq_refl Hext) as H.
  vm_compute in H. destruct H as (Hdel & Hroot & _).
  split; [exact Hdel|exact (Hroot eq_refl)].
Defined.

(** C4, counterexample: two stored ids start with the prefix and the
    account of the second is gone from the chain; its deletion is submitted
    with the first as beneficiary and rejects, discovery passes the error on
    and no root is set. *)
Lemma initRootAccount_discovery_rejects :
  truthy (rootAccount (config (mgr staleGone))) = false
  /\ filter (fun f => Is_true (startsWith f (callerPrefix (HO := SimHost (toYocto 200))
                                                        (callerFile (world staleGone)))))
            (ks_getAccounts (keyStore (world staleGone)) (networkId (mgr staleGone)))
     = ["create0"; "create1"]
  /\ deletions (news staleGone (snd (initRootAccount staleGone))) = [("create1", "create0")]
  /\ isOk (fst (initRootAccount staleGone)) = false
  /\ rootAccount (config (mgr (snd (initRootAccount staleGone)))) = None.
Proof. vm_compute. repeat split. Qed.

(** C2, counterexample: the creation service grants 200 tokens; the fresh
    root gets one grant at creation and one more by the single top-up, and
    [init()] returns with 400 tokens available. *)
Lemma TestnetManager_init_leaves_root_underfunded :
  let st := scenario (toYocto 200) (Some "root.testnet") [] [] in
  fst (TestnetManager_init st) = Ok tt
  /\ rootAccountId (mgr (snd (TestnetManager_init st))) = "root.testnet"
  /\ account_balance (chain (world (snd (TestnetManager_init st)))) "root.testnet"
     = Ok {| total := toYocto 400; available := toYocto 400 |}
  /\ (toYocto 400 < toYocto 1000)%N.
Proof. vm_compute. repeat split. Qed.

(** A creation service that grants 600 tokens: the fresh root is created
    with one grant, is found below the threshold and gets one more. *)
Lemma TestnetManager_init_funds_root_witness :
  let st := scenario (toYocto 600) (Some "root.testnet") [] [] in
  let st' := snd (TestnetManager_init st) in
  let root := rootAccountId (mgr st') in
  exists sc before,
    provisionRoot st = (Ok tt, sc)
    /\ mgr sc = mgr st'
    /\ account_balance (chain (world sc)) root = Ok {| total := before; available := before |}
    /\ List.filter isBalanceCheck (news st st') = [EvAccountBalance root]
    /\ accountExists (chain (world st')) root = true
    /\ (((topUpThreshold <= before)%N
         /\ st' = on_world (logged (EvAccountBalance root)) sc)
        \/ ((before < topUpThreshold)%N
            /\ account_balance (chain (world st')) root
               = Ok {| total := before + toYocto 600; available := before + toYocto 600 |}
            /\ (forall x, x <> root ->
                          (chain (world st') : gmap AccountId SimAccount) !! x
                          = chain (world sc) !! x)
            /\ exists temp k,
                temp <> root
                /\ (chain (world sc) : gmap AccountId SimAccount) !! temp = None
                /\ List.filter (fun e => negb (offChain e)) (news sc st')
                   = [EvAccountBalance root;
                      EvHelperCreate temp (getPublicKey k);
                      EvSubmit temp temp [DeleteAccount root]]))
    /\ ((topUpThreshold <= toYocto 600)%N ->
        exists b, account_balance (chain (world st')) root = Ok b
                  /\ (topUpThreshold <= available b)%N).
Proof.
  cbv zeta.
  apply (TestnetManager_init_funds_root (toYocto 600)
           (scenario (toYocto 600) (Some "root.testnet") [] [])
           (snd (TestnetManager_init (scenario (toYocto 600) (Some "root.testnet") [] [])))).
  vm_compute. reflexivity.
Defined.

(** The string operations on the texts of the scenarios. *)
Example split_dot_0_create : split_dot_0 "create.spec" = "create".
Proof. reflexivity. Qed.

Example replace_suffix_alice : replace ".test.near" "" "alice.test.near" = "alice".
Proof. reflexivity. Qed.

Example sim_path_parse_create :
  sim_path_parse "create.spec.ts" = {| ext := ".ts"; name := "create.spec" |}.
Proof. reflexivity. Qed.

(** An unsupported network: the error text, and the world as it was. *)
Example create_rejects_mainnet :
  let near := {| network := "mainnet"; rootAccount := None; initialBalance := None;
                 homeDir := "/tmp/sandbox"; helperUrl := None |} in
  create near (world aliceWithoutKey)
  = (Throw ("Bad network id: mainnet expected " +:+ quote +:+ "testnet" +:+ quote
            +:+ " or " +:+ quote +:+ "sandbox" +:+ quote),
     world aliceWithoutKey).
Proof. reflexivity. Qed.

(** The subaccount manager's [cleanup()]: both tracked accounts are
    submitted for deletion (the second one is unknown to the chain and its
    submission throws), and the table still holds both. *)
Example cleanup_of_subaccount_manager :
  deletions (news subaccountManager (snd (cleanup subaccountManager)))
  = [("a.sub.root.testnet", "root.testnet"); ("b.sub.root.testnet", "root.testnet")]
  /\ isOk (fst (cleanup subaccountManager)) = false
  /\ Map_keys (accountsCreated (mgr (snd (cleanup subaccountManager))))
     = ["a.sub.root.testnet"; "b.sub.root.testnet"]
  /\ account_balance (chain (world (snd (cleanup subaccountManager)))) "root.testnet"
     = Ok {| total := 10; available := 10 |}.
Proof. vm_compute. repeat split. Qed.

End Scenarios.

(** * Further properties of the account managers *)

Section Further.
Context {KS : KeyStore} {HO : Host}.

Ltac unfold_monad :=
  unfold mbind, M_bind, bind, mret, M_ret, ret, throw, this, update_this, emit, draw in *.

Ltac unfold_calls :=
  unfold keyStore_getKey, keyStore_setKey, keyStore_removeKey, keyStore_getAccounts,
    provider_accountExists, provider_account_balance, account_signAndSendTransaction,
    accountCreator_createAccount, console_log, fs_requireKeyFile, fs_openKeyFile,
    fs_writeKeyFile, fs_closeKeyFile, KeyPairEd25519_fromRandom in *.

Ltac news_simpl :=
  unfold news; simpl; rewrite <- ?app_assoc; rewrite ?drop_app_length; simpl.

(** ** Keys through the manager *)

(** X1: [setKey] returns the key it was given (or the one it generated),
    a following [getKey] of the same account returns that key, a [getKey]
    after [removeKey] returns null, and neither call touches the key of
    another account. *)
Theorem setKey_removeKey_round_trips (accountId : AccountId) (keyPair : option KeyPair)
        (st : St) :
  let key := default (fromRandom (draws (world st))) keyPair in
  let st1 := snd (setKey accountId keyPair st) in
  let st2 := snd (removeKey accountId st1) in
  fst (setKey accountId keyPair st) = Ok key
  /\ fst (getKey accountId st1) = Ok (Some key)
  /\ fst (getKey accountId st2) = Ok None
  /\ (forall a, a <> accountId ->
                storedKey st1 a = storedKey st a /\ storedKey st2 a = storedKey st a).
Proof.
  cbv zeta. unfold setKey, removeKey, getKey, storedKey. unfold_calls. unfold_monad.
  destruct keyPair as [k|]; simpl; rewrite ?ks_get_set_eq, ?ks_get_remove_eq; simpl;
    (split; [reflexivity|]; split; [reflexivity|]; split; [reflexivity|];
     intros a Ha; rewrite ?ks_get_remove_ne, ?ks_get_set_ne by congruence; auto).
Qed.


(** ** [executeTransaction] *)

(** X3: whatever the temporary key and the exit, [executeTransaction]
    submits exactly one transaction, the given one; it asks for no key
    removal, leaves the keys of every account other than the sender as they
    were, leaves the manager object alone, and without a temporary key does
    not write the key store at all. *)
Theorem executeTransaction_one_submission (tx : Transaction) (kp : option KeyPair) (st : St) :
  let st' := snd (executeTransaction tx kp st) in
  List.filter isSubmit (news st st') = [EvSubmit (senderId tx) (receiverId tx) (actions tx)]
  /\ existsb removesKey (news st st') = false
  /\ (forall a, a <> senderId tx -> storedKey st' a = storedKey st a)
  /\ mgr st' = mgr st
  /\ (kp = None -> keyStore (world st') = keyStore (world st)
                   /\ news st st' = [EvSubmit (senderId tx) (receiverId tx) (actions tx)]).
Proof.
  cbv zeta. destruct kp as [k|].
  - unfold executeTransaction, setKey, getKey, storedKey. unfold_calls. unfold_monad. simpl.
    destruct (signAndSendTransaction _ _ _ _ _) as [[o|e] c]; simpl;
      [destruct (ks_getKey (keyStore (world st)) _ _) as [old|] eqn:Hold; simpl|];
      (split; [news_simpl; reflexivity|]);
      (split; [news_simpl; reflexivity|]);
      (split; [intros a Hne; rewrite !ks_get_set_ne by congruence; reflexivity|]);
      (split; [reflexivity|discriminate]).
  - rewrite executeTransaction_plain. unfold storedKey. unfold_calls.
    destruct (signAndSendTransaction _ _ _ _ _) as [r c]; simpl.
    split; [news_simpl; reflexivity|]. split; [news_simpl; reflexivity|].
    split; [reflexivity|]. split; [reflexivity|]. intros _.
    split; [reflexivity|news_simpl; reflexivity].
Qed.

(** ** Root-account discovery *)


(** X5: with a root account configured (a non-empty id), [initRootAccount]
    returns with the state as it was; with none configured and a caller
    that is not a [.ts] or [.js] file it throws the error that names the
    file, before it reads the store or deletes anything. *)
Theorem initRootAccount_guards (st : St) :
  (truthy (rootAccount (config (mgr st))) = true -> initRootAccount st = (Ok tt, st))
  /\ (truthy (rootAccount (config (mgr st))) = false ->
      ext (path_parse (callerFile (world st))) ∉ [".ts"; ".js"] ->
      initRootAccount st =
      (Throw ("Bad filename/account name passed: " +:+ callerFile (world st)), st)).
Proof.
  split.
  - intros Ht. unfold initRootAccount. unfold_monad. rewrite Ht. reflexivity.
  - intros Ht Hext. unfold initRootAccount, findCallerFile. unfold_monad. rewrite Ht.
    rewrite (bool_decide_eq_false_2 _ Hext). reflexivity.
Qed.

(** X6: when the configured root account exists and holds at least the
    1000-token threshold, [TestnetManager.init()] asks the provider whether
    it exists and for its balance, and does nothing else: no key is read or
    written, no account is created, nothing is submitted. *)
Theorem TestnetManager_init_funded_root (st : St) (root : AccountId) (b : AccountBalance) :
  variant (mgr st) <> TestnetSubaccount ->
  rootAccount (config (mgr st)) = Some root ->
  root <> "" ->
  accountExists (chain (world st)) root = true ->
  account_balance (chain (world st)) root = Ok b ->
  (toYocto 1000 <= available b)%N ->
  TestnetManager_init st =
  (Ok tt, on_world (logged (EvAccountBalance root))
            (on_world (logged (EvAccountExists root)) st)).
Proof.
  intros Hv Hroot Hne Hex Hbal Hfund.
  assert (Ht : truthy (rootAccount (config (mgr st))) = true).
  { rewrite Hroot. simpl. apply negb_true_iff, String.eqb_neq. exact Hne. }
  assert (Hid : rootAccountId (mgr st) = root).
  { unfold rootAccountId. rewrite Hroot. destruct (variant (mgr st)); simpl; congruence. }
  unfold TestnetManager_init, createAndFundAccount, initRootAccount, balance.
  unfold_calls. unfold_monad. rewrite Ht. simpl. rewrite Hid, Hex. simpl. rewrite Hbal.
  apply N.ltb_ge in Hfund. rewrite Hfund. reflexivity.
Qed.

(** ** The tracking table *)

Lemma Map_keys_set_tracked (k : AccountId) (v : AccountShortName)
      (m : list (AccountId * AccountShortName)) :
  k ∈ Map_keys m -> Map_keys (Map_set k v m) = Map_keys m.
Proof.
  unfold Map_keys. induction m as [|[k' v'] m IH]; simpl; intros Hin.
  - inversion Hin.
  - destruct (String.eqb k' k) eqn:E; simpl; [reflexivity|].
    apply String.eqb_neq in E. apply elem_of_cons in Hin as [->|Hin]; [congruence|].
    rewrite (IH Hin). reflexivity.
Qed.

Lemma Map_keys_set_new (k : AccountId) (v : AccountShortName)
      (m : list (AccountId * AccountShortName)) :
  k ∉ Map_keys m -> Map_keys (Map_set k v m) = Map_keys m ++ [k].
Proof.
  unfold Map_keys. induction m as [|[k' v'] m IH]; simpl; intros Hin; [reflexivity|].
  apply not_elem_of_cons in Hin as [Hne Hin].
  destruct (String.eqb k' k) eqn:E; [apply String.eqb_eq in E; congruence|].
  simpl. rewrite (IH Hin). reflexivity.
Qed.

Lemma Map_get_set_ne (k k' : AccountId) (v : AccountShortName)
      (m : list (AccountId * AccountShortName)) :
  k' <> k -> Map_get k' (Map_set k v m) = Map_get k' m.
Proof.
  intros Hne. induction m as [|[k0 v0] m IH]; simpl.
  - destruct (String.eqb k k') eqn:E; [apply String.eqb_eq in E; congruence|reflexivity].
  - destruct (String.eqb k0 k) eqn:E; simpl.
    + apply String.eqb_eq in E. subst k0.
      destruct (String.eqb k k') eqn:E'; [apply String.eqb_eq in E'; congruence|reflexivity].
    + rewrite IH. reflexivity.
Qed.

(** X7: [addAccountCreated] keeps one entry per account id: for an id
    already tracked the list of tracked ids is unchanged (only its short
    name is replaced), a new id goes to the end, no id is ever listed
    twice, and the short names of the other ids are left alone. *)
Theorem addAccountCreated_tracks_once (account sender : AccountId) (st : St) :
  let t := accountsCreated (mgr st) in
  let t' := accountsCreated (mgr (snd (addAccountCreated account sender st))) in
  (account ∈ Map_keys t -> Map_keys t' = Map_keys t)
  /\ (account ∉ Map_keys t -> Map_keys t' = Map_keys t ++ [account])
  /\ (NoDup (Map_keys t) -> NoDup (Map_keys t'))
  /\ (forall other, other <> account -> Map_get other t' = Map_get other t).
Proof.
  cbv zeta. rewrite addAccountCreated_run. simpl.
  split; [apply Map_keys_set_tracked|]. split; [apply Map_keys_set_new|].
  split.
  - intros Hnd. destruct (decide (account ∈ Map_keys (accountsCreated (mgr st)))) as [Hin|Hin].
    + rewrite Map_keys_set_tracked by exact Hin. exact Hnd.
    + rewrite Map_keys_set_new by exact Hin. apply NoDup_app.
      split; [exact Hnd|]. split; [|apply NoDup_singleton].
      intros x Hx Hx'. apply list_elem_of_singleton in Hx'. subst x. contradiction.
  - intros other Hne. apply Map_get_set_ne. exact Hne.
Qed.

(** ** Key files and the sandbox manager *)

Lemma getKeyFromFile_read (filePath : string) (create : bool) (st : St) (k : KeyPair)
      (f : Files) :
  require_keyFile (keyFiles (world st)) filePath = (Ok k, f) ->
  getKeyFromFile filePath create st =
  (Ok k, on_world (fun w => logged (EvReadKeyFile filePath) (with_keyFiles f w)) st).
Proof.
  intros Hr. unfold getKeyFromFile, try_catch, fs_requireKeyFile. rewrite Hr. reflexivity.
Qed.

(** The ways [getKeyFromFile(filePath)] returns a key. *)
Lemma getKeyFromFile_Ok_inv (filePath : string) (st st1 : St) (k : KeyPair) :
  getKeyFromFile filePath true st = (Ok k, st1) ->
  (exists f, require_keyFile (keyFiles (world st)) filePath = (Ok k, f)
             /\ keyFiles (world st1) = f
             /\ news st st1 = [EvReadKeyFile filePath])
  \/ (exists e f h f1 f2 f3,
         require_keyFile (keyFiles (world st)) filePath = (Throw e, f)
         /\ fs_open f filePath = (Ok h, f1)
         /\ k = fromRandom (draws (world st))
         /\ keyFile_writeFile f1 h k = (Ok tt, f2)
         /\ keyFile_close f2 h = (Ok tt, f3)
         /\ keyFiles (world st1) = f3
         /\ news st st1 = [EvReadKeyFile filePath; EvOpenKeyFile filePath;
                           EvWriteKeyFile filePath k; EvCloseKeyFile filePath]).
Proof.
  unfold getKeyFromFile, try_catch. unfold_calls. unfold_monad. simpl.
  destruct (require_keyFile _ _) as [[k0|e] f] eqn:Hr; simpl.
  - intros [= <- <-]. left. exists f. split; [reflexivity|]. split; [reflexivity|].
    news_simpl. reflexivity.
  - destruct (fs_open f filePath) as [[h|e1] f1] eqn:Ho; simpl; [|discriminate].
    destruct (keyFile_writeFile f1 h _) as [[[]|e2] f2] eqn:Hw; simpl; [|discriminate].
    destruct (keyFile_close f2 h) as [[[]|e3] f3] eqn:Hc; simpl; [|discriminate].
    intros [= <- <-]. right. exists e, f, h, f1, f2, f3.
    split; [reflexivity|]. split; [exact Ho|]. split; [reflexivity|].
    split; [exact Hw|]. split; [exact Hc|]. split; [reflexivity|].
    news_simpl. reflexivity.
Qed.

Lemma getKeyFromFile_keeps (filePath : string) (create : bool) (st : St) :
  keyStore (world (snd (getKeyFromFile filePath create st))) = keyStore (world st)
  /\ chain (world (snd (getKeyFromFile filePath create st))) = chain (world st)
  /\ mgr (snd (getKeyFromFile filePath create st)) = mgr st.
Proof.
  pose proof (respects_getKeyFromFile sameManager filePath create st) as Hm.
  split; [|split; [|exact Hm]];
    unfold getKeyFromFile, try_catch; unfold_calls; unfold_monad; simpl;
    destruct (require_keyFile _ _) as [[k0|e] f]; simpl; try reflexivity;
    destruct create; simpl; try reflexivity;
    destruct (fs_open f filePath) as [[h|e1] f1]; simpl; try reflexivity;
    destruct (keyFile_writeFile f1 h _) as [[[]|e2] f2]; simpl; try reflexivity;
    destruct (keyFile_close f2 h) as [[[]|e3] f3]; reflexivity.
Qed.

(** X8: [getKeyFromFile(filePath)] returns the key that reading the file
    yields and then neither opens nor writes anything; when reading throws
    it passes the error on if [create] is false, and else opens the file
    for writing, generates a key, writes it and closes the file, in this
    order, and returns that key; an error of [fs.open], of [writeFile] or
    of [close] leaves the function (no key is generated when the file
    cannot be opened).  It never touches the key store, the chain or the
    manager, and on a file system that gives a key file back a second call
    returns the key of the first. *)
Theorem getKeyFromFile_outcome (filePath : string) (st : St) :
  let files := keyFiles (world st) in
  let fresh := fromRandom (draws (world st)) in
  let run := getKeyFromFile filePath true st in
  (keyStore (world (snd run)) = keyStore (world st)
   /\ chain (world (snd run)) = chain (world st)
   /\ mgr (snd run) = mgr st)
  /\ (forall k f, require_keyFile files filePath = (Ok k, f) ->
                  fst run = Ok k
                  /\ keyFiles (world (snd run)) = f
                  /\ news st (snd run) = [EvReadKeyFile filePath])
  /\ (forall e f, require_keyFile files filePath = (Throw e, f) ->
                  fst (getKeyFromFile filePath false st) = Throw e
                  /\ (forall e1 f1, fs_open f filePath = (Throw e1, f1) ->
                                    fst run = Throw e1
                                    /\ draws (world (snd run)) = draws (world st)
                                    /\ news st (snd run)
                                       = [EvReadKeyFile filePath; EvOpenKeyFile filePath])
                  /\ (forall h f1, fs_open f filePath = (Ok h, f1) ->
                                   match keyFile_writeFile f1 h fresh with
                                   | (Throw e2, _) => fst run = Throw e2
                                   | (Ok _, f2) =>
                                       match keyFile_close f2 h with
                                       | (Throw e3, _) => fst run = Throw e3
                                       | (Ok _, f3) =>
                                           fst run = Ok fresh
                                           /\ keyFiles (world (snd run)) = f3
                                           /\ news st (snd run)
                                              = [EvReadKeyFile filePath;
                                                 EvOpenKeyFile filePath;
                                                 EvWriteKeyFile filePath fresh;
                                                 EvCloseKeyFile filePath]
                                       end
                                   end))
  /\ (readsBack filePath ->
      forall k, fst run = Ok k -> fst (getKeyFromFile filePath true (snd run)) = Ok k).
Proof.
  cbv zeta. split; [|split; [|split]].
  - exact (getKeyFromFile_keeps filePath true st).
  - intros k f Hr. rewrite (getKeyFromFile_read filePath true st k f Hr). simpl.
    split; [reflexivity|]. split; [reflexivity|]. news_simpl. reflexivity.
  - intros e f Hr. unfold getKeyFromFile, try_catch. unfold_calls. unfold_monad.
    rewrite Hr. simpl. split; [reflexivity|]. split.
    + intros e1 f1 Ho. rewrite Ho. simpl. split; [reflexivity|]. split; [reflexivity|].
      news_simpl. reflexivity.
    + intros h f1 Ho. rewrite Ho. simpl.
      destruct (keyFile_writeFile f1 h _) as [[[]|e2] f2]; simpl; [|reflexivity].
      destruct (keyFile_close f2 h) as [[[]|e3] f3]; simpl; [|reflexivity].
      split; [reflexivity|]. split; [reflexivity|]. news_simpl. reflexivity.
  - intros [Hagain Hback] k Hk.
    destruct (getKeyFromFile filePath true st) as [r st1] eqn:Hrun. simpl in Hk. subst r.
    simpl.
    destruct (getKeyFromFile_Ok_inv _ _ _ _ Hrun)
      as [(f & Hr & Hf & _)|(e & f & h & f1 & f2 & f3 & Hr & Ho & Hfresh & Hw & Hc & Hf & _)].
    + specialize (Hagain _ _ _ Hr).
      destruct (require_keyFile f filePath) as [r f'] eqn:Hr2. simpl in Hagain. subst r.
      rewrite (getKeyFromFile_read filePath true st1 k f'); [reflexivity|].
      rewrite Hf. exact Hr2.
    + specialize (Hback _ _ _ _ _ _ Ho Hw Hc).
      destruct (require_keyFile f3 filePath) as [r f'] eqn:Hr2. simpl in Hback. subst r.
      rewrite (getKeyFromFile_read filePath true st1 k f'); [reflexivity|].
      rewrite Hf. exact Hr2.
Qed.

Lemma SandboxManager_init_stored (st : St) (k : KeyPair) :
  storedKey st (rootAccountId (mgr st)) = Some k ->
  SandboxManager_init st =
  (Ok tt, on_world (logged (EvGetKey (networkId (mgr st)) (rootAccountId (mgr st)))) st).
Proof.
  intros Hk. unfold storedKey in Hk. unfold SandboxManager_init, getKey.
  unfold_calls. unfold_monad. simpl. rewrite Hk. reflexivity.
Qed.

Lemma SandboxManager_init_missing (st : St) :
  storedKey st (rootAccountId (mgr st)) = None ->
  let root := rootAccountId (mgr st) in
  let asked := on_world (logged (EvGetKey (networkId (mgr st)) root)) st in
  match getKeyFromFile (keyFilePath (mgr st)) true asked with
  | (Ok k, s1) =>
      fst (SandboxManager_init st) = Ok tt
      /\ storedKey (snd (SandboxManager_init st)) root = Some k
      /\ keyFiles (world (snd (SandboxManager_init st))) = keyFiles (world s1)
  | (Throw e, s1) =>
      SandboxManager_init st = (Throw e, s1) /\ storedKey s1 root = None
  end.
Proof.
  intros Hk. cbv zeta. unfold storedKey in Hk.
  pose proof (getKeyFromFile_keeps (keyFilePath (mgr st)) true
                (on_world (logged (EvGetKey (networkId (mgr st)) (rootAccountId (mgr st)))) st))
    as (Hks & _ & Hm).
  unfold SandboxManager_init, getKey. unfold_calls. unfold_monad. simpl. rewrite Hk.
  destruct (getKeyFromFile _ _ _) as [[k|e] s1]; simpl in *.
  - unfold setKey, getKey. unfold_calls. unfold_monad. simpl. unfold storedKey. simpl.
    rewrite Hm. simpl. rewrite !ks_get_set_eq. simpl.
    split; [reflexivity|]. split; reflexivity.
  - split; [reflexivity|]. unfold storedKey. rewrite Hm, Hks. exact Hk.
Qed.

Lemma SandboxManager_init_keeps (st : St) :
  mgr (snd (SandboxManager_init st)) = mgr st
  /\ chain (world (snd (SandboxManager_init st))) = chain (world st).
Proof.
  split; [apply (respects_SandboxManager_init sameManager)|].
  destruct (storedKey st (rootAccountId (mgr st))) as [k|] eqn:Hk.
  - rewrite (SandboxManager_init_stored st k Hk). reflexivity.
  - unfold storedKey in Hk.
    pose proof (getKeyFromFile_keeps (keyFilePath (mgr st)) true
                  (on_world (logged (EvGetKey (networkId (mgr st)) (rootAccountId (mgr st))))
                            st)) as (_ & Hc & _).
    unfold SandboxManager_init, getKey. unfold_calls. unfold_monad. simpl. rewrite Hk.
    destruct (getKeyFromFile _ _ _) as [[k|e] s1]; simpl in *; [|exact Hc].
    unfold setKey, getKey. unfold_calls. unfold_monad. simpl.
    rewrite ?ks_get_set_eq. simpl. exact Hc.
Qed.

Lemma SandboxManager_init_again (st : St) :
  fst (SandboxManager_init st) = Ok tt ->
  is_Some (storedKey (snd (SandboxManager_init st)) (rootAccountId (mgr st)))
  /\ SandboxManager_init (snd (SandboxManager_init st))
     = (Ok tt, on_world (logged (EvGetKey (networkId (mgr st)) (rootAccountId (mgr st))))
                        (snd (SandboxManager_init st))).
Proof.
  intros Hok.
  destruct (SandboxManager_init_keeps st) as [Hm _].
  assert (Hsome : is_Some (storedKey (snd (SandboxManager_init st)) (rootAccountId (mgr st)))).
  { destruct (storedKey st (rootAccountId (mgr st))) as [k|] eqn:Hk.
    - rewrite (SandboxManager_init_stored st k Hk). unfold storedKey in *. simpl. eauto.
    - pose proof (SandboxManager_init_missing st Hk) as H. cbv zeta in H.
      destruct (getKeyFromFile _ _ _) as [[k|e] s1].
      + destruct H as (_ & Hs & _). eauto.
      + destruct H as (Hrun & _). rewrite Hrun in Hok. discriminate Hok. }
  split; [exact Hsome|]. destruct Hsome as [k Hk].
  rewrite <- Hm in Hk. rewrite (SandboxManager_init_stored _ k Hk).
  rewrite Hm. reflexivity.
Qed.



(** ** Child managers *)

Lemma TestnetSubaccountManager_init_object (st : St) :
  let st' := snd (TestnetSubaccountManager_init st) in
  variant (mgr st') = variant (mgr st)
  /\ config (mgr st') = config (mgr st)
  /\ is_Some (subAccount (mgr st')).
Proof.
  cbv zeta.
  unfold TestnetSubaccountManager_init, randomAccountId, Account_createAccount,
    ManagedTransaction_createAccount, addAccountCreated.
  unfold_monad. simpl.
  match goal with
  | |- context [signAndSend ?t ?k ?s] =>
      pose proof (respects_signAndSend sameManager t k s) as Hm;
      destruct (signAndSend t k s) as [[o|e] st1]
  end; unfold sameManager in Hm; simpl in Hm |- *; rewrite Hm; simpl; eauto.
Qed.

(** X11: [TestnetManager.createFrom] leaves the manager it is called on as
    it was, whether or not the child could be created; the child it returns
    is a subaccount manager with its own sub-account id set, whose
    configuration is the given one with the parent's root account id as
    root. *)
Theorem TestnetManager_createFrom_child (near : Config) (st : St) :
  mgr (snd (TestnetManager_createFrom near st)) = mgr st
  /\ forall child,
      fst (TestnetManager_createFrom near st) = Ok child ->
      variant child = TestnetSubaccount
      /\ config child = with_rootAccount (Some (rootAccountId (mgr st))) near
      /\ is_Some (subAccount child).
Proof.
  split; [apply (respects_createFrom sameManager)|].
  intros child. unfold TestnetManager_createFrom, in_object, on_object. unfold_monad. simpl.
  match goal with
  | |- context [TestnetSubaccountManager_init ?s] =>
      destruct (TestnetSubaccountManager_init_object s) as (Hv & Hc & Hs);
      destruct (TestnetSubaccountManager_init s) as [[[]|e] st1]
  end; simpl in *; [|discriminate].
  intros [= <-]. auto.
Qed.

(** ** The overriding [cleanup()] *)

Lemma Account_delete_events (accountId beneficiaryId : AccountId) (st : St) :
  let st' := snd (Account_delete accountId beneficiaryId st) in
  mgr st' = mgr st
  /\ exists d,
      trace (world st') = trace (world st) ++ d
      /\ Forall (fun e => e = EvSubmit accountId accountId [DeleteAccount beneficiaryId]
                          \/ e = EvRemoveKey (networkId (mgr st)) accountId) d
      /\ length (List.filter isSubmit d) = 1%nat.
Proof.
  cbv zeta. unfold Account_delete. rewrite signAndSend_run, executeTransaction_plain.
  unfold deleteKey. unfold_calls. unfold_monad. simpl.
  destruct (signAndSendTransaction _ _ _ _ _) as [[o|e] c]; simpl;
    [destruct (hasSuccessValue (status o)); simpl|];
    (split; [reflexivity|]); eexists; rewrite <- ?app_assoc;
    (split; [reflexivity|]); (split; [|reflexivity]);
    repeat (apply List.Forall_cons; [solve [auto]|]); apply List.Forall_nil.
Qed.

(** X12: the [cleanup()] of the subaccount manager submits one transaction
    per tracked id and makes no other call than these submissions (each the
    deletion of a tracked id in favour of the real root) and the removal of
    tracked ids' keys; with an empty table it returns with the state as it
    was. *)
Theorem TestnetSubaccountManager_cleanup_only_tracked (st : St) :
  let ids := Map_keys (accountsCreated (mgr st)) in
  let st' := snd (TestnetSubaccountManager_cleanup st) in
  Forall (deletesTracked (networkId (mgr st)) (realRootId (mgr st)) ids) (news st st')
  /\ length (List.filter isSubmit (news st st')) = length ids
  /\ (accountsCreated (mgr st) = [] -> TestnetSubaccountManager_cleanup st = (Ok tt, st)).
Proof.
  cbv zeta.
  assert (Hall : forall (all ids : list AccountId) (s : St),
             ids ⊆ all ->
             let s' := snd (Promise_all
                              (map (fun id => Account_delete id (realRootId (mgr st))) ids) s) in
             mgr s' = mgr s
             /\ exists d,
                 trace (world s') = trace (world s) ++ d
                 /\ Forall (deletesTracked (networkId (mgr s)) (realRootId (mgr st)) all) d
                 /\ length (List.filter isSubmit d) = length ids).
  { intros all ids. induction ids as [|id ids IH]; intros s Hsub; simpl.
    - split; [reflexivity|]. exists []. rewrite app_nil_r. repeat split. constructor.
    - assert (Hid : id ∈ all) by (apply Hsub; left).
      assert (Hrest : ids ⊆ all) by (intros x Hx; apply Hsub; right; exact Hx).
      destruct (Account_delete_events id (realRootId (mgr st)) s) as (Hm1 & d1 & Ht1 & Hf1 & Hn1).
      assert (Hd1 : Forall (deletesTracked (networkId (mgr s)) (realRootId (mgr st)) all) d1).
      { eapply Forall_impl; [exact Hf1|]. intros e He. exists id. auto. }
      destruct (Account_delete id (realRootId (mgr st)) s) as [[o|e] s1]; simpl in Hm1, Ht1.
      + destruct (IH s1 Hrest) as (Hm2 & d2 & Ht2 & Hf2 & Hn2). rewrite Hm1 in Hf2.
        destruct (Promise_all _ s1) as [[l|e] s2]; simpl in *;
          (split; [congruence|]); exists (d1 ++ d2);
          rewrite Ht2, Ht1, <- app_assoc, List.filter_app, length_app, Hn1, Hn2;
          (split; [reflexivity|]); (split; [apply Forall_app; auto|reflexivity]).
      + destruct (IH s1 Hrest) as (Hm2 & d2 & Ht2 & Hf2 & Hn2). rewrite Hm1 in Hf2. simpl.
        split; [congruence|]. exists (d1 ++ d2).
        rewrite Ht2, Ht1, <- app_assoc, List.filter_app, length_app, Hn1, Hn2.
        split; [reflexivity|]. split; [apply Forall_app; auto|reflexivity]. }
  unfold TestnetSubaccountManager_cleanup. unfold_monad.
  destruct (Hall (Map_keys (accountsCreated (mgr st))) (Map_keys (accountsCreated (mgr st))) st)
    as (_ & d & Ht & Hf & Hn); [reflexivity|].
  split; [|split].
  - unfold news. destruct (Promise_all _ st) as [[l|e] st1]; simpl in *;
      rewrite Ht, drop_app_length; exact Hf.
  - unfold news.
    destruct (Promise_all _ st) as [[l|e] st1]; simpl in *;
      rewrite Ht, drop_app_length; exact Hn.
  - intros Hempty. rewrite Hempty. reflexivity.
Qed.

End Further.

(** * Further properties on the simulated chain *)

Section FundingFurther.
Context {KS : KeyStore} (grant : N).

(** X13: on the simulated chain, when [addFunds] returns, the root
    account's balance has grown by exactly one grant of the creation
    service and every other account is as before: the temporary account,
    created under the root's key and deleted in favour of the root, is gone
    from the chain and its key is gone from the store, while the root's
    stored key is kept. *)
Theorem addFunds_sweeps_one_grant (st st' : @St KS (SimHost grant)) (a : SimAccount) :
  addFunds st = (Ok tt, st') ->
  chain (world st) !! rootAccountId (mgr st) = Some a ->
  let root := rootAccountId (mgr st) in
  account_balance (chain (world st')) root
  = Ok {| total := sim_available a + grant; available := sim_available a + grant |}
  /\ (forall x, x <> root ->
                (chain (world st') : gmap AccountId SimAccount) !! x = chain (world st) !! x)
  /\ exists temp k,
      In (EvHelperCreate temp (getPublicKey k)) (trace (world st'))
      /\ (chain (world st') : gmap AccountId SimAccount) !! temp = None
      /\ storedKey st' temp = None
      /\ storedKey st' root = Some k.
Proof.
  intros Hrun Hroot.
  destruct (addFunds_sim_exact grant st st' a Hrun Hroot)
    as (_ & Hc & temp & k & t & Hne & Hfresh & Ht & Hk & _ & Hgone & _).
  cbv zeta. split; [|split].
  - assert (Hl : (chain (world st') : gmap AccountId SimAccount) !! rootAccountId (mgr st)
                 = Some (sim_credit grant a)).
    { rewrite Hc.
      etransitivity;
        [exact (lookup_alter_eq (M := gmap AccountId) (sim_credit grant)
                                (chain (world st)) (rootAccountId (mgr st)))|].
      assert (Hr : (chain (world st) : gmap AccountId SimAccount) !! rootAccountId (mgr st)
                   = Some a) by exact Hroot.
      rewrite Hr. reflexivity. }
    simpl. unfold sim_account_balance. rewrite Hl. reflexivity.
  - intros x Hx. rewrite Hc.
    exact (lookup_alter_ne (M := gmap AccountId) (sim_credit grant)
                           (chain (world st)) (rootAccountId (mgr st)) x
                           (fun H => Hx (eq_sym H))).
  - exists temp, k. split; [rewrite Ht; apply in_or_app; right; simpl; auto|].
    split; [|auto]. rewrite Hc.
    etransitivity; [|exact Hfresh].
    exact (lookup_alter_ne (M := gmap AccountId) (sim_credit grant)
                           (chain (world st)) (rootAccountId (mgr st)) temp
                           (fun H => Hne (eq_sym H))).
Qed.

(** X14: on the simulated chain, when [TestnetManager.init()] returns for
    a configured root account that was not on the chain, the account
    exists and is registered under the public key of the key stored for
    it, which is the key stored before when there was one. *)
Theorem TestnetManager_init_registers_stored_key
        (st st' : @St KS (SimHost grant)) (root : AccountId) :
  variant (mgr st) <> TestnetSubaccount ->
  rootAccount (config (mgr st)) = Some root ->
  root <> "" ->
  (chain (world st) : gmap AccountId SimAccount) !! root = None ->
  TestnetManager_init st = (Ok tt, st') ->
  exists k acc,
    storedKey st' root = Some k
    /\ (chain (world st') : gmap AccountId SimAccount) !! root = Some acc
    /\ sim_key acc = getPublicKey k
    /\ (forall k0, storedKey st root = Some k0 -> k = k0).
Proof.
  intros Hv Hroot Hne Hnone Hrun.
  assert (Ht : truthy (rootAccount (config (mgr st))) = true).
  { rewrite Hroot. simpl. apply negb_true_iff, String.eqb_neq. exact Hne. }
  assert (Hid : rootAccountId (mgr st) = root).
  { unfold rootAccountId. rewrite Hroot. destruct (variant (mgr st)); simpl; congruence. }
  unfold TestnetManager_init, createAndFundAccount in Hrun.
  apply bind_Ok in Hrun as ([] & st1 & H1 & Hrun).
  unfold initRootAccount in H1. apply bind_Ok in H1 as (m0 & st0 & H0 & H1).
  injection H0 as <- <-. rewrite Ht in H1. injection H1 as <-.
  apply bind_Ok in Hrun as (m & st1' & Hthis & Hrun).
  injection Hthis as <- <-. cbv zeta in Hrun. rewrite Hid in Hrun.
  apply bind_Ok in Hrun as (present & st2 & H2 & Hrun).
  unfold provider_accountExists in H2. simpl in H2. rewrite Hnone in H2.
  injection H2 as <- <-.
  cbn [negb] in Hrun.
  apply bind_Ok in Hrun as ([] & st3 & H3 & Hrun).
  apply bind_Ok in H3 as (keyPair & s3 & H3 & Hblock).
  match type of H3 with
  | getRootKey ?s = _ =>
      destruct (getRootKey_effects s) as (k & s3' & Hg & Hm3 & Hc3 & Hk3 & _ & Hsame3 & _)
  end.
  rewrite Hg in H3. injection H3 as -> ->.
  simpl in Hm3, Hc3, Hk3, Hsame3. rewrite Hid in Hk3, Hsame3.
  apply bind_Ok in Hblock as (u4 & s4 & H4 & Hblock).
  injection H4 as _ <-.
  apply bind_Ok in Hblock as (account & s5 & H5 & Hblock).
  injection Hblock as <-.
  unfold TestnetManager_createAccount in H5.
  apply bind_Ok in H5 as (u5 & s5' & H5 & H5').
  injection H5' as <- <-.
  unfold accountCreator_createAccount in H5. simpl in H5.
  destruct (sim_helperCreateAccount _ _ _ _) as [[[]|e] c5] eqn:Hcreate; [|discriminate].
  injection H5 as H5. subst s5'.
  apply sim_helperCreateAccount_Ok in Hcreate as [_ ->].
  apply bind_Ok in Hrun as (b & st4 & H4 & Hrun).
  unfold balance, provider_account_balance in H4. simpl in H4.
  unfold sim_account_balance in H4. rewrite lookup_insert_eq in H4.
  injection H4 as <- <-. simpl in Hrun.
  set (created := {| sim_available := grant; sim_key := getPublicKey keyPair |}) in *.
  assert (Hstored : forall k0, storedKey st root = Some k0 -> keyPair = k0).
  { intros k0 Hk0. apply Hsame3. exact Hk0. }
  destruct (grant <? toYocto 1000)%N.
  - match type of Hrun with
    | addFunds ?s = _ =>
        destruct (addFunds_sim_exact grant s st' created Hrun) as (Hm & Hc & temp & k' & t & _ & _ & _ & Hk' & Hsame' & _)
    end.
    { simpl. rewrite Hm3, Hid. apply lookup_insert_eq. }
    simpl in Hm, Hc, Hk', Hsame'. rewrite Hm3, Hid in Hc, Hk', Hsame'.
    assert (k' = keyPair) as ->.
    { apply Hsame'. unfold storedKey. simpl. rewrite Hm3. apply ks_get_set_eq. }
    exists keyPair, (sim_credit grant created).
    split; [unfold storedKey in *; rewrite Hm, Hm3; rewrite Hm, Hm3 in Hk'; exact Hk'|].
    split; [rewrite Hc, lookup_alter_eq, lookup_insert_eq; reflexivity|].
    split; [reflexivity|exact Hstored].
  - injection Hrun as <-. exists keyPair, created.
    split; [unfold storedKey; simpl; rewrite Hm3; apply ks_get_set_eq|].
    split; [simpl; apply lookup_insert_eq|]. split; [reflexivity|exact Hstored].
Qed.

End FundingFurther.

(** * Properties of the execution results *)

Section ExecutionResults.

Lemma includes_empty (s : string) : includes s "" = true.
Proof. destruct s; reflexivity. Qed.

Lemma flat_map_option_In {A B : Type} (f : A -> option B) (l : list A) (b : B) :
  In b (flat_map (fun a => match f a with Some v => [v] | None => [] end) l)
  <-> exists a, In a l /\ f a = Some b.
Proof.
  rewrite in_flat_map. split.
  - intros (a & Ha & Hb). exists a. split; [exact Ha|].
    destruct (f a) as [v|]; simpl in Hb; [destruct Hb as [->|[]]; reflexivity|contradiction].
  - intros (a & Ha & Hb). exists a. split; [exact Ha|]. rewrite Hb. left. reflexivity.
Qed.

Lemma flat_map_option_length {A B : Type} (f : A -> option B) (l : list A) :
  length (flat_map (fun a => match f a with Some v => [v] | None => [] end) l)
  = length (List.filter (fun a => bool_decide (is_Some (f a))) l).
Proof.
  induction l as [|a l IH]; simpl; [reflexivity|].
  destruct (f a) as [v|]; simpl; [f_equal|]; exact IH.
Qed.

Lemma PromiseOutcome_SuccessValue_Some (o : ExecutionOutcome) (v : string) :
  PromiseOutcome_SuccessValue o = Some v
  <-> exists f, outcome_status o = StatusObject f /\ field_SuccessValue f = Some v.
Proof.
  unfold PromiseOutcome_SuccessValue, PromiseOutcome_succeeded.
  destruct (outcome_status o) as [tag|f].
  - split; [discriminate|]. intros (f & Hf & _). discriminate.
  - destruct (field_SuccessValue f) as [v'|] eqn:Hv.
    + rewrite bool_decide_eq_true_2 by eauto. split.
      * intros [= <-]. exists f. auto.
      * intros (f' & [= <-] & Hv'). congruence.
    + rewrite bool_decide_eq_false_2 by (intros [? ?]; discriminate). split; [discriminate|].
      intros (f' & [= <-] & Hv'). congruence.
Qed.

Lemma PromiseOutcome_executionError_Some (o : ExecutionOutcome) (e : ExecutionError) :
  PromiseOutcome_executionError o = Some e
  <-> exists f, outcome_status o = StatusObject f /\ field_Failure f = Some e.
Proof.
  unfold PromiseOutcome_executionError, PromiseOutcome_isFailure.
  destruct (outcome_status o) as [tag|f].
  - split; [discriminate|]. intros (f & Hf & _). discriminate.
  - destruct (field_Failure f) as [e'|] eqn:He.
    + rewrite bool_decide_eq_true_2 by eauto. split.
      * intros [= <-]. exists f. auto.
      * intros (f' & [= <-] & He'). congruence.
    + rewrite bool_decide_eq_false_2 by (intros [? ?]; discriminate). split; [discriminate|].
      intros (f' & [= <-] & He'). congruence.
Qed.

(** X15: the logs of an [ExecutionResult] are the logs of the transaction
    outcome followed by those of each receipt, in order; [findLogs] returns
    exactly the logs that match the pattern, [logsContain] is true exactly
    when [findLogs] finds something, and for the empty string pattern
    [findLogs] returns every log. *)
Theorem findLogs_logsContain (r : ProviderResult) (pattern : Pattern) :
  ExecutionResult_logs r
  = outcome_logs (outcome (transaction_outcome r))
    ++ flat_map (fun o => outcome_logs (outcome o)) (receipts_outcome r)
  /\ (forall l, In l (findLogs r pattern)
                <-> In l (ExecutionResult_logs r) /\ includesPattern pattern l = true)
  /\ (logsContain r pattern = true <-> findLogs r pattern <> [])
  /\ findLogs r (PatternString "") = ExecutionResult_logs r.
Proof.
  split; [|split; [|split]].
  - unfold ExecutionResult_logs, outcomes, outcomesWithId. simpl. f_equal.
    induction (receipts_outcome r) as [|o os IH]; simpl; [reflexivity|].
    rewrite IH. reflexivity.
  - intros l. unfold findLogs. apply filter_In.
  - unfold logsContain, findLogs. rewrite existsb_exists. split.
    + intros (l & Hl & Hp) Hnil.
      assert (Hin : In l (List.filter (includesPattern pattern) (ExecutionResult_logs r)))
        by (apply filter_In; auto).
      rewrite Hnil in Hin. exact Hin.
    + intros Hne.
      destruct (List.filter (includesPattern pattern) (ExecutionResult_logs r)) as [|l ls] eqn:Hf;
        [contradiction|].
      exists l. apply filter_In. rewrite Hf. left. reflexivity.
  - unfold findLogs. induction (ExecutionResult_logs r) as [|l ls IH]; [reflexivity|].
    cbn [List.filter]. rewrite IH. cbn [includesPattern]. rewrite includes_empty. reflexivity.
Qed.

(** X16: the promise values of an [ExecutionResult] are read from the
    receipts only: [promiseSuccessValues] holds exactly the [SuccessValue]s
    of the receipt outcomes whose status is an object that carries one (an
    empty value included), and [promiseErrors] the [Failure]s; there is one
    entry per receipt that succeeded, respectively failed, and an outcome
    with a bare string status contributes to neither. *)
Theorem promise_values_of_receipts (r : ProviderResult) :
  (forall v, In v (promiseSuccessValues r)
             <-> exists o f, In o (receipts_outcome r)
                             /\ outcome_status (outcome o) = StatusObject f
                             /\ field_SuccessValue f = Some v)
  /\ (forall e, In e (promiseErrors r)
                <-> exists o f, In o (receipts_outcome r)
                                /\ outcome_status (outcome o) = StatusObject f
                                /\ field_Failure f = Some e)
  /\ length (promiseSuccessValues r)
     = length (List.filter PromiseOutcome_succeeded (receipts_outcomes r))
  /\ length (promiseErrors r)
     = length (List.filter PromiseOutcome_isFailure (receipts_outcomes r))
  /\ (forall o tag, outcome_status o = StatusString tag ->
                    PromiseOutcome_succeeded o = false /\ PromiseOutcome_isFailure o = false).
Proof.
  split; [|split; [|split; [|split]]].
  - intros v. unfold promiseSuccessValues, receipts_outcomes.
    rewrite flat_map_option_In. split.
    + intros (o & Ho & Hv). apply in_map_iff in Ho as (w & <- & Hw).
      apply PromiseOutcome_SuccessValue_Some in Hv as (f & Hf & Hv). eauto.
    + intros (w & f & Hw & Hf & Hv). exists (outcome w).
      split; [apply in_map; exact Hw|]. apply PromiseOutcome_SuccessValue_Some. eauto.
  - intros e. unfold promiseErrors, receipts_outcomes.
    rewrite flat_map_option_In. split.
    + intros (o & Ho & He). apply in_map_iff in Ho as (w & <- & Hw).
      apply PromiseOutcome_executionError_Some in He as (f & Hf & He). eauto.
    + intros (w & f & Hw & Hf & He). exists (outcome w).
      split; [apply in_map; exact Hw|]. apply PromiseOutcome_executionError_Some. eauto.
  - unfold promiseSuccessValues. rewrite flat_map_option_length. f_equal.
    apply List.filter_ext. intros o.
    unfold PromiseOutcome_SuccessValue, PromiseOutcome_succeeded.
    destruct (outcome_status o) as [tag|f].
    + apply bool_decide_eq_false_2. intros [? ?]; discriminate.
    + destruct (field_SuccessValue f) as [v|].
      * rewrite !bool_decide_eq_true_2 by eauto. reflexivity.
      * rewrite !bool_decide_eq_false_2 by (intros [? ?]; discriminate). reflexivity.
  - unfold promiseErrors. rewrite flat_map_option_length. f_equal.
    apply List.filter_ext. intros o.
    unfold PromiseOutcome_executionError, PromiseOutcome_isFailure.
    destruct (outcome_status o) as [tag|f].
    + apply bool_decide_eq_false_2. intros [? ?]; discriminate.
    + destruct (field_Failure f) as [e|].
      * rewrite !bool_decide_eq_true_2 by eauto. reflexivity.
      * rewrite !bool_decide_eq_false_2 by (intros [? ?]; discriminate). reflexivity.
  - intros o tag Ho. unfold PromiseOutcome_succeeded, PromiseOutcome_isFailure.
    rewrite Ho. auto.
Qed.

End ExecutionResults.

(** * Properties of the legacy runtime *)

Section LegacyRuntime.
Import Legacy.
Context {HA : Handles} {PL : Platform}.

Ltac unfold_legacy :=
  unfold mbind, M_bind, bind, mret, M_ret, ret, throw, self, update, log_error,
    try_catch, try_finally in *.

Lemma legacy_bind_Ok {A B} (m : M A) (k : A -> M B) (st st' : St) (b : B) :
  (m ≫= k) st = (Ok b, st') ->
  exists a s, m st = (Ok a, s) /\ k a s = (Ok b, st').
Proof.
  unfold mbind, M_bind, bind. destruct (m st) as [[a|e] s]; [eauto|discriminate].
Qed.

(** ** What leaves the runtime object alone *)

Lemma stable_ret {A} (a : A) : stable (mret a : M A).
Proof. intros st. reflexivity. Qed.

Lemma stable_throw {A} (e : string) : stable (throw e : M A).
Proof. intros st. reflexivity. Qed.

Lemma stable_self : stable self.
Proof. intros st. reflexivity. Qed.

Lemma stable_call {A} (c : Call A) : stable (call c).
Proof. intros st. unfold call. destruct (perform c (outside st)). reflexivity. Qed.

Lemma stable_bind {A B} (m : M A) (k : A -> M B) :
  stable m -> (forall a, stable (k a)) -> stable (m ≫= k).
Proof.
  intros Hm Hk st. unfold mbind, M_bind, bind. specialize (Hm st).
  destruct (m st) as [[a|e] s]; simpl in *; [|exact Hm].
  rewrite Hk. exact Hm.
Qed.

Lemma stable_try_catch {A} (body : M A) (handler : string -> M A) :
  stable body -> (forall e, stable (handler e)) -> stable (try_catch body handler).
Proof.
  intros Hb Hh st. unfold try_catch. specialize (Hb st).
  destruct (body st) as [[a|e] s]; simpl in *; [exact Hb|].
  rewrite Hh. exact Hb.
Qed.

Create HintDb stable.
#[local] Hint Resolve stable_ret stable_throw stable_self stable_call : stable.

Ltac stable_tac :=
  repeat first
    [ solve [auto with stable]
    | apply stable_bind; [|intros ?]
    | apply stable_try_catch; [|intros ?]
    | match goal with
      | |- stable (if ?b then _ else _) => destruct b
      | |- stable (match ?x with _ => _ end) => destruct x
      end ].

Lemma stable_randomAccountId : stable randomAccountId.
Proof. unfold randomAccountId. stable_tac. Qed.

Lemma stable_getKeyFromFile (filePath : string) (create : bool) :
  stable (getKeyFromFile filePath create).
Proof. unfold getKeyFromFile. stable_tac. Qed.

Lemma stable_getMasterKey : stable getMasterKey.
Proof. unfold getMasterKey. apply stable_bind; [apply stable_self|intros ?]. apply stable_getKeyFromFile. Qed.

Lemma stable_addMasterAccountKey : stable addMasterAccountKey.
Proof.
  unfold addMasterAccountKey. apply stable_bind; [apply stable_self|intros rt].
  destruct (keyStore rt); [|apply stable_throw].
  apply stable_bind; [apply stable_getMasterKey|intros ?]. apply stable_call.
Qed.

Lemma stable_ensureKeyFileFolder : stable ensureKeyFileFolder.
Proof. unfold ensureKeyFileFolder. stable_tac. Qed.

Lemma stable_addKey (name : string) (keyPair : option KeyPair) : stable (addKey name keyPair).
Proof. unfold addKey. stable_tac. Qed.

Lemma stable_afterRun : stable afterRun.
Proof. unfold afterRun. stable_tac. Qed.

(** ** [run] *)

Lemma run_unfold (fn : RunnerFn) (st : St) :
  run fn st =
  match setUp st with
  | (Ok _, s0) =>
      match invoke fn s0 with
      | (Ok _, s1) => try_finally (mret tt) afterRun s1
      | (Throw e, s1) => try_finally (throw e) afterRun (snd (log_error e s1))
      end
  | (Throw e, s0) => try_finally (throw e) afterRun (snd (log_error e s0))
  end.
Proof.
  unfold run, setUp. unfold_legacy.
  destruct (getKeyStore st) as [[ks|e] s]; simpl; [|reflexivity].
  destruct (beforeConnect _) as [[[]|e] s1]; simpl; [|reflexivity].
  destruct (connect s1) as [[[]|e] s2]; simpl; [|reflexivity].
  destruct (afterConnect s2) as [[[]|e] s3]; simpl; [|reflexivity].
  destruct (invoke fn s3) as [[[]|e] s4]; simpl; reflexivity.
Qed.

Lemma run_Ok_inv (fn : RunnerFn) (st st' : St) :
  run fn st = (Ok tt, st') ->
  exists s0 s1, setUp st = (Ok tt, s0) /\ invoke fn s0 = (Ok tt, s1) /\ afterRun s1 = (Ok tt, st').
Proof.
  rewrite run_unfold.
  destruct (setUp st) as [[[]|e] s0] eqn:Hs.
  - destruct (invoke fn s0) as [[[]|e] s1] eqn:Hf.
    + unfold_legacy. destruct (afterRun s1) as [[[]|e] s2] eqn:Ha; [|intros H; discriminate H].
      intros H. injection H as <-. exists s0, s1. auto.
    + unfold_legacy. simpl. destruct (afterRun _) as [[[]|e2] s2]; intros H; discriminate H.
  - unfold_legacy. simpl. destruct (afterRun _) as [[[]|e2] s2]; intros H; discriminate H.
Qed.

(** X17: [run] returns exactly when every step before the runner
    function, the runner function and [afterRun] return, in this order;
    when a step before the runner function throws, the function is not
    called, and in every throwing case the error is logged, [afterRun]
    still runs, and the error leaves [run] unless [afterRun] throws its
    own. *)
Theorem run_outcome (fn : RunnerFn) (st : St) :
  (forall st', run fn st = (Ok tt, st')
               <-> exists s0 s1, setUp st = (Ok tt, s0)
                                 /\ invoke fn s0 = (Ok tt, s1)
                                 /\ afterRun s1 = (Ok tt, st'))
  /\ (forall e s0, setUp st = (Throw e, s0) ->
                   run fn st = try_finally (throw e) afterRun (snd (log_error e s0)))
  /\ (forall e s0 s1, setUp st = (Ok tt, s0) -> invoke fn s0 = (Throw e, s1) ->
                      run fn st = try_finally (throw e) afterRun (snd (log_error e s1))).
Proof.
  split; [|split].
  - intros st'. split; [apply run_Ok_inv|].
    intros (s0 & s1 & Hs & Hf & Ha). rewrite run_unfold, Hs, Hf. unfold_legacy.
    rewrite Ha. reflexivity.
  - intros e s0 Hs. rewrite run_unfold, Hs. reflexivity.
  - intros e s0 s1 Hs Hf. rewrite run_unfold, Hs, Hf. reflexivity.
Qed.

(** ** [TestnetRuntime] *)

Lemma ensureKeyFileFolder_run (st : St) :
  ensureKeyFileFolder st =
  (Ok tt, {| this := this st;
             outside := snd (perform (fs_mkdir (path_dirname (keyFilePath (this st))))
                                     (outside st)) |}).
Proof.
  unfold ensureKeyFileFolder, call. unfold_legacy. cbn -[keyFilePath].
  destruct (perform _ (outside st)) as [[[]|e] o]; reflexivity.
Qed.

Lemma TestnetRuntime_beforeConnect_guard (st : St) :
  truthy (masterAccount (config (this st))) = true ->
  TestnetRuntime_beforeConnect st =
  (Throw customMasterAccount,
   {| this := this st;
      outside := snd (perform (fs_mkdir (path_dirname (keyFilePath (this st))))
                              (outside st)) |}).
Proof.
  intros Ht. unfold TestnetRuntime_beforeConnect. unfold mbind, M_bind, bind.
  rewrite ensureKeyFileFolder_run. unfold self. cbn [this]. rewrite Ht. reflexivity.
Qed.

Lemma getKeyStore_run (st : St) :
  getKeyStore st =
  (Ok (UnencryptedFileSystemKeyStore
         (match kind (this st) with
          | TestnetRuntime => os_homedir +:+ "/.near-credentials"
          | SandboxRuntime => homeDir (config (this st))
          end)), st).
Proof. unfold getKeyStore. unfold_legacy. destruct (kind (this st)); reflexivity. Qed.

Lemma setUp_beforeConnect_throws (st s : St) (e : string) :
  beforeConnect {| this := with_keyStore
                             (Some (UnencryptedFileSystemKeyStore
                                      (match kind (this st) with
                                       | TestnetRuntime => os_homedir +:+ "/.near-credentials"
                                       | SandboxRuntime => homeDir (config (this st))
                                       end))) (this st);
                   outside := outside st |} = (Throw e, s) ->
  setUp st = (Throw e, s).
Proof.
  intros Hb. unfold setUp. unfold mbind, M_bind, bind. rewrite getKeyStore_run.
  unfold update. cbn [this outside]. rewrite Hb. reflexivity.
Qed.

Lemma TestnetRuntime_setUp_guard (st : St) :
  kind (this st) = TestnetRuntime ->
  truthy (masterAccount (config (this st))) = true ->
  setUp st =
  (Throw customMasterAccount,
   {| this := with_keyStore
                (Some (UnencryptedFileSystemKeyStore (os_homedir +:+ "/.near-credentials")))
                (this st);
      outside := snd (perform (fs_mkdir (path_dirname (keyFilePath (this st)))) (outside st)) |}).
Proof.
  intros Hk Ht. apply setUp_beforeConnect_throws. rewrite Hk.
  unfold beforeConnect. unfold mbind, M_bind, bind, self. cbn [this kind with_keyStore].
  rewrite Hk. rewrite TestnetRuntime_beforeConnect_guard by exact Ht. reflexivity.
Qed.

(** X18: a [TestnetRuntime] whose configuration carries a non-empty
    [masterAccount] cannot run: whatever the runner function, [run] rejects
    with the error of [beforeConnect]; the key file folder has been made
    and the error logged, and nothing else was done: no connection, no
    account, no call of the function, and the configuration is as it was. *)
Theorem TestnetRuntime_run_rejects_custom_master (fn : RunnerFn) (st : St) :
  kind (this st) = TestnetRuntime ->
  truthy (masterAccount (config (this st))) = true ->
  run fn st =
  (Throw customMasterAccount,
   {| this := with_keyStore
                (Some (UnencryptedFileSystemKeyStore (os_homedir +:+ "/.near-credentials")))
                (this st);
      outside := console_error customMasterAccount
                   (snd (perform (fs_mkdir (path_dirname (keyFilePath (this st))))
                                 (outside st))) |}).
Proof.
  intros Hk Ht. rewrite run_unfold, (TestnetRuntime_setUp_guard st Hk Ht).
  unfold afterRun. unfold_legacy. simpl. rewrite Hk. reflexivity.
Qed.

Lemma stable_run_Ok {A} (m : M A) (st st' : St) (a : A) :
  stable m -> m st = (Ok a, st') -> this st' = this st.
Proof. intros Hm Hr. specialize (Hm st). rewrite Hr in Hm. exact Hm. Qed.

Lemma randomAccountId_Ok (st st' : St) (id : string) :
  randomAccountId st = (Ok id, st') ->
  this st' = this st
  /\ exists now randomNumber, id = "dev-" +:+ show now +:+ "-" +:+ show randomNumber.
Proof.
  intros Hr. split; [exact (stable_run_Ok _ _ _ _ stable_randomAccountId Hr)|].
  unfold randomAccountId in Hr.
  apply legacy_bind_Ok in Hr as (randomNumber & s1 & _ & Hr).
  apply legacy_bind_Ok in Hr as (now & s2 & _ & Hr).
  injection Hr as <- _. eauto.
Qed.

Lemma TestnetRuntime_beforeConnect_sets_master (st st' : St) :
  truthy (masterAccount (config (this st))) = false ->
  TestnetRuntime_beforeConnect st = (Ok tt, st') ->
  kind (this st') = kind (this st)
  /\ exists now randomNumber,
      masterAccount (config (this st'))
      = Some ("dev-" +:+ show now +:+ "-" +:+ show randomNumber).
Proof.
  intros Ht Hr. unfold TestnetRuntime_beforeConnect in Hr.
  apply legacy_bind_Ok in Hr as ([] & s1 & H1 & Hr).
  rewrite ensureKeyFileFolder_run in H1. injection H1 as <-.
  apply legacy_bind_Ok in Hr as (rt & s1 & H1 & Hr).
  injection H1 as <- <-. cbn [this] in Hr. rewrite Ht in Hr.
  apply legacy_bind_Ok in Hr as (id & s2 & H2 & Hr).
  apply randomAccountId_Ok in H2 as (Hthis2 & now & rnd & ->). cbn [this] in Hthis2.
  apply legacy_bind_Ok in Hr as ([] & s3 & H3 & Hr).
  injection H3 as <-.
  apply legacy_bind_Ok in Hr as ([] & s4 & H4 & Hr).
  apply (stable_run_Ok _ _ _ _ stable_addMasterAccountKey) in H4. cbn [this] in H4.
  apply legacy_bind_Ok in Hr as (rt4 & s4' & H4' & Hr).
  injection H4' as <- <-.
  apply legacy_bind_Ok in Hr as (key & s5 & H5 & Hr).
  apply (stable_run_Ok _ _ _ _ stable_getMasterKey) in H5.
  apply legacy_bind_Ok in Hr as ([] & s6 & H6 & Hr).
  apply (stable_run_Ok _ _ _ _ (stable_call _)) in H6.
  assert (Hlast : this st' = this s6).
  { destruct (keyStore (this s4)) as [ks|]; [|discriminate Hr].
    apply legacy_bind_Ok in Hr as (k & s7 & H7 & Hr).
    apply (stable_run_Ok _ _ _ _ (stable_call _)) in H7. injection Hr as <-. exact H7. }
  rewrite Hlast, H6, H5, H4, Hthis2. split; [reflexivity|]. exists now, rnd. reflexivity.
Qed.

Lemma connect_Ok (st st' : St) :
  connect st = (Ok tt, st') ->
  kind (this st') = kind (this st) /\ config (this st') = config (this st).
Proof.
  intros Hr. unfold connect in Hr.
  apply legacy_bind_Ok in Hr as (rt & s1 & H1 & Hr). injection H1 as <- <-.
  apply legacy_bind_Ok in Hr as (n & s2 & H2 & Hr).
  apply (stable_run_Ok _ _ _ _ (stable_call _)) in H2.
  apply legacy_bind_Ok in Hr as ([] & s3 & H3 & Hr).
  injection H3 as <-. injection Hr as <-. cbn. rewrite H2. auto.
Qed.

Lemma invoke_keeps (fn : RunnerFn) (st : St) :
  runnersKeepMaster ->
  kind (this (snd (invoke fn st))) = kind (this st)
  /\ masterAccount (config (this (snd (invoke fn st)))) = masterAccount (config (this st)).
Proof.
  intros Hk. unfold invoke. specialize (Hk fn (this st) (outside st)).
  destruct (runFn fn (this st) (outside st)) as [r [rt o]]. exact Hk.
Qed.

Lemma afterConnect_keeps (st : St) :
  runnersKeepMaster ->
  kind (this (snd (afterConnect st))) = kind (this st)
  /\ masterAccount (config (this (snd (afterConnect st)))) = masterAccount (config (this st)).
Proof.
  intros Hk. unfold afterConnect. unfold mbind, M_bind, bind, self.
  destruct (kind (this st)) eqn:Hkind; [destruct (initFn (config (this st)))|];
    try (rewrite <- Hkind; apply invoke_keeps; exact Hk);
    cbn; (split; [exact Hkind|reflexivity]).
Qed.

Lemma setUp_Ok_inv (st st' : St) :
  setUp st = (Ok tt, st') ->
  exists s1 s2,
    beforeConnect {| this := with_keyStore
                               (Some (UnencryptedFileSystemKeyStore
                                        (match kind (this st) with
                                         | TestnetRuntime => os_homedir +:+ "/.near-credentials"
                                         | SandboxRuntime => homeDir (config (this st))
                                         end))) (this st);
                     outside := outside st |} = (Ok tt, s1)
    /\ connect s1 = (Ok tt, s2)
    /\ afterConnect s2 = (Ok tt, st').
Proof.
  intros Hr. unfold setUp in Hr.
  apply legacy_bind_Ok in Hr as (ks & s & H0 & Hr).
  rewrite getKeyStore_run in H0. injection H0 as <- <-.
  apply legacy_bind_Ok in Hr as ([] & s & H0 & Hr). injection H0 as <-.
  apply legacy_bind_Ok in Hr as ([] & s1 & H1 & Hr).
  apply legacy_bind_Ok in Hr as ([] & s2 & H2 & Hr).
  exists s1, s2. auto.
Qed.

Lemma truthy_dev (rest : string) : truthy (Some ("dev-" +:+ rest)) = true.
Proof. reflexivity. Qed.

(** X19: a [TestnetRuntime] runs once.  When [run] returns for a runtime
    without a [masterAccount] (and the runner functions do not change that
    field), [beforeConnect] has set [config.masterAccount] to the generated
    [dev-] id, so every later [run] of the same runtime rejects with the
    custom-masterAccount error. *)
Theorem TestnetRuntime_runs_once (fn fn' : RunnerFn) (st st1 : St) :
  kind (this st) = TestnetRuntime ->
  truthy (masterAccount (config (this st))) = false ->
  runnersKeepMaster ->
  run fn st = (Ok tt, st1) ->
  (exists now randomNumber,
      masterAccount (config (this st1))
      = Some ("dev-" +:+ show now +:+ "-" +:+ show randomNumber))
  /\ fst (run fn' st1) = Throw customMasterAccount.
Proof.
  intros Hk Ht Hkeep Hr.
  apply run_Ok_inv in Hr as (s0 & s1 & Hs & Hf & Ha).
  apply setUp_Ok_inv in Hs as (b1 & b2 & Hb & Hc & Hac).
  unfold beforeConnect in Hb. unfold mbind, M_bind, bind, self in Hb.
  cbn [this kind with_keyStore] in Hb. rewrite Hk in Hb.
  apply TestnetRuntime_beforeConnect_sets_master in Hb as (Hk1 & now & rnd & Hm1); [|exact Ht].
  cbn [this kind with_keyStore] in Hk1.
  apply connect_Ok in Hc as (Hk2 & Hc2).
  pose proof (afterConnect_keeps b2 Hkeep) as (Hk3 & Hm3). rewrite Hac in Hk3, Hm3.
  pose proof (invoke_keeps fn s0 Hkeep) as (Hk4 & Hm4). rewrite Hf in Hk4, Hm4.
  apply (stable_run_Ok _ _ _ _ stable_afterRun) in Ha.
  cbn [snd] in Hk3, Hm3, Hk4, Hm4.
  assert (Hkind : kind (this st1) = TestnetRuntime) by congruence.
  assert (Hmaster : masterAccount (config (this st1))
                    = Some ("dev-" +:+ show now +:+ "-" +:+ show rnd)).
  { rewrite Ha, Hm4, Hm3, Hc2. exact Hm1. }
  split; [eauto|].
  rewrite run_unfold, (TestnetRuntime_setUp_guard st1 Hkind).
  - unfold afterRun. unfold_legacy. simpl. rewrite Hkind. reflexivity.
  - rewrite Hmaster. apply truthy_dev.
Qed.

(** ** Accounts *)

Lemma append_grows (s t : string) : s +:+ t = s -> t = "".
Proof.
  induction s as [|c s IH]; [intros H; exact H|].
  rewrite append_cons. intros [= H]. exact (IH H).
Qed.

(** X20: when [createAccount(name)] returns, the key was added and the
    account created under one id, and the handle returned is for another
    on a [TestnetRuntime]: the creator is asked for [name.master], and the
    handle is for [name.master.master], an id with the master account as
    suffix twice that is never the created one; on a [SandboxRuntime] both
    are [name].  The runtime object is left as it was. *)
Theorem createAccount_created_and_returned (name : string) (keyPair : option KeyPair)
        (st st' : St) (a : Account) :
  createAccount name keyPair st = (Ok a, st') ->
  accountId a = Some (returnedId (this st) name)
  /\ this st' = this st
  /\ (exists n pubKey s1,
         near (this st) = Some n
         /\ account_near a = n
         /\ addKey (createdId (this st) name) keyPair st = (Ok pubKey, s1)
         /\ perform (near_accountCreator_createAccount n (createdId (this st) name) pubKey)
                    (outside s1) = (Ok tt, outside st'))
  /\ (kind (this st) = TestnetRuntime ->
      returnedId (this st) name
      = createdId (this st) name +:+ "." +:+ masterAccountText (this st)
      /\ returnedId (this st) name <> createdId (this st) name).
Proof.
  intros Hr.
  assert (Hbase : forall sub,
             Runtime_createAccount sub keyPair st = (Ok a, st') ->
             accountId a
             = Some (match kind (this st) with
                     | TestnetRuntime => sub +:+ "." +:+ masterAccountText (this st)
                     | SandboxRuntime => sub
                     end)
             /\ this st' = this st
             /\ exists n pubKey s1,
                 near (this st) = Some n /\ account_near a = n
                 /\ addKey sub keyPair st = (Ok pubKey, s1)
                 /\ perform (near_accountCreator_createAccount n sub pubKey) (outside s1)
                    = (Ok tt, outside st')).
  { intros sub Hc. unfold Runtime_createAccount in Hc.
    apply legacy_bind_Ok in Hc as (pubKey & s1 & Hk & Hc).
    pose proof (stable_run_Ok _ _ _ _ (stable_addKey sub keyPair) Hk) as Hthis1.
    apply legacy_bind_Ok in Hc as (rt & s1' & H1 & Hc). injection H1 as <- <-.
    apply legacy_bind_Ok in Hc as ([] & s2 & H2 & Hc).
    rewrite Hthis1 in H2.
    destruct (near (this st)) as [n|] eqn:Hn; [|discriminate H2].
    unfold call in H2.
    destruct (perform _ (outside s1)) as [[[]|e] o2] eqn:Hp; [|discriminate H2].
    injection H2 as <-.
    unfold getAccount, makeSubAccount, Runtime_getAccount in Hc.
    unfold_legacy. cbn [this outside] in Hc. rewrite Hthis1 in Hc.
    destruct (kind (this st)); cbn [this outside] in Hc; rewrite ?Hthis1, Hn in Hc;
      injection Hc as <- <-; cbn [this outside accountId account_near];
      (split; [reflexivity|]); (split; [reflexivity|]);
      exists n, pubKey, s1; auto. }
  unfold createAccount, makeSubAccount in Hr. unfold mbind, M_bind, bind, self, mret, M_ret, ret in Hr.
  unfold returnedId, createdId.
  destruct (kind (this st)) eqn:Hkind.
  - destruct (Hbase _ Hr) as (Hid & Hthis & Hex).
    split; [exact Hid|]. split; [exact Hthis|]. split; [exact Hex|].
    intros _. split; [reflexivity|].
    intros Heq. apply append_grows in Heq. rewrite append_cons in Heq. discriminate Heq.
  - destruct (Hbase _ Hr) as (Hid & Hthis & Hex).
    split; [exact Hid|]. split; [exact Hthis|]. split; [exact Hex|].
    intros H. discriminate H.
Qed.

(** ** [SandboxRuntime] *)

(** X21: on a [SandboxRuntime] whose server was never set, when
    [SandboxServer.init] throws, [run] does not reject with that error: the
    error is logged, and [afterRun], reading the port of the missing
    server, throws the [TypeError] that leaves [run].  The runner function
    is not called. *)
Theorem SandboxRuntime_run_masks_init_error (fn : RunnerFn) (st : St) (e : string)
        (o : Outside) :
  kind (this st) = SandboxRuntime ->
  server (this st) = None ->
  perform (SandboxServer_init (config (this st))) (outside st) = (Throw e, o) ->
  run fn st =
  (Throw (TypeError_undefined "port"),
   {| this := with_keyStore (Some (UnencryptedFileSystemKeyStore (homeDir (config (this st)))))
                            (this st);
      outside := console_error e o |}).
Proof.
  intros Hk Hs Hp.
  assert (Hset : setUp st =
                 (Throw e,
                  {| this := with_keyStore
                               (Some (UnencryptedFileSystemKeyStore (homeDir (config (this st)))))
                               (this st);
                     outside := o |})).
  { apply setUp_beforeConnect_throws. rewrite Hk.
    unfold beforeConnect, SandboxRuntime_beforeConnect, call.
    unfold mbind, M_bind, bind, self. cbn [this kind with_keyStore config outside].
    rewrite Hk. cbn [this kind with_keyStore config outside]. rewrite Hp. reflexivity. }
  rewrite run_unfold, Hset. unfold afterRun. unfold_legacy.
  cbn [snd this kind with_keyStore server]. rewrite Hk, Hs. reflexivity.
Qed.

End LegacyRuntime.

(** * The further properties on concrete runs *)

Section FurtherScenarios.

(** A root with 1500 tokens: [init()] asks twice and is done. *)
Lemma TestnetManager_init_funded_root_witness :
  TestnetManager_init fundedRoot =
  (Ok tt, on_world (logged (EvAccountBalance "root.testnet"))
            (on_world (logged (EvAccountExists "root.testnet")) fundedRoot)).
Proof.
  apply (TestnetManager_init_funded_root fundedRoot "root.testnet"
           {| total := toYocto 1500; available := toYocto 1500 |}).
  - vm_compute. discriminate.
  - reflexivity.
  - discriminate.
  - vm_compute. reflexivity.
  - vm_compute. reflexivity.
  - vm_compute. discriminate.
Defined.


(** The key file of the scenario is read, and its key stored for the root. *)
Example create_sandbox_reads_key_file :
  let w := sandboxWorld [("/tmp/sandbox/validator_key.json", "kv")] in
  fst (create sandboxConfig w) = Ok (newManager Sandbox sandboxConfig)
  /\ ks_getKey (keyStore (snd (create sandboxConfig w))) "sandbox" "test.near" = Some "kv".
Proof. vm_compute. split; reflexivity. Qed.

(** A home directory that does not exist: the key file cannot be opened,
    [create] rejects and no key is stored. *)
Example create_sandbox_missing_homeDir :
  let near := {| network := "sandbox"; rootAccount := Some "test.near";
                 initialBalance := None; homeDir := "/nowhere"; helperUrl := None |} in
  fst (create near (sandboxWorld []))
  = Throw "ENOENT: no such file or directory, open '/nowhere/validator_key.json'"
  /\ ks_getKey (keyStore (snd (create near (sandboxWorld [])))) "sandbox" "test.near" = None.
Proof. vm_compute. split; reflexivity. Qed.

(** A home directory written with a trailing slash names the same file. *)
Example keyFilePath_trailing_slash :
  keyFilePath (HO := SimHost (toYocto 200))
              (newManager Sandbox {| network := "sandbox"; rootAccount := None;
                                     initialBalance := None; homeDir := "/tmp/sandbox/";
                                     helperUrl := None |})
  = "/tmp/sandbox/validator_key.json".
Proof. vm_compute. reflexivity. Qed.

(** A relative path: the key is written under the working directory, where
    [require] does not look, and a second call writes another key. *)
Example getKeyFromFile_relative_path :
  let st := {| world := sandboxWorld []; mgr := newManager Sandbox sandboxConfig |} in
  let run := getKeyFromFile "key.json" true st in
  exists k1 k2,
    fst run = Ok k1
    /\ fst (getKeyFromFile "key.json" true (snd run)) = Ok k2
    /\ k1 <> k2.
Proof.
  cbv zeta. eexists _, _. split; [vm_compute; reflexivity|].
  split; [vm_compute; reflexivity|]. vm_compute. discriminate.
Qed.

(** The simulated file system gives back the key file of an absolute
    path. *)
Lemma readsBack_sim_absolute (grant : N) (p : string) :
  sim_absolute p = true -> readsBack (HO := SimHost grant) p.
Proof.
  intros Habs. split.
  - intros f k f' Hr. simpl in *. unfold sim_require_keyFile in *. rewrite Habs in *.
    destruct (f !! p) as [k0|] eqn:Hk; [|discriminate Hr].
    injection Hr as <- <-. rewrite Hk. reflexivity.
  - intros f h f1 k f2 f3 Ho Hw Hc. simpl in *.
    unfold sim_fs_open, sim_resolve in Ho. rewrite Habs in Ho.
    destruct (existsb _ _); [|discriminate Ho]. injection Ho as <- <-.
    unfold sim_keyFile_writeFile in Hw. injection Hw as <-.
    unfold sim_keyFile_close in Hc. injection Hc as <-.
    unfold sim_require_keyFile. rewrite Habs.
    rewrite (lookup_insert_eq (M := gmap string)). reflexivity.
Qed.

(** An absolute path in an existing directory is read back. *)
Example readsBack_sandbox_key_file :
  let st := {| world := sandboxWorld []; mgr := newManager Sandbox sandboxConfig |} in
  let run := getKeyFromFile "/tmp/sandbox/validator_key.json" true st in
  exists k,
    fst run = Ok k
    /\ fst (getKeyFromFile "/tmp/sandbox/validator_key.json" true (snd run)) = Ok k.
Proof. cbv zeta. eexists. split; vm_compute; reflexivity. Qed.

(** One 200-token grant swept into a root that holds 1500 tokens. *)
Lemma addFunds_sweeps_one_grant_witness :
  account_balance (chain (world (snd (addFunds fundedRoot)))) "root.testnet"
  = Ok {| total := toYocto 1500 + toYocto 200; available := toYocto 1500 + toYocto 200 |}.
Proof.
  apply (addFunds_sweeps_one_grant (toYocto 200) fundedRoot (snd (addFunds fundedRoot))
           (registered (toYocto 1500) "kr")).
  - vm_compute. reflexivity.
  - vm_compute. reflexivity.
Defined.

(** A configured root that is not on the chain and has no stored key. *)
Lemma TestnetManager_init_registers_stored_key_witness :
  exists k acc,
    storedKey (snd (TestnetManager_init missingRoot)) "root.testnet" = Some k
    /\ (chain (world (snd (TestnetManager_init missingRoot))) : gmap AccountId SimAccount)
       !! "root.testnet" = Some acc
    /\ sim_key acc = getPublicKey k
    /\ (forall k0, storedKey missingRoot "root.testnet" = Some k0 -> k = k0).
Proof.
  apply (TestnetManager_init_registers_stored_key (toYocto 200) missingRoot
           (snd (TestnetManager_init missingRoot)) "root.testnet").
  - vm_compute. discriminate.
  - reflexivity.
  - discriminate.
  - vm_compute. reflexivity.
  - vm_compute. reflexivity.
Defined.

End FurtherScenarios.

(** ** Concrete runs of the legacy runtime *)

Section LegacyScenarios.
Import Legacy.

(** A testnet runtime configured with [me.testnet]. *)
Lemma TestnetRuntime_run_rejects_custom_master_witness :
  fst (run (true : @RunnerFn SimHandles) (sim_testnet (Some "me.testnet")))
  = Throw customMasterAccount
  /\ sim_journal (outside (snd (run (true : @RunnerFn SimHandles)
                                    (sim_testnet (Some "me.testnet")))))
     = ["mkdir /home/user/.near-credentials/testnet";
        "console.error custom masterAccount not yet supported on testnet"].
Proof.
  rewrite (@TestnetRuntime_run_rejects_custom_master SimHandles SimPlatform true
             (sim_testnet (Some "me.testnet"))).
  - split; reflexivity.
  - reflexivity.
  - reflexivity.
Defined.

(** A testnet runtime without a master account runs, and then runs no more. *)
Lemma TestnetRuntime_runs_once_witness :
  (exists now randomNumber,
      masterAccount (config (this (snd (run (true : @RunnerFn SimHandles) (sim_testnet None)))))
      = Some ("dev-" +:+ show now +:+ "-" +:+ show randomNumber))
  /\ fst (run (true : @RunnerFn SimHandles)
              (snd (run (true : @RunnerFn SimHandles) (sim_testnet None))))
     = Throw customMasterAccount.
Proof.
  apply (@TestnetRuntime_runs_once SimHandles SimPlatform true true (sim_testnet None)
           (snd (run (true : @RunnerFn SimHandles) (sim_testnet None)))).
  - reflexivity.
  - reflexivity.
  - intros f rt o. split; reflexivity.
  - vm_compute. reflexivity.
Defined.

(** [createAccount("alice")] on a runtime connected under [me.testnet]:
    [alice.me.testnet] is created, the handle is for another id. *)
Lemma createAccount_created_and_returned_witness :
  createdId (this sim_connected) "alice" = "alice.me.testnet"
  /\ accountId {| account_near := "https://rpc.testnet.near.org" : @Near SimHandles;
                  accountId := Some "alice.me.testnet.me.testnet" |}
     = Some (returnedId (this sim_connected) "alice")
  /\ this (snd (createAccount "alice" None sim_connected)) = this sim_connected.
Proof.
  split; [reflexivity|].
  assert (Hr : createAccount "alice" None sim_connected
               = (Ok {| account_near := "https://rpc.testnet.near.org" : @Near SimHandles;
                        accountId := Some "alice.me.testnet.me.testnet" |},
                  snd (createAccount "alice" None sim_connected)))
    by (vm_compute; reflexivity).
  destruct (@createAccount_created_and_returned SimHandles SimPlatform "alice" None
              sim_connected _ _ Hr) as (Hid & Hthis & _).
  exact (conj Hid Hthis).
Defined.

(** A sandbox whose server cannot start on port 0. *)
Lemma SandboxRuntime_run_masks_init_error_witness :
  fst (run (true : @RunnerFn SimHandles) (sim_sandbox 0))
  = Throw "Cannot read properties of undefined (reading 'port')"
  /\ sim_journal (outside (snd (run (true : @RunnerFn SimHandles) (sim_sandbox 0))))
     = ["console.error sandbox: port 0 is not available"].
Proof.
  rewrite (@SandboxRuntime_run_masks_init_error SimHandles SimPlatform true (sim_sandbox 0)
             "sandbox: port 0 is not available" sim_start).
  - split; reflexivity.
  - reflexivity.
  - reflexivity.
  - reflexivity.
Defined.

End LegacyScenarios.
